(** * SMSC simulator: the shared message ledger

    A shallow embedding of the message-handling core of the SMSC simulator
    ([smsc_simulator.py]) and of the stand-alone port-80 listener
    ([http_server_80.py]): the process-local view [processed_messages], the
    counters, the shared file [shared_messages.json] and the request
    handlers that feed them.

    Python values that reach the ledger are JSON values; the [try]/[except]
    blocks of the source are kept as such, over a monad that threads the
    mutable world (the handler object, the shared file, the response
    stream) through raised exceptions, because the source mutates
    [self.processed_messages] and the file before an exception is caught. *)

From Stdlib Require Import List String Ascii ZArith Lia Bool Arith DecimalString.
Import ListNotations.
Open Scope string_scope.
Open Scope list_scope.

Set Implicit Arguments.
Set Warnings "-register-all".

(** ** JSON values and Python dictionaries *)

(** The values [json.load] returns and [json.dump] accepts.  Numbers are the
    integers the writers of this repository emit (ids and counts); dictionary
    keys are kept in insertion order, as in Python. *)
Inductive json : Type :=
| JNull
| JBool (b : bool)
| JNum (n : Z)
| JStr (s : string)
| JArr (items : list json)
| JObj (fields : list (string * json)).

Definition pydict : Type := list (string * json).

Fixpoint dict_find (k : string) (d : pydict) : option json :=
  match d with
  | [] => None
  | (k', v) :: rest => if String.eqb k k' then Some v else dict_find k rest
  end.

(** [d.get(k, default)] *)
Definition dict_get (d : pydict) (k : string) (default : json) : json :=
  match dict_find k d with
  | Some v => v
  | None => default
  end.

(** [k in d] *)
Definition dict_has (d : pydict) (k : string) : bool :=
  match dict_find k d with
  | Some _ => true
  | None => false
  end.

(** ** Exceptions and the world monad *)

Inductive exn : Type :=
| AttributeError
| TypeError
| KeyError
| JSONDecodeError
| OSError
| ValueError.

Inductive result (A : Type) : Type :=
| Ok (a : A)
| Raise (e : exn).

Arguments Ok {A} a.
Arguments Raise {A} e.

(** A computation over a mutable state [S]: it ends normally or by raising,
    and in both cases hands back the state it has reached. *)
Definition M (S A : Type) : Type := S -> result A * S.

Definition ret {S A : Type} (a : A) : M S A := fun s => (Ok a, s).

Definition raise {S A : Type} (e : exn) : M S A := fun s => (Raise e, s).

Definition bind {S A B : Type} (m : M S A) (k : A -> M S B) : M S B :=
  fun s =>
    match m s with
    | (Ok a, s') => k a s'
    | (Raise e, s') => (Raise e, s')
    end.

(** [try: body except Exception as e: handler] *)
Definition try_except {S A : Type} (body : M S A) (handler : exn -> M S A) : M S A :=
  fun s =>
    match body s with
    | (Ok a, s') => (Ok a, s')
    | (Raise e, s') => handler e s'
    end.

(** [try: body except (E1, E2): handler], other exceptions propagate *)
Definition try_except_only {S A : Type} (caught : exn -> bool)
    (body : M S A) (handler : M S A) : M S A :=
  fun s =>
    match body s with
    | (Ok a, s') => (Ok a, s')
    | (Raise e, s') => if caught e then handler s' else (Raise e, s')
    end.

Definition modify {S : Type} (f : S -> S) : M S unit := fun s => (Ok tt, f s).

Definition lift_result {S A : Type} (r : result A) : M S A := fun s => (r, s).

Declare Scope py_scope.
Delimit Scope py_scope with py.
Notation "x <- m ;; k" := (bind m (fun x => k))
  (at level 61, m at next level, right associativity) : py_scope.
Notation "m ;; k" := (bind m (fun _ => k))
  (at level 61, right associativity) : py_scope.
Open Scope py_scope.

(** [for x in xs: body x] *)
Fixpoint for_each {S A : Type} (xs : list A) (body : A -> M S unit) : M S unit :=
  match xs with
  | [] => ret tt
  | x :: rest => body x ;; for_each rest body
  end.

(** ** Hashing and equality of set elements *)

(** The key under which a Python [set] files a JSON value: [None], an
    integer ([True] and [False] hash and compare as 1 and 0) or a string.
    Lists and dictionaries are unhashable. *)
Inductive pykey : Type :=
| KNone
| KInt (n : Z)
| KStr (s : string).

Definition pykey_eqb (a b : pykey) : bool :=
  match a, b with
  | KNone, KNone => true
  | KInt x, KInt y => Z.eqb x y
  | KStr x, KStr y => String.eqb x y
  | _, _ => false
  end.

Definition py_hash (v : json) : result pykey :=
  match v with
  | JNull => Ok KNone
  | JBool b => Ok (KInt (if b then 1 else 0))
  | JNum n => Ok (KInt n)
  | JStr s => Ok (KStr s)
  | JArr _ => Raise TypeError
  | JObj _ => Raise TypeError
  end.

(** [k in s] for a set kept as the list of its keys *)
Definition set_mem (k : pykey) (s : list pykey) : bool := existsb (pykey_eqb k) s.

(** [for x in v]: lists yield their items, dictionaries their keys, strings
    their characters; the other JSON values are not iterable. *)
Definition chars (s : string) : list json :=
  map (fun c => JStr (String c EmptyString)) (list_ascii_of_string s).

Definition py_iter (v : json) : result (list json) :=
  match v with
  | JArr items => Ok items
  | JObj fields => Ok (map (fun kv => JStr (fst kv)) fields)
  | JStr s => Ok (chars s)
  | _ => Raise TypeError
  end.

(** [l[-n:]] *)
Definition last_n {A : Type} (n : nat) (l : list A) : list A :=
  skipn (List.length l - n) l.

(** [str(n)] for an integer *)
Definition str_of_int (n : Z) : string := NilZero.string_of_int (Z.to_int n).

(** ** The shared file *)

(** What [shared_messages.json] holds: nothing (no such file), bytes that
    [json.load] rejects (an empty or half-written file among them), or a
    JSON document. *)
Inductive file : Type :=
| Missing
| Unparsable
| Document (j : json).

(** How the next attempt to rewrite the file ends: the write goes through,
    [open(..., 'w')] is refused (permissions), or the file is opened and
    [json.dump] fails before the document is complete (disk full). *)
Inductive write_outcome : Type :=
| WriteCompletes
| OpenDenied
| DumpInterrupted.

Record shared_store : Type := mk_store
  { content : file;
    readable : bool;
    on_write : write_outcome }.

(** [os.path.exists(shared_file)] *)
Definition os_path_exists (st : shared_store) : bool :=
  match content st with
  | Missing => false
  | _ => true
  end.

(** [with open(shared_file, 'r') as f: json.load(f)] *)
Definition open_r_json_load : M shared_store json :=
  fun st =>
    if readable st then
      match content st with
      | Missing => (Raise OSError, st)
      | Unparsable => (Raise JSONDecodeError, st)
      | Document j => (Ok j, st)
      end
    else (Raise OSError, st).

(** [open(shared_file, 'w')]: the file is truncated as soon as it is opened. *)
Definition open_w : M shared_store unit :=
  fun st =>
    match on_write st with
    | OpenDenied => (Raise OSError, st)
    | _ => (Ok tt, mk_store Unparsable (readable st) (on_write st))
    end.

(** [json.dump(doc, f)] into the file just opened, and the close *)
Definition json_dump (doc : json) : M shared_store unit :=
  fun st =>
    match on_write st with
    | WriteCompletes => (Ok tt, mk_store (Document doc) (readable st) (on_write st))
    | _ => (Raise OSError, st)
    end.

(** [with open(shared_file, 'w') as f: json.dump(doc, f)] *)
Definition open_w_json_dump (doc : json) : M shared_store unit :=
  open_w ;; json_dump doc.

(** ** Responses written to the client *)

Record response : Type := mk_response
  { status_code : Z;
    body : pydict }.

(** ** Query strings *)

(** The result of [urllib.parse.parse_qs]: each key that occurs in the query
    string with its values, first value apart (a key is only listed with at
    least one value, and blank values are dropped by the parser). *)
Definition query : Type := list (string * (string * list string)).

Fixpoint query_find (k : string) (q : query) : option (string * list string) :=
  match q with
  | [] => None
  | (k', vs) :: rest => if String.eqb k k' then Some vs else query_find k rest
  end.

(** [query_params.get(k, [default])[0]] *)
Definition query_first (q : query) (k : string) (default : string) : string :=
  match query_find k q with
  | Some (v, _) => v
  | None => default
  end.

(** [k in params] *)
Definition query_has (q : query) (k : string) : bool :=
  match query_find k q with
  | Some _ => true
  | None => false
  end.

(** [dict(query_params)] as the JSON value stored in a record *)
Definition json_of_query (q : query) : json :=
  JObj (map (fun kv => (fst kv, JArr (map JStr (fst (snd kv) :: snd (snd kv))))) q).

Definition hex_value (c : ascii) : option nat :=
  let n := nat_of_ascii c in
  if (48 <=? n)%nat && (n <=? 57)%nat then Some (n - 48)%nat
  else if (65 <=? n)%nat && (n <=? 70)%nat then Some (n - 55)%nat
  else if (97 <=? n)%nat && (n <=? 102)%nat then Some (n - 87)%nat
  else None.

(** [urllib.parse.unquote] on byte strings: [%XX] with two hexadecimal
    digits becomes the byte, every other character is kept.  A string
    stands for its UTF-8 bytes, so this is the function of the library
    wherever the unquoted bytes are valid UTF-8; bytes that are not, which
    the library replaces by U+FFFD, are kept as they are. *)
Fixpoint unquote (s : string) : string :=
  match s with
  | EmptyString => EmptyString
  | String c rest =>
      if Ascii.eqb c "%"
      then match rest with
           | String a (String b rest') =>
               match hex_value a, hex_value b with
               | Some x, Some y => String (ascii_of_nat (16 * x + y)) (unquote rest')
               | _, _ => String c (unquote rest)
               end
           | _ => String c (unquote rest)
           end
      else String c (unquote rest)
  end.

(** Truth value of a string: [bool(s)] *)
Definition truthy (s : string) : bool := negb (String.eqb s "").

(** [v == s] for a string literal [s] *)
Definition is_str (v : json) (s : string) : bool :=
  match v with
  | JStr t => String.eqb t s
  | _ => false
  end.

(** ** smsc_simulator.py *)

Module smsc_simulator.

(** *** APDUParser *)

Definition remove_spaces (s : string) : string :=
  string_of_list_ascii
    (filter (fun c => negb (Ascii.eqb c " ")) (list_ascii_of_string s)).

Definition upper_ascii (c : ascii) : ascii :=
  let n := nat_of_ascii c in
  if (97 <=? n)%nat && (n <=? 122)%nat then ascii_of_nat (n - 32) else c.

(** [s.upper()] on the ASCII letters: the bytes [a] .. [z] are mapped, all
    other bytes are kept.  This is [str.upper] on ASCII text; letters
    outside ASCII, which [str.upper] maps too, are left as they are. *)
Definition upper (s : string) : string :=
  string_of_list_ascii (map upper_ascii (list_ascii_of_string s)).

(** [APDUParser.parse_hex_string]; on a string none of its steps raises, so
    the dictionary of the [try] branch is the result.  Lengths and offsets
    count bytes: they are those of [len] and [find] on ASCII text, which is
    what hexadecimal data is. *)
Definition parse_hex_string (hex_data : string) (now : string) : pydict :=
  let hex_clean := upper (remove_spaces hex_data) in
  let result :=
    [ ("raw_data", JStr hex_data);
      ("hex_clean", JStr hex_clean);
      ("length", JNum (Z.of_nat (String.length hex_clean / 2)));
      ("timestamp", JStr now);
      ("parsed", JBool true) ] in
  let result :=
    if (4 <=? String.length hex_clean)%nat
    then result ++ [ ("message_type", JStr (substring 0 2 hex_clean));
                     ("message_reference", JStr (substring 2 2 hex_clean)) ]
    else result in
  match index 0 "91" hex_clean with
  | Some idx => result ++ [ ("number_type", JStr "international");
                            ("number_indicator_pos", JNum (Z.of_nat idx)) ]
  | None => result
  end.

(** *** SMSHandler *)

Record SMSHandler : Type := mk_SMSHandler
  { message_counter : Z;
    processed_messages : list pydict;
    successful_messages : Z;
    failed_messages : Z;
    start_time : string }.

(** [SMSHandler.__init__] *)
Definition SMSHandler_init (now : string) : SMSHandler :=
  mk_SMSHandler 0 [] 0 0 now.

Definition set_message_counter (n : Z) (h : SMSHandler) : SMSHandler :=
  mk_SMSHandler n (processed_messages h) (successful_messages h)
    (failed_messages h) (start_time h).

Definition set_processed_messages (l : list pydict) (h : SMSHandler) : SMSHandler :=
  mk_SMSHandler (message_counter h) l (successful_messages h)
    (failed_messages h) (start_time h).

Definition set_successful_messages (n : Z) (h : SMSHandler) : SMSHandler :=
  mk_SMSHandler (message_counter h) (processed_messages h) n
    (failed_messages h) (start_time h).

Definition set_failed_messages (n : Z) (h : SMSHandler) : SMSHandler :=
  mk_SMSHandler (message_counter h) (processed_messages h)
    (successful_messages h) n (start_time h).

Definition set_start_time (t : string) (h : SMSHandler) : SMSHandler :=
  mk_SMSHandler (message_counter h) (processed_messages h)
    (successful_messages h) (failed_messages h) t.

(** What one listener process works on: its handler object, the shared file
    and the responses it has written to its clients. *)
Record world : Type := mk_world
  { sms_handler : SMSHandler;
    disk : shared_store;
    wfile : list response }.

Definition self : M world SMSHandler := fun w => (Ok (sms_handler w), w).

Definition assign (f : SMSHandler -> SMSHandler) : M world unit :=
  modify (fun w => mk_world (f (sms_handler w)) (disk w) (wfile w)).

Definition with_disk {A : Type} (m : M shared_store A) : M world A :=
  fun w =>
    let (r, d) := m (disk w) in
    (r, mk_world (sms_handler w) d (wfile w)).

Definition send (r : response) : M world unit :=
  modify (fun w => mk_world (sms_handler w) (disk w) (wfile w ++ [r])).

(** [if len(self.processed_messages) > 100: self.processed_messages.pop(0)] *)
Definition keep_last_100_pop : M world unit :=
  h <- self ;;
  if (100 <? List.length (processed_messages h))%nat
  then assign (fun h => set_processed_messages (tl (processed_messages h)) h)
  else ret tt.

Definition process_sms (apdu_data : pydict) (msisdn : string)
    (now_response now_record : string) : M world pydict :=
  assign (fun h => set_message_counter (message_counter h + 1) h) ;;
  h <- self ;;
  let response :=
    [ ("message_id", JNum (message_counter h));
      ("status", JStr "received");
      ("msisdn", JStr msisdn);
      ("apdu_info", JObj apdu_data);
      ("processed_at", JStr now_response);
      ("response_code", JStr "00") ] in
  let message_data :=
    [ ("id", JNum (message_counter h));
      ("msisdn", JStr msisdn);
      ("timestamp", JStr now_record);
      ("status", JStr (if is_str (dict_get response "response_code" JNull) "00"
                       then "success" else "failed"));
      ("apdu_info", JObj apdu_data);
      ("apdu_hex", dict_get apdu_data "raw_data" (JStr ""));
      ("direction", JStr "received") ] in
  assign (fun h => set_processed_messages (processed_messages h ++ [message_data]) h) ;;
  (if is_str (dict_get response "response_code" JNull) "00"
   then assign (fun h => set_successful_messages (successful_messages h + 1) h)
   else assign (fun h => set_failed_messages (failed_messages h + 1) h)) ;;
  keep_last_100_pop ;;
  ret response.

(** [get_statistics], without the fields computed from the wall clock in
    floating point ([uptime_seconds], [messages_per_minute]). *)
Definition get_statistics : M world pydict :=
  h <- self ;;
  let last_message_time :=
    match rev (processed_messages h) with
    | last_msg :: _ =>
        if dict_has last_msg "timestamp"
        then dict_get last_msg "timestamp" JNull
        else dict_get last_msg "timestamp" JNull
    | [] => JNull
    end in
  ret [ ("total_messages", JNum (message_counter h));
        ("successful_messages", JNum (successful_messages h));
        ("failed_messages", JNum (failed_messages h));
        ("last_processed", match rev (processed_messages h) with
                           | last_msg :: _ => JObj last_msg
                           | [] => JNull
                           end);
        ("last_message_time", last_message_time);
        ("start_time", JStr (start_time h)) ].

Definition clear_messages : M world unit :=
  assign (set_processed_messages []) ;;
  assign (set_message_counter 0) ;;
  assign (set_successful_messages 0) ;;
  assign (set_failed_messages 0).

Definition reset_statistics (now : string) : M world unit :=
  assign (set_processed_messages []) ;;
  assign (set_message_counter 0) ;;
  assign (set_successful_messages 0) ;;
  assign (set_failed_messages 0) ;;
  assign (set_start_time now).

(** [messages.append(x)]: only a list has [append]. *)
Definition py_append (messages : json) (x : json) : result (list json) :=
  match messages with
  | JArr l => Ok (l ++ [x])
  | _ => Raise AttributeError
  end.

(** [messages = messages[-100:]] when [len(messages) > 100] *)
Definition keep_last_100 {A : Type} (l : list A) : list A :=
  if (100 <? List.length l)%nat then last_n 100 l else l.

Definition _save_message_to_shared_file (message_data : pydict) : M world unit :=
  try_except
    (file_exists <- with_disk (fun d => (Ok (os_path_exists d), d)) ;;
     messages <- (if file_exists
                  then try_except (with_disk open_r_json_load)
                                  (fun _ => ret (JArr []))
                  else ret (JArr [])) ;;
     messages <- lift_result (py_append messages (JObj message_data)) ;;
     with_disk (open_w_json_dump (JArr (keep_last_100 messages))))
    (fun _ => ret tt).

Definition add_message (sms_data : pydict) (now : string) : M world pydict :=
  assign (fun h => set_message_counter (message_counter h + 1) h) ;;
  h <- self ;;
  let message_data :=
    [ ("id", JNum (message_counter h));
      ("timestamp", dict_get sms_data "timestamp" (JStr now));
      ("status", JStr "success");
      ("source", dict_get sms_data "source" (JStr "http"));
      ("format", dict_get sms_data "format" (JStr "unknown"));
      ("raw_data", dict_get sms_data "raw_data" (JStr ""));
      ("user_data", dict_get sms_data "user_data" (JStr ""));
      ("destination_address", dict_get sms_data "destination_address" (JStr ""));
      ("protocol_identifier", dict_get sms_data "protocol_identifier" (JStr ""));
      ("data_coding_scheme", dict_get sms_data "data_coding_scheme" (JStr ""));
      ("query_params", dict_get sms_data "query_params" (JObj []));
      ("direction", JStr "received") ] in
  assign (fun h => set_processed_messages (processed_messages h ++ [message_data]) h) ;;
  assign (fun h => set_successful_messages (successful_messages h + 1) h) ;;
  keep_last_100_pop ;;
  _save_message_to_shared_file message_data ;;
  ret message_data.

Definition simulate_outgoing_message (destination_msisdn message_text : string)
    (now : string) : M world pydict :=
  assign (fun h => set_message_counter (message_counter h + 1) h) ;;
  h <- self ;;
  let message_data :=
    [ ("id", JNum (message_counter h));
      ("timestamp", JStr now);
      ("status", JStr "success");
      ("source", JStr "simulator");
      ("format", JStr "outgoing_simulation");
      ("raw_data", JStr (String.append "SIMULATED_OUTGOING_"
                           (str_of_int (message_counter h))));
      ("user_data", JStr message_text);
      ("destination_address", JStr destination_msisdn);
      ("protocol_identifier", JStr "00");
      ("data_coding_scheme", JStr "00");
      ("query_params", JObj []);
      ("direction", JStr "sent") ] in
  assign (fun h => set_processed_messages (processed_messages h ++ [message_data]) h) ;;
  assign (fun h => set_successful_messages (successful_messages h + 1) h) ;;
  keep_last_100_pop ;;
  _save_message_to_shared_file message_data ;;
  ret message_data.

(** [{msg.get('id') for msg in self.processed_messages}] *)
Fixpoint id_set (msgs : list pydict) : result (list pykey) :=
  match msgs with
  | [] => Ok []
  | msg :: rest =>
      match py_hash (dict_get msg "id" JNull) with
      | Ok k => match id_set rest with
                | Ok ks => Ok (k :: ks)
                | Raise e => Raise e
                end
      | Raise e => Raise e
      end
  end.

(** The body of the merge loop of [load_shared_messages]:
    [if msg.get('id') not in existing_ids: self.processed_messages.append(msg)].
    Only a dictionary has [get]; the membership test hashes the id. *)
Definition merge_one (existing_ids : list pykey) (msg : json) : M world unit :=
  match msg with
  | JObj d =>
      k <- lift_result (py_hash (dict_get d "id" JNull)) ;;
      if negb (set_mem k existing_ids)
      then assign (fun h => set_processed_messages (processed_messages h ++ [d]) h)
      else ret tt
  | _ => raise AttributeError
  end.

Definition load_shared_messages : M world unit :=
  try_except
    (file_exists <- with_disk (fun d => (Ok (os_path_exists d), d)) ;;
     if file_exists
     then
       shared_messages <- with_disk open_r_json_load ;;
       h <- self ;;
       existing_ids <- lift_result (id_set (processed_messages h)) ;;
       items <- lift_result (py_iter shared_messages) ;;
       for_each items (merge_one existing_ids) ;;
       h <- self ;;
       if (100 <? List.length (processed_messages h))%nat
       then assign (fun h => set_processed_messages
                               (last_n 100 (processed_messages h)) h)
       else ret tt
     else ret tt)
    (fun _ => ret tt).

(** *** SMSCRequestHandler *)

(** The text of an exception, [str(e)], is represented by its class name. *)
Definition exn_text (e : exn) : string :=
  match e with
  | AttributeError => "AttributeError"
  | TypeError => "TypeError"
  | KeyError => "KeyError"
  | JSONDecodeError => "JSONDecodeError"
  | OSError => "OSError"
  | ValueError => "ValueError"
  end.

Definition _send_json_response (code : Z) (data : pydict) : M world unit :=
  send (mk_response code data).

Definition _send_error_response (code : Z) (message : string) (now : string)
    : M world unit :=
  send (mk_response code
          [ ("error", JBool true);
            ("message", JStr message);
            ("status_code", JNum code);
            ("timestamp", JStr now) ]).

Definition _handle_sms_request (query_params : query) (now : string) : M world unit :=
  let submit_data := query_first query_params "submit" "" in
  let msisdn := query_first query_params "MSISDN" "" in
  if truthy submit_data
  then
    let apdu_info := parse_hex_string submit_data now in
    sms_response <- process_sms apdu_info msisdn now now ;;
    _send_json_response 200
      [ ("status", JStr "OK");
        ("message", JStr "SMS received and processed");
        ("message_id", dict_get sms_response "message_id" JNull);
        ("response_code", JStr "00") ]
  else _send_error_response 400 "Missing submit parameter" now.

Definition _handle_stats_request : M world unit :=
  stats <- get_statistics ;;
  _send_json_response 200 stats.

Definition _handle_reset_stats_request (now : string) : M world unit :=
  reset_statistics now ;;
  _send_json_response 200
    [ ("status", JStr "success");
      ("message", JStr "Estatísticas resetadas com sucesso");
      ("timestamp", JStr now) ].

Definition _handle_messages_request (now : string) : M world unit :=
  load_shared_messages ;;
  h <- self ;;
  _send_json_response 200
    [ ("messages", JArr (map JObj (processed_messages h)));
      ("total_count", JNum (Z.of_nat (List.length (processed_messages h))));
      ("timestamp", JStr now) ].

Definition _handle_simulate_outgoing_request (query_params : query) (now : string)
    : M world unit :=
  try_except
    (let destination := query_first query_params "destination" "+5511999999999" in
     let message_text :=
       query_first query_params "message" "Mensagem de teste do simulador" in
     message_data <- simulate_outgoing_message (unquote destination)
                       (unquote message_text) now ;;
     _send_json_response 200
       [ ("status", JStr "OK");
         ("message", JStr "Outgoing message simulated successfully");
         ("message_id", dict_get message_data "id" JNull);
         ("destination", JStr destination);
         ("text", JStr message_text) ])
    (fun e => _send_json_response 500
                [ ("status", JStr "ERROR"); ("message", JStr (exn_text e)) ]).

Definition _handle_sms_request_port80 (query_params : query) (now : string)
    : M world unit :=
  try_except
    (let submit_data := query_first query_params "submit" "" in
     let sms_submit := if truthy submit_data then unquote submit_data else "" in
     let sms_submit_ud := query_first query_params "sms_submit_ud" "" in
     let sms_submit_da := query_first query_params "sms_submit_da" "" in
     let sms_submit_pid := query_first query_params "sms_submit_pid" "" in
     let sms_submit_dcs := query_first query_params "sms_submit_dcs" "" in
     if negb (existsb truthy [sms_submit; sms_submit_ud; sms_submit_da;
                              sms_submit_pid; sms_submit_dcs])
     then _send_error_response 400 "Missing SMS parameters" now
     else
       let sms_data :=
         [ ("raw_data", JStr sms_submit);
           ("user_data", JStr sms_submit_ud);
           ("destination_address", JStr sms_submit_da);
           ("protocol_identifier", JStr sms_submit_pid);
           ("data_coding_scheme", JStr sms_submit_dcs);
           ("timestamp", JStr now);
           ("source", JStr "port_80_simulation");
           ("format", JStr "sms_submit_variables");
           ("query_params", json_of_query query_params) ] in
       add_message sms_data now ;;
       _send_json_response 200
         [ ("status", JStr "success");
           ("message", JStr "SMS received and processed successfully");
           ("timestamp", JStr now);
           ("processed_parameters",
            JObj [ ("sms_submit", JBool (truthy sms_submit));
                   ("sms_submit_ud", JBool (truthy sms_submit_ud));
                   ("sms_submit_da", JBool (truthy sms_submit_da));
                   ("sms_submit_pid", JBool (truthy sms_submit_pid));
                   ("sms_submit_dcs", JBool (truthy sms_submit_dcs)) ]) ])
    (fun e => _send_error_response 500
                (String.append "Error processing SMS: " (exn_text e)) now).

Definition _handle_clear_messages (now : string) : M world unit :=
  try_except
    (clear_messages ;;
     _send_json_response 200
       [ ("status", JStr "success");
         ("message", JStr "All messages cleared successfully");
         ("timestamp", JStr now) ])
    (fun e => _send_error_response 500
                (String.append "Error clearing messages: " (exn_text e)) now).

End smsc_simulator.

(** ** http_server_80.py *)

Module http_server_80.

Definition MAX_MESSAGES : nat := 100.

(** This listener keeps no ledger of its own: its only state is the shared
    file and the responses it has written. *)
Record world : Type := mk_world
  { disk : shared_store;
    wfile : list response }.

Definition with_disk {A : Type} (m : M shared_store A) : M world A :=
  fun w =>
    let (r, d) := m (disk w) in
    (r, mk_world d (wfile w)).

Definition send (r : response) : M world unit :=
  modify (fun w => mk_world (disk w) (wfile w ++ [r])).

(** [data.get(k, default)]: only a dictionary has [get]. *)
Definition py_get (data : json) (k : string) (default : json) : result json :=
  match data with
  | JObj d => Ok (dict_get d k default)
  | _ => Raise AttributeError
  end.

Definition py_append (messages : json) (x : json) : result (list json) :=
  match messages with
  | JArr l => Ok (l ++ [x])
  | _ => Raise AttributeError
  end.

Definition decode_or_key_error (e : exn) : bool :=
  match e with
  | JSONDecodeError => true
  | KeyError => true
  | _ => false
  end.

Definition _save_message_to_shared_file (message : pydict) (now : string)
    : M world unit :=
  try_except
    (file_exists <- with_disk (fun d => (Ok (os_path_exists d), d)) ;;
     messages <- (if file_exists
                  then try_except_only decode_or_key_error
                         (data <- with_disk open_r_json_load ;;
                          lift_result (py_get data "messages" (JArr [])))
                         (ret (JArr []))
                  else ret (JArr [])) ;;
     messages <- lift_result (py_append messages (JObj message)) ;;
     let messages :=
       if (MAX_MESSAGES <? List.length messages)%nat
       then last_n MAX_MESSAGES messages else messages in
     let data :=
       [ ("messages", JArr messages);
         ("total_count", JNum (Z.of_nat (List.length messages)));
         ("last_updated", JStr now) ] in
     with_disk (open_w_json_dump (JObj data)))
    (fun _ => ret tt).

Definition _send_json_response (code : Z) (data : pydict) : M world unit :=
  send (mk_response code data).

Definition _send_error_response (code : Z) (message : string) (now : string)
    : M world unit :=
  _send_json_response code
    [ ("status", JStr "error");
      ("message", JStr message);
      ("timestamp", JStr now) ].

(** [_handle_sms_request]; [stamp] is the clock reading formatted into the
    record id. *)
Definition _handle_sms_request (params : query) (stamp now : string) : M world unit :=
  try_except
    (let submit_param := query_first params "submit" "" in
     let processed_parameters :=
       JObj [ ("sms_submit", JBool (query_has params "submit"));
              ("sms_submit_ud", JBool (query_has params "sms_submit_ud"));
              ("sms_submit_da", JBool (query_has params "sms_submit_da"));
              ("sms_submit_pid", JBool (query_has params "sms_submit_pid"));
              ("sms_submit_dcs", JBool (query_has params "sms_submit_dcs")) ] in
     let message :=
       [ ("id", JStr (String.append "msg_" stamp));
         ("timestamp", JStr now);
         ("content", JStr submit_param);
         ("source", JStr "http_port_80");
         ("processed_parameters", processed_parameters) ] in
     _save_message_to_shared_file message now ;;
     _send_json_response 200
       [ ("status", JStr "success");
         ("message", JStr "SMS received and processed successfully");
         ("timestamp", JStr now);
         ("processed_parameters", processed_parameters) ])
    (fun _ => _send_error_response 500 "Error processing SMS" now).

End http_server_80.

(** ** Runs of one listener process *)

Import smsc_simulator.

(** What happens to a listener process, one event at a time: a method of
    its [SMSHandler] is called, or the environment (a sibling process, the
    operator) leaves the shared file in another state. *)
Inductive event : Type :=
| Call_process_sms (apdu_data : pydict) (msisdn now_response now_record : string)
| Call_add_message (sms_data : pydict) (now : string)
| Call_simulate_outgoing_message (destination_msisdn message_text now : string)
| Call_clear_messages
| Call_reset_statistics (now : string)
| Call_load_shared_messages
| Env_store (d : shared_store).

Definition exec (e : event) : M world unit :=
  match e with
  | Call_process_sms apdu_data msisdn now_response now_record =>
      process_sms apdu_data msisdn now_response now_record ;; ret tt
  | Call_add_message sms_data now => add_message sms_data now ;; ret tt
  | Call_simulate_outgoing_message destination_msisdn message_text now =>
      simulate_outgoing_message destination_msisdn message_text now ;; ret tt
  | Call_clear_messages => clear_messages
  | Call_reset_statistics now => reset_statistics now
  | Call_load_shared_messages => load_shared_messages
  | Env_store d => modify (fun w => mk_world (sms_handler w) d (wfile w))
  end.

Definition step (w : world) (e : event) : world := snd (exec e w).

Definition run (es : list event) (w : world) : world := fold_left step es w.

(** A listener process that has just started. *)
Definition fresh (now : string) (d : shared_store) : world :=
  mk_world (SMSHandler_init now) d [].

Definition reachable (w : world) : Prop :=
  exists now d es, w = run es (fresh now d).

Definition view (w : world) : list pydict := processed_messages (sms_handler w).

Definition is_append (e : event) : bool :=
  match e with
  | Call_process_sms _ _ _ _ => true
  | Call_add_message _ _ => true
  | Call_simulate_outgoing_message _ _ _ => true
  | _ => false
  end.


(** The records a run creates, in the order of their creation: the record
    an append has put at the end of the view, for each append of the run. *)
Fixpoint created (es : list event) (w : world) : list pydict :=
  match es with
  | [] => []
  | e :: rest =>
      (if is_append e then [last (view (step w e)) []] else [])
        ++ created rest (step w e)
  end.

(** [stats[k]] as an integer *)
Definition stat (stats : pydict) (k : string) : Z :=
  match dict_get stats k JNull with
  | JNum n => n
  | _ => 0
  end.

(** The statistics a [get_statistics] call returns in world [w]. *)
Definition statistics (w : world) : pydict :=
  match fst (get_statistics w) with
  | Ok stats => stats
  | Raise _ => []
  end.

(** ** The merge of [load_shared_messages] as a function on lists *)

(** The records the merge loop appends while it walks [items], and whether
    it reaches the end of the list ([false]: an item without [get], or an
    unhashable id, has raised). *)
Fixpoint discovered (existing_ids : list pykey) (items : list json)
    : list pydict * bool :=
  match items with
  | [] => ([], true)
  | JObj d :: rest =>
      match py_hash (dict_get d "id" JNull) with
      | Ok k =>
          let (news, completed) := discovered existing_ids rest in
          (if negb (set_mem k existing_ids) then d :: news else news, completed)
      | Raise _ => ([], false)
      end
  | _ :: _ => ([], false)
  end.

(** What a reconcile appends to [local] given the shared file [d], and
    whether it goes on to re-apply the cap. *)
Definition merge_outcome (local : list pydict) (d : shared_store)
    : list pydict * bool :=
  match content d with
  | Document j =>
      if readable d then
        match id_set local, py_iter j with
        | Ok existing_ids, Ok items => discovered existing_ids items
        | _, _ => ([], false)
        end
      else ([], false)
  | _ => ([], false)
  end.

(** The local view followed by what a reconcile discovers, before the cap. *)
Definition merged (local : list pydict) (d : shared_store) : list pydict :=
  local ++ fst (merge_outcome local d).

(** Number of records of a view whose id equals [x] (as Python compares
    set elements). *)
Definition same_id (x : pykey) (msg : pydict) : bool :=
  match py_hash (dict_get msg "id" JNull) with
  | Ok k => pykey_eqb x k
  | Raise _ => false
  end.

Definition count_id (x : pykey) (msgs : list pydict) : nat :=
  List.length (filter (same_id x) msgs).

(** * Definitions for the statements

    Names for the values the methods compute and for the worlds the
    statements below are about; none of them adds behaviour to the
    embedding above. *)

Unset Implicit Arguments.
Local Open Scope Z_scope.

(** The view after [append(msg)] and the cap by [pop(0)]. *)
Definition pushed (msg : pydict) (l : list pydict) : list pydict :=
  if (100 <? List.length (l ++ [msg]))%nat then tl (l ++ [msg]) else l ++ [msg].

(** The record [process_sms] stores when the counter reaches [c]. *)
Definition sms_record (c : Z) (apdu_data : pydict) (msisdn now : string) : pydict :=
  [ ("id", JNum c);
    ("msisdn", JStr msisdn);
    ("timestamp", JStr now);
    ("status", JStr "success");
    ("apdu_info", JObj apdu_data);
    ("apdu_hex", dict_get apdu_data "raw_data" (JStr ""));
    ("direction", JStr "received") ].

(** The record [add_message] stores when the counter reaches [c]. *)
Definition http_record (c : Z) (sms_data : pydict) (now : string) : pydict :=
  [ ("id", JNum c);
    ("timestamp", dict_get sms_data "timestamp" (JStr now));
    ("status", JStr "success");
    ("source", dict_get sms_data "source" (JStr "http"));
    ("format", dict_get sms_data "format" (JStr "unknown"));
    ("raw_data", dict_get sms_data "raw_data" (JStr ""));
    ("user_data", dict_get sms_data "user_data" (JStr ""));
    ("destination_address", dict_get sms_data "destination_address" (JStr ""));
    ("protocol_identifier", dict_get sms_data "protocol_identifier" (JStr ""));
    ("data_coding_scheme", dict_get sms_data "data_coding_scheme" (JStr ""));
    ("query_params", dict_get sms_data "query_params" (JObj []));
    ("direction", JStr "received") ].

(** The record [simulate_outgoing_message] stores when the counter reaches
    [c]. *)
Definition outgoing_record (c : Z) (destination_msisdn message_text now : string)
    : pydict :=
  [ ("id", JNum c);
    ("timestamp", JStr now);
    ("status", JStr "success");
    ("source", JStr "simulator");
    ("format", JStr "outgoing_simulation");
    ("raw_data", JStr (String.append "SIMULATED_OUTGOING_" (str_of_int c)));
    ("user_data", JStr message_text);
    ("destination_address", JStr destination_msisdn);
    ("protocol_identifier", JStr "00");
    ("data_coding_scheme", JStr "00");
    ("query_params", JObj []);
    ("direction", JStr "sent") ].

(** The shared file after [_save_message_to_shared_file msg]. *)
Definition saved (msg : pydict) (d : shared_store) : shared_store :=
  disk (snd (_save_message_to_shared_file msg (mk_world (SMSHandler_init "") d []))).

(** The view a reconcile leaves, from the local view and the shared file. *)
Definition reconciled (local : list pydict) (d : shared_store) : list pydict :=
  if snd (merge_outcome local d)
  then keep_last_100 (merged local d)
  else merged local d.

(** The record an append creates when the counter reaches [c]. *)
Definition record_of (e : event) (c : Z) : pydict :=
  match e with
  | Call_process_sms apdu_data msisdn _ now_record =>
      sms_record c apdu_data msisdn now_record
  | Call_add_message sms_data now => http_record c sms_data now
  | Call_simulate_outgoing_message destination_msisdn message_text now =>
      outgoing_record c destination_msisdn message_text now
  | _ => []
  end.

(** Opens a world into the fields of its handler object, its shared file
    and its responses. *)
Ltac destruct_world w :=
  let c := fresh "c" in let v := fresh "v" in let s := fresh "s" in
  let f := fresh "f" in let t := fresh "t" in let d := fresh "d" in
  let o := fresh "o" in
  destruct w as [[c v s f t] d o].


(** No failure has been counted. *)
Definition never_failed (w : world) : Prop :=
  failed_messages (sms_handler w) = 0%Z.



(** Whether the local view already holds a record with the id of [r]. *)
Definition known (local : list pydict) (r : pydict) : bool :=
  match py_hash (dict_get r "id" JNull) with
  | Ok k => existsb (same_id k) local
  | Raise _ => false
  end.

(** A minimal record with the given id. *)
Definition record_with_id (i : Z) : pydict :=
  [("id", JNum i); ("status", JStr "success")].

(** A process that holds the records 1 and 2 while the shared file holds
    the records 2 and 5. *)
Definition overlapping_world : world :=
  mk_world (mk_SMSHandler 2 [record_with_id 1; record_with_id 2] 2 0 "2025-01-01")
    (mk_store (Document (JArr [JObj (record_with_id 2); JObj (record_with_id 5)]))
       true WriteCompletes)
    [].

(** A process that has taken 100 submissions through [add_message] (ids
    1 .. 100, all persisted) and then one through [process_sms] (id 101, kept
    in the view only): its view holds the ids 2 .. 101, the shared file the
    ids 1 .. 100. *)
Definition evicting_world : world :=
  run (repeat (Call_add_message [] "2025-01-01") 100
       ++ [Call_process_sms [] "+5511" "2025-01-02" "2025-01-02"])
    (fresh "2025-01-01" (mk_store Missing true WriteCompletes)).

(** The list [_save_message_to_shared_file] starts from: the list in the
    file, the empty list when the file is missing or cannot be read or
    parsed, and none when the document is not a list ([append] raises). *)
Definition stored_list (d : shared_store) : option (list json) :=
  match content d with
  | Missing => Some []
  | Unparsable => Some []
  | Document j =>
      if readable d
      then match j with
           | JArr l => Some l
           | _ => None
           end
      else Some []
  end.

(** The five fields of a submission as the request carries them. *)
Definition submitted_fields (q : query) : list string :=
  [ query_first q "submit" "";
    query_first q "sms_submit_ud" "";
    query_first q "sms_submit_da" "";
    query_first q "sms_submit_pid" "";
    query_first q "sms_submit_dcs" "" ].

(** All the fields are absent or empty. *)
Definition all_empty (fields : list string) : bool :=
  forallb (fun s => String.eqb s "") fields.

(** The [sms_data] dictionary [_handle_sms_request_port80] hands over. *)
Definition port80_sms_data (q : query) (now : string) : pydict :=
  [ ("raw_data", JStr (if truthy (query_first q "submit" "")
                       then unquote (query_first q "submit" "") else ""));
    ("user_data", JStr (query_first q "sms_submit_ud" ""));
    ("destination_address", JStr (query_first q "sms_submit_da" ""));
    ("protocol_identifier", JStr (query_first q "sms_submit_pid" ""));
    ("data_coding_scheme", JStr (query_first q "sms_submit_dcs" ""));
    ("timestamp", JStr now);
    ("source", JStr "port_80_simulation");
    ("format", JStr "sms_submit_variables");
    ("query_params", json_of_query q) ].

(** The response the process has written last. *)
Definition last_response (w : world) : response :=
  last (wfile w) (mk_response 0 []).

(** A submission that carries user data and nothing else. *)
Definition user_data_only : query := [("sms_submit_ud", ("48656C6C6F", []))].

(** A process that has just started, with no shared file yet. *)
Definition started_world : world :=
  fresh "2025-01-01" (mk_store Missing true WriteCompletes).


(** A submission of the text [0891] to the stand-alone port-80 listener. *)
Definition port80_submission : query := [("submit", ("0891", []))].

(** The shared file after the stand-alone port-80 listener has handled one
    submission, starting from file [d]. *)
Definition after_port80_listener (d : shared_store) : shared_store :=
  http_server_80.disk
    (snd (http_server_80._handle_sms_request port80_submission
            "20250102_000000_000000" "2025-01-02"
            (http_server_80.mk_world d []))).

(** The shared file after a simulator process has taken one submission
    through [add_message], starting from file [d]. *)
Definition after_simulator (d : shared_store) : shared_store :=
  disk (snd (add_message [] "2025-01-02" (fresh "2025-01-01" d))).

(** The contents of the shared file that another process can come upon
    while [open_w_json_dump doc] runs from [st]: before the open, between
    the open and the dump, after the dump. *)
Definition contents_during_rewrite (doc : json) (st : shared_store) : list file :=
  [ content st;
    content (snd (open_w st));
    content (snd (open_w_json_dump doc st)) ].

(** The rewrite shows a concurrent reader the old or the new document only. *)
Definition rewrite_is_atomic (doc : json) (st : shared_store) : Prop :=
  forall c, In c (contents_during_rewrite doc st) ->
            c = content st \/ c = Document doc.

(** A document of two records, and a file that holds the first of them. *)
Definition two_records : json :=
  JArr [JObj (record_with_id 1); JObj (record_with_id 2)].

Definition one_record_file : shared_store :=
  mk_store (Document (JArr [JObj (record_with_id 1)])) true WriteCompletes.





(** * The rest of the listeners

    The request handlers, the routing and the configuration code of
    [smsc_simulator.py] that the ledger does not need, and the routing of
    [http_server_80.py]. *)

(** ** Python values in conditions and in messages *)

(** [bool(v)] *)
Definition py_truthy (v : json) : bool :=
  match v with
  | JNull => false
  | JBool b => b
  | JNum n => negb (Z.eqb n 0)
  | JStr s => truthy s
  | JArr l => match l with [] => false | _ => true end
  | JObj d => match d with [] => false | _ => true end
  end.

(** [isinstance(v, int)]: [bool] is a subclass of [int]. *)
Definition is_int (v : json) : bool :=
  match v with
  | JNum _ => true
  | JBool _ => true
  | _ => false
  end.

(** The integer an [int] instance compares as. *)
Definition int_value (v : json) : Z :=
  match v with
  | JNum n => n
  | JBool true => 1
  | _ => 0
  end.

(** [str(v)] for an [int] instance, as an f-string formats it. *)
Definition str_of_int_instance (v : json) : string :=
  match v with
  | JNum n => str_of_int n
  | JBool true => "True"
  | JBool false => "False"
  | _ => ""
  end.

(** [v[k]] for a string key. *)
Definition py_subscript (v : json) (k : string) : result json :=
  match v with
  | JObj d => match dict_find k d with
              | Some x => Ok x
              | None => Raise KeyError
              end
  | _ => Raise TypeError
  end.

(** [d[k] = v] on a dictionary: the key keeps its place, a new key goes
    last. *)
Fixpoint dict_set (d : pydict) (k : string) (v : json) : pydict :=
  match d with
  | [] => [(k, v)]
  | (k', v') :: rest =>
      if String.eqb k k' then (k, v) :: rest else (k', v') :: dict_set rest k v
  end.

(** [c[k] = v]: only a dictionary takes a string key. *)
Definition py_setitem (c : json) (k : string) (v : json) : result json :=
  match c with
  | JObj d => Ok (JObj (dict_set d k v))
  | _ => Raise TypeError
  end.

(** [sub in s] *)
Definition contains (sub s : string) : bool :=
  match index 0 sub s with
  | Some _ => true
  | None => false
  end.

(** [s[1:]] *)
Definition drop_first (s : string) : string :=
  match s with
  | EmptyString => EmptyString
  | String _ rest => rest
  end.

(** ** The configuration of the server *)

(** A server process: the listener process of the ledger, the module-level
    dictionary [server_config] and the file [server_config.json]. *)
Record server : Type := mk_server
  { proc : world;
    server_config : json;
    config_file : shared_store }.

Definition in_proc {A : Type} (m : M world A) : M server A :=
  fun s =>
    let (r, w) := m (proc s) in
    (r, mk_server w (server_config s) (config_file s)).

Definition with_config_file {A : Type} (m : M shared_store A) : M server A :=
  fun s =>
    let (r, f) := m (config_file s) in
    (r, mk_server (proc s) (server_config s) f).

Definition the_config : M server json := fun s => (Ok (server_config s), s).

Definition set_config (c : json) : M server unit :=
  modify (fun s => mk_server (proc s) c (config_file s)).

(** The configuration [load_server_config] falls back to. *)
Definition default_config : pydict :=
  [ ("host", JStr "localhost");
    ("port", JNum 8080);
    ("web_port", JNum 8080);
    ("sms_port", JNum 8081);
    ("https_port", JNum 8443);
    ("timeout", JNum 30);
    ("max_connections", JNum 100);
    ("version", JStr "1.0.0");
    ("log_level", JStr "INFO") ].

Definition save_server_config : M server unit :=
  try_except
    (c <- the_config ;; with_config_file (open_w_json_dump c))
    (fun _ => ret tt).

Definition load_server_config : M server json :=
  try_except
    (file_exists <- with_config_file (fun f => (Ok (os_path_exists f), f)) ;;
     if file_exists
     then c <- with_config_file open_r_json_load ;; set_config c
     else set_config (JObj default_config) ;; save_server_config)
    (fun _ => set_config (JObj default_config)) ;;
  the_config.

(** The arguments the [__main__] block of [smsc_simulator.py] (and [main]
    of [start_http_server.py]) reads from the loaded configuration to build
    the simulator: host, web_port, sms_port, http_port, https_port. *)
Definition simulator_arguments (config : json)
    : result (json * json * json * json * json) :=
  match py_subscript config "host" with
  | Raise e => Raise e
  | Ok host =>
  match py_subscript config "web_port" with
  | Raise e => Raise e
  | Ok web_port =>
  match py_subscript config "sms_port" with
  | Raise e => Raise e
  | Ok sms_port =>
  match py_subscript config "http_port" with
  | Raise e => Raise e
  | Ok http_port =>
  match py_subscript config "https_port" with
  | Raise e => Raise e
  | Ok https_port => Ok (host, web_port, sms_port, http_port, https_port)
  end end end end end.

(** The start of the [__main__] block: load the configuration, then read
    the simulator's arguments from it. *)
Definition main_startup : M server (json * json * json * json * json) :=
  config <- load_server_config ;;
  lift_result (simulator_arguments config).

(** ** Requests *)

(** A request as the handlers see it: [self.path], the path and the query
    parameters [urlparse] and [parse_qs] make of it, and the body as the
    handlers read it, either with [json.loads] or with [parse_qs] (a
    handler uses one of the two).  Both readings start with
    [int(self.headers.get('Content-Length', 0))], [self.rfile.read] and
    [decode('utf-8')], which raise on a length that is no number and on
    bytes that are no UTF-8: each reading gives its value or the exception
    raised on the way. *)
Record request : Type := mk_request
  { req_raw : string;
    req_path : string;
    req_query : query;
    req_json : result json;
    req_form : result query }.

(** [s.strip()] on the ASCII white space: the bytes 9 .. 13 and 28 .. 32
    are what [str.isspace] accepts among the ASCII characters.  This is
    [str.strip] on ASCII text; white space outside ASCII, which [str.strip]
    removes too, is left as it is. *)
Definition is_space (c : ascii) : bool :=
  let n := nat_of_ascii c in
  ((9 <=? n)%nat && (n <=? 13)%nat) || ((28 <=? n)%nat && (n <=? 32)%nat).

Fixpoint lstrip_chars (l : list ascii) : list ascii :=
  match l with
  | [] => []
  | c :: rest => if is_space c then lstrip_chars rest else l
  end.

Definition strip (s : string) : string :=
  string_of_list_ascii
    (rev (lstrip_chars (rev (lstrip_chars (list_ascii_of_string s))))).

(** [v.strip()] and [v.upper()]: only a string has them. *)
Definition py_strip (v : json) : result string :=
  match v with
  | JStr s => Ok (strip s)
  | _ => Raise AttributeError
  end.

Definition py_upper (v : json) : result string :=
  match v with
  | JStr s => Ok (upper s)
  | _ => Raise AttributeError
  end.

(** ** SMSCRequestHandler, the handlers outside the ledger *)

Module SMSCRequestHandler.

Definition send_json (code : Z) (data : pydict) : M server unit :=
  in_proc (_send_json_response code data).

Definition _handle_status_request (now : string) : M world unit :=
  _send_json_response 200
    [ ("status", JStr "running");
      ("service", JStr "SMSC Simulator");
      ("version", JStr "1.0.0");
      ("timestamp", JStr now) ].

Definition _handle_default_request : M world unit :=
  _send_json_response 200
    [ ("message", JStr "SMSC Simulator is running");
      ("endpoints",
       JObj [ ("sms_handler", JStr "/cgi-bin/smshandler.pl");
              ("status", JStr "/status");
              ("statistics", JStr "/stats");
              ("messages", JStr "/messages");
              ("dashboard", JStr "/") ]) ].

(** The uptime as [_handle_config_request] prints it, from the [days] and
    [seconds] fields of the time elapsed since the start. *)
Definition uptime_str (days seconds : Z) : string :=
  let hours := seconds / 3600 in
  let remainder := seconds mod 3600 in
  let minutes := remainder / 60 in
  if 0 <? days
  then String.append (str_of_int days)
         (String.append "d "
            (String.append (str_of_int hours)
               (String.append "h " (String.append (str_of_int minutes) "m"))))
  else if 0 <? hours
  then String.append (str_of_int hours)
         (String.append "h " (String.append (str_of_int minutes) "m"))
  else String.append (str_of_int minutes) "m".

Definition _handle_config_request (uptime_days uptime_seconds : Z) : M server unit :=
  c <- the_config ;;
  h <- in_proc self ;;
  match c with
  | JObj d =>
      send_json 200
        [ ("host", dict_get d "host" (JStr "localhost"));
          ("web_port", dict_get d "web_port" (JNum 8080));
          ("sms_port", dict_get d "sms_port" (JNum 8081));
          ("https_port", dict_get d "https_port" (JNum 8443));
          ("timeout", dict_get d "timeout" (JNum 30));
          ("max_connections", dict_get d "max_connections" (JNum 100));
          ("version", dict_get d "version" (JStr "1.0.0"));
          ("log_level", dict_get d "log_level" (JStr "INFO"));
          ("total_messages", JNum (Z.of_nat (List.length (processed_messages h))));
          ("successful_messages", JNum (successful_messages h));
          ("failed_messages", JNum (failed_messages h));
          ("uptime", JStr (uptime_str uptime_days uptime_seconds)) ]
  | _ => raise AttributeError
  end.

(** The steps the update handlers share once the new value is accepted:
    [server_config[key] = value; save_server_config()]. *)
Definition store_setting (key : string) (value : json) : M server unit :=
  c <- the_config ;;
  c' <- lift_result (py_setitem c key value) ;;
  set_config c' ;;
  save_server_config.

Definition internal_error (e : exn) : M server unit :=
  send_json 500 [ ("error", JStr (String.append "Erro interno: " (exn_text e))) ].

Definition _handle_update_port_request (body : result json) : M server unit :=
  try_except
    (data <- lift_result body ;;
     new_port <- lift_result (http_server_80.py_get data "port" JNull) ;;
     if negb (py_truthy new_port) || negb (is_int new_port)
        || (int_value new_port <? 1024) || (65535 <? int_value new_port)
     then send_json 400 [ ("error", JStr "Porta deve estar entre 1024 e 65535") ]
     else
       store_setting "port" new_port ;;
       send_json 200
         [ ("success", JBool true);
           ("message",
            JStr (String.append "Porta atualizada para "
                    (String.append (str_of_int_instance new_port)
                       ". Reinicie o servidor para aplicar.")));
           ("new_port", new_port) ])
    internal_error.

Definition _handle_update_sms_port_request (body : result json) : M server unit :=
  try_except
    (data <- lift_result body ;;
     new_port <- lift_result (http_server_80.py_get data "sms_port" JNull) ;;
     if negb (is_int new_port)
        || (int_value new_port <? 1024) || (65535 <? int_value new_port)
     then send_json 400
            [ ("error", JStr "Porta SMS deve ser um número entre 1024 e 65535") ]
     else
       store_setting "sms_port" new_port ;;
       send_json 200
         [ ("success", JBool true);
           ("message",
            JStr (String.append "Porta SMS atualizada para "
                    (String.append (str_of_int_instance new_port)
                       ". Reinicie o servidor para aplicar.")));
           ("new_sms_port", new_port) ])
    internal_error.

Definition _handle_update_web_port_request (body : result json) : M server unit :=
  try_except
    (data <- lift_result body ;;
     new_port <- lift_result (http_server_80.py_get data "web_port" JNull) ;;
     if negb (is_int new_port)
        || (int_value new_port <? 1024) || (65535 <? int_value new_port)
     then send_json 400
            [ ("error", JStr "Porta Web deve ser um número entre 1024 e 65535") ]
     else
       store_setting "web_port" new_port ;;
       send_json 200
         [ ("success", JBool true);
           ("message",
            JStr (String.append "Porta Web atualizada para "
                    (String.append (str_of_int_instance new_port)
                       ". Reinicie o servidor para aplicar.")));
           ("new_web_port", new_port) ])
    internal_error.

Definition _handle_update_host_request (body : result json) : M server unit :=
  try_except
    (data <- lift_result body ;;
     host <- lift_result (http_server_80.py_get data "host" (JStr "")) ;;
     new_host <- lift_result (py_strip host) ;;
     if negb (truthy new_host)
     then send_json 400 [ ("error", JStr "Host não pode estar vazio") ]
     else
       store_setting "host" (JStr new_host) ;;
       send_json 200
         [ ("success", JBool true);
           ("message",
            JStr (String.append "Host atualizado para "
                    (String.append new_host
                       ". Reinicie o servidor para aplicar.")));
           ("new_host", JStr new_host) ])
    internal_error.

Definition _handle_update_timeout_request (body : result json) : M server unit :=
  try_except
    (data <- lift_result body ;;
     new_timeout <- lift_result (http_server_80.py_get data "timeout" JNull) ;;
     if negb (is_int new_timeout)
        || (int_value new_timeout <? 1) || (300 <? int_value new_timeout)
     then send_json 400
            [ ("error", JStr "Timeout deve estar entre 1 e 300 segundos") ]
     else
       store_setting "timeout" new_timeout ;;
       send_json 200
         [ ("success", JBool true);
           ("message",
            JStr (String.append "Timeout atualizado para "
                    (String.append (str_of_int_instance new_timeout)
                       " segundos")));
           ("new_timeout", new_timeout) ])
    internal_error.

Definition _handle_update_max_connections_request (body : result json)
    : M server unit :=
  try_except
    (data <- lift_result body ;;
     new_max <- lift_result (http_server_80.py_get data "max_connections" JNull) ;;
     if negb (is_int new_max)
        || (int_value new_max <? 1) || (1000 <? int_value new_max)
     then send_json 400
            [ ("error", JStr "Máximo de conexões deve estar entre 1 e 1000") ]
     else
       store_setting "max_connections" new_max ;;
       send_json 200
         [ ("success", JBool true);
           ("message",
            JStr (String.append "Máximo de conexões atualizado para "
                    (str_of_int_instance new_max)));
           ("new_max_connections", new_max) ])
    internal_error.

Definition valid_levels : list string := ["DEBUG"; "INFO"; "WARNING"; "ERROR"].

Definition _handle_update_log_level_request (body : result json) : M server unit :=
  try_except
    (data <- lift_result body ;;
     level <- lift_result (http_server_80.py_get data "log_level" (JStr "")) ;;
     new_log_level <- lift_result (py_upper level) ;;
     if negb (existsb (String.eqb new_log_level) valid_levels)
     then send_json 400
            [ ("error",
               JStr "Nível de log deve ser um de: ['DEBUG', 'INFO', 'WARNING', 'ERROR']") ]
     else
       store_setting "log_level" (JStr new_log_level) ;;
       send_json 200
         [ ("success", JBool true);
           ("message",
            JStr (String.append "Nível de log atualizado para " new_log_level));
           ("new_log_level", JStr new_log_level) ])
    internal_error.

End SMSCRequestHandler.

(** ** SMSCRequestHandler, the reply endpoint and the routing *)

Module SMSCRequestHandler_routes.

Import SMSCRequestHandler.

(** [_handle_sms_reply_request]; [body] is the form the handler reads from
    the request, or the exception the reading raises, inside its [try]. *)
Definition _handle_sms_reply_request (body : result query) (now : string)
    : M world unit :=
  try_except
    (post_params <- lift_result body ;;
     let msisdn := query_first post_params "msisdn" "" in
     let message := query_first post_params "message" "" in
     let original_message_id := query_first post_params "original_message_id" "" in
     if negb (truthy msisdn) || negb (truthy message)
     then _send_error_response 400
            "Missing required parameters: msisdn and message" now
     else
       let reply_data :=
         [ ("msisdn", JStr msisdn);
           ("message", JStr message);
           ("original_message_id", JStr original_message_id);
           ("timestamp", JStr now);
           ("direction", JStr "outgoing");
           ("type", JStr "reply");
           ("status", JStr "sent") ] in
       add_message reply_data now ;;
       _send_json_response 200
         [ ("status", JStr "success");
           ("message", JStr "SMS reply sent successfully");
           ("timestamp", JStr now);
           ("reply_to", JStr msisdn);
           ("original_message_id", JStr original_message_id) ])
    (fun e => _send_error_response 500
                (String.append "Error processing SMS reply: " (exn_text e)) now).

Section Routing.

(** What [_serve_static_file] does once its guard has let the path
    through (resolve the path, look the file up, guess its type, read it
    and send it), and what [_handle_restart_server_request] does: both act
    on the file system and on the process, outside this embedding. *)
Variable read_and_send : string -> M server unit.
Variable _handle_restart_server_request : M server unit.

Definition _serve_static_file (file_path : string) (now : string) : M server unit :=
  try_except
    (if contains ".." file_path || prefix "/" file_path
     then in_proc (_send_error_response 403 "Access denied" now)
     else read_and_send file_path)
    (fun _ => in_proc (_send_error_response 500 "Internal server error" now)).

Definition do_GET (req : request) (now : string) (uptime_days uptime_seconds : Z)
    : M server unit :=
  try_except
    (if contains "/cgi-bin/smshandler.pl" (req_path req)
     then in_proc (_handle_sms_request (req_query req) now)
     else if String.eqb (req_path req) "/status"
     then in_proc (_handle_status_request now)
     else if String.eqb (req_path req) "/stats"
     then in_proc _handle_stats_request
     else if String.eqb (req_path req) "/" || String.eqb (req_path req) "/index.html"
     then _serve_static_file "static/index.html" now
     else if prefix "/static/" (req_path req)
     then _serve_static_file (drop_first (req_path req)) now
     else if String.eqb (req_path req) "/messages"
     then in_proc (_handle_messages_request now)
     else if String.eqb (req_path req) "/simulate-outgoing"
     then in_proc (_handle_simulate_outgoing_request (req_query req) now)
     else if String.eqb (req_path req) "/config/reset-stats"
     then in_proc (_handle_reset_stats_request now)
     else if String.eqb (req_path req) "/cgi-bin/smshandler.pl"
     then in_proc (_handle_sms_request_port80 (req_query req) now)
     else if String.eqb (req_path req) "/config"
     then _handle_config_request uptime_days uptime_seconds
     else in_proc _handle_default_request)
    (fun e => in_proc (_send_error_response 500 (exn_text e) now)).

(** The query parameters [do_POST] makes of a form body for
    [_handle_sms_request]. *)
Definition sms_params_of_form (post_params : query) : query :=
  (match query_find "apdu_hex" post_params with
   | Some vs => [("submit", vs)]
   | None => []
   end)
  ++ (match query_find "msisdn" post_params with
      | Some vs => [("MSISDN", vs)]
      | None => []
      end).

Definition do_POST (req : request) (now : string) : M server unit :=
  try_except
    (if String.eqb (req_path req) "/config/update-port"
     then _handle_update_port_request (req_json req)
     else if String.eqb (req_path req) "/config/update-host"
     then _handle_update_host_request (req_json req)
     else if String.eqb (req_path req) "/config/update-timeout"
     then _handle_update_timeout_request (req_json req)
     else if String.eqb (req_path req) "/config/update-max-connections"
     then _handle_update_max_connections_request (req_json req)
     else if String.eqb (req_path req) "/config/update-log-level"
     then _handle_update_log_level_request (req_json req)
     else if String.eqb (req_path req) "/config/restart-server"
     then _handle_restart_server_request
     else if String.eqb (req_path req) "/cgi-bin/smshandler.pl"
     then post_params <- lift_result (req_form req) ;;
          in_proc (_handle_sms_request (sms_params_of_form post_params) now)
     else if String.eqb (req_path req) "/sms-reply"
     then in_proc (_handle_sms_reply_request (req_form req) now)
     else in_proc (_send_error_response 404 "Not Found" now))
    (fun _ => in_proc (_send_error_response 500 "Internal Server Error" now)).

Definition do_DELETE (req : request) (now : string) : M server unit :=
  try_except
    (if String.eqb (req_path req) "/messages"
     then in_proc (_handle_clear_messages now)
     else in_proc (_send_error_response 404 "Endpoint not found" now))
    (fun e => in_proc (_send_error_response 500 (exn_text e) now)).

End Routing.

End SMSCRequestHandler_routes.

(** ** The handler classes of the three listeners *)

(** [create_web_handler_class]: the web interface. *)
Module WebRequestHandler.

Import SMSCRequestHandler.

Section Routing.

Variable _handle_restart_server_request : M server unit.

(** [do_POST] compares [self.path] as it came; [/test-sms] calls
    [_handle_sms_test_request], which no class defines. *)
Definition do_POST (req : request) (now : string) : M server unit :=
  if String.eqb (req_raw req) "/config/update-port"
  then _handle_update_port_request (req_json req)
  else if String.eqb (req_raw req) "/config/update-sms-port"
  then _handle_update_sms_port_request (req_json req)
  else if String.eqb (req_raw req) "/config/update-web-port"
  then _handle_update_web_port_request (req_json req)
  else if String.eqb (req_raw req) "/config/update-host"
  then _handle_update_host_request (req_json req)
  else if String.eqb (req_raw req) "/config/update-timeout"
  then _handle_update_timeout_request (req_json req)
  else if String.eqb (req_raw req) "/config/update-max-connections"
  then _handle_update_max_connections_request (req_json req)
  else if String.eqb (req_raw req) "/config/update-log-level"
  then _handle_update_log_level_request (req_json req)
  else if String.eqb (req_raw req) "/config/restart-server"
  then _handle_restart_server_request
  else if String.eqb (req_raw req) "/test-sms"
  then raise AttributeError
  else if String.eqb (req_raw req) "/clear-messages"
  then in_proc (_handle_clear_messages now)
  else if String.eqb (req_raw req) "/reset-stats"
  then in_proc (_handle_reset_stats_request now)
  else in_proc (_send_error_response 404 "Endpoint not found" now).

End Routing.

End WebRequestHandler.

(** [create_sms_handler_class]: the SMS handler listener. *)
Module SMSRequestHandler.

Import SMSCRequestHandler.

(** [do_POST] calls [self._handle_sms_request()] without its
    [query_params] argument: the call raises [TypeError]. *)
Definition do_POST (req : request) (now : string) : M world unit :=
  if String.eqb (req_raw req) "/cgi-bin/smshandler.pl"
  then raise TypeError
  else _send_error_response 404 "SMS endpoint not found" now.

Definition do_GET (req : request) (now : string) : M world unit :=
  if String.eqb (req_raw req) "/status"
  then _handle_status_request now
  else _send_error_response 404 "Endpoint not found" now.

End SMSRequestHandler.

(** [create_http_handler_class]: the port-80 listener of the simulator. *)
Module HTTPRequestHandler.

Import SMSCRequestHandler.

Definition _handle_sms_submit_request (query_params : query) (now : string)
    : M world unit :=
  try_except
    (let submit_data := query_first query_params "submit" "" in
     let sms_submit := if truthy submit_data then unquote submit_data else "" in
     let sms_submit_ud := query_first query_params "sms_submit_ud" "" in
     let sms_submit_da := query_first query_params "sms_submit_da" "" in
     let sms_submit_pid := query_first query_params "sms_submit_pid" "" in
     let sms_submit_dcs := query_first query_params "sms_submit_dcs" "" in
     if negb (existsb truthy [sms_submit; sms_submit_ud; sms_submit_da;
                              sms_submit_pid; sms_submit_dcs])
     then _send_error_response 400 "Missing SMS parameters" now
     else
       let sms_data :=
         [ ("raw_data", JStr sms_submit);
           ("user_data", JStr sms_submit_ud);
           ("destination_address", JStr sms_submit_da);
           ("protocol_identifier", JStr sms_submit_pid);
           ("data_coding_scheme", JStr sms_submit_dcs);
           ("timestamp", JStr now);
           ("source", JStr "http_port_80");
           ("format", JStr "sms_submit_variables");
           ("query_params", json_of_query query_params) ] in
       let sms_data :=
         if truthy sms_submit
         then sms_data
              ++ [ ("message_length", JNum (Z.of_nat (String.length sms_submit)));
                   ("has_full_message", JBool true) ]
         else sms_data in
       add_message sms_data now ;;
       _send_json_response 200
         [ ("status", JStr "success");
           ("message", JStr "SMS received and processed successfully");
           ("timestamp", JStr now);
           ("processed_parameters",
            JObj [ ("sms_submit", JBool (truthy sms_submit));
                   ("sms_submit_ud", JBool (truthy sms_submit_ud));
                   ("sms_submit_da", JBool (truthy sms_submit_da));
                   ("sms_submit_pid", JBool (truthy sms_submit_pid));
                   ("sms_submit_dcs", JBool (truthy sms_submit_dcs)) ]) ])
    (fun e => _send_error_response 500
                (String.append "Error processing SMS: " (exn_text e)) now).

Definition do_GET (req : request) (now : string) : M world unit :=
  if prefix "/cgi-bin/smshandler.pl" (req_raw req)
  then _handle_sms_submit_request (req_query req) now
  else if String.eqb (req_raw req) "/status"
  then _handle_status_request now
  else _send_error_response 404 "Endpoint not found" now.

Definition do_POST (req : request) (now : string) : M world unit :=
  if prefix "/cgi-bin/smshandler.pl" (req_raw req)
  then _handle_sms_submit_request (req_query req) now
  else _send_error_response 404 "Endpoint not found" now.

End HTTPRequestHandler.

(** ** The routing of http_server_80.py *)

Module http_server_80_routes.

Definition do_GET (req : request) (stamp now : string)
    : M http_server_80.world unit :=
  try_except
    (if String.eqb (req_path req) "/cgi-bin/smshandler.pl"
     then http_server_80._handle_sms_request (req_query req) stamp now
     else http_server_80._send_error_response 404 "Not Found" now)
    (fun _ => http_server_80._send_error_response 500 "Internal Server Error" now).

End http_server_80_routes.

(** ** Requests and states for the statements *)

(** Two replies, both with an [msisdn] and a [message]. *)
Definition reply_form : query :=
  [("msisdn", ("+5511", [])); ("message", ("ok", []))].

Definition other_reply_form : query :=
  [("msisdn", ("+4477", [])); ("message", ("not ok", []));
   ("original_message_id", ("7", []))].


(** The [sms_data] dictionary [_handle_sms_submit_request] starts from. *)
Definition submit_sms_data (q : query) (now : string) : pydict :=
  [ ("raw_data", JStr (if truthy (query_first q "submit" "")
                       then unquote (query_first q "submit" "") else ""));
    ("user_data", JStr (query_first q "sms_submit_ud" ""));
    ("destination_address", JStr (query_first q "sms_submit_da" ""));
    ("protocol_identifier", JStr (query_first q "sms_submit_pid" ""));
    ("data_coding_scheme", JStr (query_first q "sms_submit_dcs" ""));
    ("timestamp", JStr now);
    ("source", JStr "http_port_80");
    ("format", JStr "sms_submit_variables");
    ("query_params", json_of_query q) ].

(** A server process that has just started, with an empty [server_config]
    and no configuration file. *)
Definition started_server : server :=
  mk_server started_world (JObj []) (mk_store Missing true WriteCompletes).

(** A GET on the submission endpoint that carries user data and nothing
    else, a form POST with a [submit] field, and a GET that climbs out of
    the static directory. *)
Definition get_user_data_only : request :=
  mk_request "/cgi-bin/smshandler.pl?sms_submit_ud=48656C6C6F"
    "/cgi-bin/smshandler.pl" user_data_only (Raise JSONDecodeError) (Ok []).

Definition post_submit_field : request :=
  mk_request "/cgi-bin/smshandler.pl" "/cgi-bin/smshandler.pl" []
    (Raise JSONDecodeError) (Ok [("submit", ("0891", []))]).

Definition get_traversal : request :=
  mk_request "/static/../smsc_simulator.py" "/static/../smsc_simulator.py" []
    (Raise JSONDecodeError) (Ok []).

(** A GET that climbs out of the static directory into the submission
    endpoint. *)
Definition get_traversal_submission : request :=
  mk_request "/static/../cgi-bin/smshandler.pl?submit=0891"
    "/static/../cgi-bin/smshandler.pl" [("submit", ("0891", []))]
    (Raise JSONDecodeError) (Ok []).

(** Stand-ins for the file reading of [_serve_static_file] and for the
    restart, for the statements at concrete requests. *)
Definition no_file (file_path : string) : M server unit := raise OSError.

Definition no_restart : M server unit := ret tt.

(** The file after an attempt to write [doc] into it. *)
Definition written (doc : json) (f : shared_store) : shared_store :=
  snd (open_w_json_dump doc f).

(** The value an update request carries under [key], when the body is a
    JSON object and the value is an [int] instance between [lo] and [hi]. *)
Definition accepted_value (key : string) (lo hi : Z) (body : result json)
    : option json :=
  match body with
  | Ok (JObj d) =>
      if is_int (dict_get d key JNull)
         && (lo <=? int_value (dict_get d key JNull))
         && (int_value (dict_get d key JNull) <=? hi)
      then Some (dict_get d key JNull)
      else None
  | _ => None
  end.

(** The status of the response a server process has written last. *)
Definition last_status (s : server) : Z := status_code (last_response (proc s)).

(** [handler] is an update of the integer setting [key] with the bounds
    [lo] and [hi]: it never raises and leaves the ledger alone; a request
    whose value is accepted, on a [server_config] that is a dictionary, is
    answered 200, sets the key and rewrites the configuration file; any
    other request is answered 400 or 500 and changes neither. *)
Definition updates_setting (handler : result json -> M server unit)
    (key : string) (lo hi : Z) : Prop :=
  forall body s,
    fst (handler body s) = Ok tt
    /\ sms_handler (proc (snd (handler body s))) = sms_handler (proc s)
    /\ disk (proc (snd (handler body s))) = disk (proc s)
    /\ match accepted_value key lo hi body, server_config s with
       | Some v, JObj cfg =>
           last_status (snd (handler body s)) = 200
           /\ server_config (snd (handler body s)) = JObj (dict_set cfg key v)
           /\ config_file (snd (handler body s))
              = written (JObj (dict_set cfg key v)) (config_file s)
       | _, _ =>
           (last_status (snd (handler body s)) = 400
            \/ last_status (snd (handler body s)) = 500)
           /\ server_config (snd (handler body s)) = server_config s
           /\ config_file (snd (handler body s)) = config_file s
       end.

(** The body of the answer [_handle_config_request] gives in state [s]. *)
Definition config_report (uptime_days uptime_seconds : Z) (s : server) : pydict :=
  body (last_response
          (proc (snd (SMSCRequestHandler._handle_config_request
                        uptime_days uptime_seconds s)))).

(** The settings [_handle_config_request] reports, with their defaults. *)
Definition reported_settings : list (string * json) :=
  [ ("host", JStr "localhost");
    ("web_port", JNum 8080);
    ("sms_port", JNum 8081);
    ("https_port", JNum 8443);
    ("timeout", JNum 30);
    ("max_connections", JNum 100);
    ("version", JStr "1.0.0");
    ("log_level", JStr "INFO") ].






(** The keys the start of the simulator reads from the configuration. *)
Definition startup_keys : list string :=
  ["host"; "web_port"; "sms_port"; "http_port"; "https_port"].

(** The state after [n] attempts to start. *)
Definition after_starts (n : nat) (s : server) : server :=
  Nat.iter n (fun s' => snd (main_startup s')) s.

(** The list the stand-alone port-80 listener's writer starts from: the
    [messages] of the mapping in the file (the empty list when the key is
    missing), the empty list when the file is missing or unparsable, and
    none when the file cannot be opened, when its document is not a mapping
    or when [messages] is not a list, in which cases nothing is written. *)
Definition stored_messages80 (d : shared_store) : option (list json) :=
  match content d with
  | Missing => Some []
  | Unparsable => if readable d then Some [] else None
  | Document j =>
      if readable d
      then match j with
           | JObj fields =>
               match dict_get fields "messages" (JArr []) with
               | JArr l => Some l
               | _ => None
               end
           | _ => None
           end
      else None
  end.

(** The mapping the port-80 listener writes for the list [l]. *)
Definition mapping80 (l : list json) (now : string) : json :=
  JObj [ ("messages", JArr l);
         ("total_count", JNum (Z.of_nat (List.length l)));
         ("last_updated", JStr now) ].

(** The record the port-80 listener makes of a submission. *)
Definition record80 (params : query) (stamp now : string) : pydict :=
  [ ("id", JStr (String.append "msg_" stamp));
    ("timestamp", JStr now);
    ("content", JStr (query_first params "submit" ""));
    ("source", JStr "http_port_80");
    ("processed_parameters",
     JObj [ ("sms_submit", JBool (query_has params "submit"));
            ("sms_submit_ud", JBool (query_has params "sms_submit_ud"));
            ("sms_submit_da", JBool (query_has params "sms_submit_da"));
            ("sms_submit_pid", JBool (query_has params "sms_submit_pid"));
            ("sms_submit_dcs", JBool (query_has params "sms_submit_dcs")) ]) ].

(** The stand-alone port-80 listener handling submissions one after the
    other, each with its query parameters and its two clock readings. *)
Definition port80_serve (submissions : list (query * (string * string)))
    (w : http_server_80.world) : http_server_80.world :=
  fold_left
    (fun w' sub =>
       snd (http_server_80._handle_sms_request (fst sub) (fst (snd sub))
              (snd (snd sub)) w'))
    submissions w.

(** The stand-alone port-80 listener before its first request, with no
    shared file yet. *)
Definition started_port80 : http_server_80.world :=
  http_server_80.mk_world (mk_store Missing true WriteCompletes) [].

(** The events of a process other than changes of the file by its
    environment. *)
Definition own_event (e : event) : bool :=
  match e with
  | Env_store _ => false
  | _ => true
  end.

(** Whether a JSON value is a dictionary, the only values with [get]. *)
Definition is_dict (v : json) : bool :=
  match v with
  | JObj _ => true
  | _ => false
  end.

(** A process whose shared file holds the mapping of the stand-alone
    port-80 listener. *)
Definition beside_port80 : world :=
  fresh "2025-01-02" (mk_store (Document (mapping80 [] "2025-01-02")) true WriteCompletes).

(** A full view of one hundred records. *)
Definition full_view : list pydict := repeat (record_with_id 1) 100.

(** A shared file whose second item is a number. *)
Definition file_with_number : shared_store :=
  mk_store (Document (JArr [JObj (record_with_id 2); JNum 5])) true WriteCompletes.

(** Settles the conjuncts of an update: equal states, and the status of the
    answer just written. *)
Ltac settle_update :=
  repeat split;
  try reflexivity;
  try (unfold last_status, last_response; cbn [proc wfile snd];
       rewrite last_last; cbn [status_code]; auto).


(** * Properties *)

(** ** What each method does to the world *)

Lemma keep_last_100_pop_eq c v s f t d o :
  keep_last_100_pop (mk_world (mk_SMSHandler c v s f t) d o)
  = (Ok tt,
     mk_world (mk_SMSHandler c (if (100 <? List.length v)%nat then tl v else v) s f t)
       d o).
Proof.
  unfold keep_last_100_pop, bind, self, assign, modify, ret; simpl.
  destruct (100 <? List.length v)%nat; reflexivity.
Qed.

Lemma process_sms_eq apdu_data msisdn n1 n2 c v s f t d o :
  exists response,
    process_sms apdu_data msisdn n1 n2 (mk_world (mk_SMSHandler c v s f t) d o)
    = (Ok response,
       mk_world (mk_SMSHandler (c + 1)
                   (pushed (sms_record (c + 1) apdu_data msisdn n2) v)
                   (s + 1) f t) d o)
    /\ dict_get response "message_id" JNull = JNum (c + 1).
Proof.
  eexists. unfold process_sms, bind, self, assign, modify; simpl.
  unfold set_successful_messages, set_processed_messages, set_message_counter; simpl.
  rewrite keep_last_100_pop_eq. unfold ret, pushed, sms_record.
  split; reflexivity.
Qed.

Lemma save_frame msg h d o :
  _save_message_to_shared_file msg (mk_world h d o)
  = (Ok tt, mk_world h (saved msg d) o).
Proof.
  unfold saved, _save_message_to_shared_file, try_except, bind, with_disk,
    lift_result, ret, open_w_json_dump, bind; simpl.
  destruct d as [cont rd ow]; unfold os_path_exists, open_r_json_load,
    open_w, json_dump; simpl.
  destruct cont as [ | | j]; simpl.
  - destruct ow; reflexivity.
  - destruct rd; simpl; destruct ow; reflexivity.
  - destruct rd; simpl.
    + destruct j; simpl; try reflexivity. destruct ow; reflexivity.
    + destruct ow; reflexivity.
Qed.

Lemma add_message_eq sms_data now c v s f t d o :
  add_message sms_data now (mk_world (mk_SMSHandler c v s f t) d o)
  = (Ok (http_record (c + 1) sms_data now),
     mk_world (mk_SMSHandler (c + 1) (pushed (http_record (c + 1) sms_data now) v)
                 (s + 1) f t)
       (saved (http_record (c + 1) sms_data now) d) o).
Proof.
  unfold add_message, bind, self, assign, modify; simpl.
  unfold set_successful_messages, set_processed_messages, set_message_counter; simpl.
  rewrite keep_last_100_pop_eq. fold (http_record (c + 1) sms_data now).
  rewrite save_frame. reflexivity.
Qed.

Lemma simulate_outgoing_message_eq dest text now c v s f t d o :
  simulate_outgoing_message dest text now (mk_world (mk_SMSHandler c v s f t) d o)
  = (Ok (outgoing_record (c + 1) dest text now),
     mk_world (mk_SMSHandler (c + 1) (pushed (outgoing_record (c + 1) dest text now) v)
                 (s + 1) f t)
       (saved (outgoing_record (c + 1) dest text now) d) o).
Proof.
  unfold simulate_outgoing_message, bind, self, assign, modify; simpl.
  unfold set_successful_messages, set_processed_messages, set_message_counter; simpl.
  rewrite keep_last_100_pop_eq. fold (outgoing_record (c + 1) dest text now).
  rewrite save_frame. reflexivity.
Qed.

Lemma clear_messages_eq c v s f t d o :
  clear_messages (mk_world (mk_SMSHandler c v s f t) d o)
  = (Ok tt, mk_world (mk_SMSHandler 0 [] 0 0 t) d o).
Proof. reflexivity. Qed.

Lemma reset_statistics_eq now c v s f t d o :
  reset_statistics now (mk_world (mk_SMSHandler c v s f t) d o)
  = (Ok tt, mk_world (mk_SMSHandler 0 [] 0 0 now) d o).
Proof. reflexivity. Qed.

Lemma for_each_merge_one ids items :
  forall c v s f t d o,
  exists r,
    for_each items (merge_one ids) (mk_world (mk_SMSHandler c v s f t) d o)
    = (r, mk_world (mk_SMSHandler c (v ++ fst (discovered ids items)) s f t) d o)
    /\ (if snd (discovered ids items) then r = Ok tt else exists e, r = Raise e).
Proof.
  induction items as [ | item rest IH]; intros c v s f t d o; simpl.
  - exists (Ok tt). rewrite app_nil_r. split; reflexivity.
  - set (loop := for_each rest (merge_one ids)) in *. unfold bind.
    destruct item as [ | b | n | str | l | fields]; simpl;
      try (eexists; rewrite app_nil_r; split; [reflexivity | eexists; reflexivity]).
    unfold merge_one, bind, lift_result.
    destruct (py_hash (dict_get fields "id" JNull)) as [k | e] eqn:Hk; simpl.
    + destruct (discovered ids rest) as [news completed] eqn:Hd; simpl.
      destruct (set_mem k ids); simpl.
      * destruct (IH c v s f t d o) as [r [Hr Hc]].
        simpl in Hr, Hc.
        unfold ret. rewrite Hr. destruct r as [[] | e].
        -- exists (Ok tt). split; [reflexivity | ].
           destruct completed; [reflexivity | destruct Hc; discriminate].
        -- exists (Raise e). split; [reflexivity | ].
           destruct completed; [discriminate | eexists; reflexivity].
      * unfold assign, modify, set_processed_messages; simpl.
        destruct (IH c (v ++ [fields]) s f t d o) as [r [Hr Hc]].
        simpl in Hr, Hc.
        rewrite Hr. rewrite <- app_assoc. simpl. destruct r as [[] | e].
        -- exists (Ok tt). split; [reflexivity | ].
           destruct completed; [reflexivity | destruct Hc; discriminate].
        -- exists (Raise e). split; [reflexivity | ].
           destruct completed; [discriminate | eexists; reflexivity].
    + eexists. rewrite app_nil_r. split; [reflexivity | eexists; reflexivity].
Qed.

Lemma load_shared_messages_eq c v s f t d o :
  load_shared_messages (mk_world (mk_SMSHandler c v s f t) d o)
  = (Ok tt, mk_world (mk_SMSHandler c (reconciled v d) s f t) d o).
Proof.
  unfold reconciled, merged, merge_outcome, load_shared_messages, try_except,
    bind, with_disk, self, lift_result; simpl.
  destruct d as [cont rd ow]; unfold os_path_exists, open_r_json_load; simpl.
  destruct cont as [ | | j]; simpl; try (rewrite app_nil_r; reflexivity).
  - destruct rd; simpl; rewrite app_nil_r; reflexivity.
  - destruct rd; simpl; [ | rewrite app_nil_r; reflexivity].
    destruct (id_set v) as [ids | e]; simpl; [ | rewrite app_nil_r; reflexivity].
    destruct (py_iter j) as [items | e]; simpl; [ | rewrite app_nil_r; reflexivity].
    destruct (for_each_merge_one ids items c v s f t
                (mk_store (Document j) true ow) o) as [r [Hr Hc]].
    rewrite Hr. destruct (snd (discovered ids items)).
    + subst r. simpl. unfold keep_last_100.
      destruct (100 <? List.length (v ++ fst (discovered ids items)))%nat;
        reflexivity.
    + destruct Hc as [e ->]. reflexivity.
Qed.

(** ** Lists: the last [n] elements *)

Lemma last_n_rev {A : Type} (n : nat) (l : list A) :
  last_n n l = rev (firstn n (rev l)).
Proof. unfold last_n. rewrite firstn_rev, rev_involutive. reflexivity. Qed.

Lemma last_n_all {A : Type} (n : nat) (l : list A) :
  (List.length l <= n)%nat -> last_n n l = l.
Proof.
  intros H. unfold last_n. replace (List.length l - n)%nat with 0%nat by lia.
  reflexivity.
Qed.

Lemma last_n_length {A : Type} (n : nat) (l : list A) :
  List.length (last_n n l) = Nat.min n (List.length l).
Proof. unfold last_n. rewrite length_skipn. lia. Qed.

Lemma last_n_app_last_n {A : Type} (n : nat) (a b : list A) :
  last_n n (last_n n a ++ b) = last_n n (a ++ b).
Proof.
  rewrite !last_n_rev, !rev_app_distr, rev_involutive.
  f_equal. rewrite !firstn_app. f_equal.
  rewrite firstn_firstn. f_equal. lia.
Qed.

Lemma last_n_map {A B : Type} (g : A -> B) (n : nat) (l : list A) :
  map g (last_n n l) = last_n n (map g l).
Proof. unfold last_n. rewrite skipn_map, length_map. reflexivity. Qed.

Lemma keep_last_100_last_n {A : Type} (l : list A) :
  keep_last_100 l = last_n 100 l.
Proof.
  unfold keep_last_100. destruct (100 <? List.length l)%nat eqn:H; [reflexivity | ].
  apply Nat.ltb_ge in H. symmetry. apply last_n_all. exact H.
Qed.

Lemma pushed_last_n (msg : pydict) (l : list pydict) :
  (List.length l <= 100)%nat -> pushed msg l = last_n 100 (l ++ [msg]).
Proof.
  intros H. unfold pushed.
  destruct (100 <? List.length (l ++ [msg]))%nat eqn:E.
  - apply Nat.ltb_lt in E. rewrite length_app in E. simpl in E.
    unfold last_n. rewrite length_app. simpl.
    replace (List.length l + 1 - 100)%nat with 1%nat by lia. reflexivity.
  - apply Nat.ltb_ge in E. symmetry. apply last_n_all. exact E.
Qed.

Lemma pushed_length (msg : pydict) (l : list pydict) :
  (List.length l <= 100)%nat ->
  List.length (pushed msg l) = Nat.min (List.length l + 1) 100.
Proof.
  intros H. rewrite pushed_last_n by exact H.
  rewrite last_n_length, length_app. cbn [List.length]. lia.
Qed.

Lemma pushed_last (msg : pydict) (l : list pydict) :
  last (pushed msg l) [] = msg.
Proof.
  unfold pushed. destruct (100 <? List.length (l ++ [msg]))%nat eqn:E.
  - destruct l as [ | a l']; [discriminate E | ].
    simpl. apply last_last.
  - apply last_last.
Qed.

(** ** One step of a run *)

Lemma step_append e c v s f t d o :
  is_append e = true ->
  exists d',
    step (mk_world (mk_SMSHandler c v s f t) d o) e
    = mk_world (mk_SMSHandler (c + 1) (pushed (record_of e (c + 1)) v) (s + 1) f t)
        d' o.
Proof.
  intros H. destruct e; try discriminate H; unfold step, exec, bind; simpl.
  - destruct (process_sms_eq apdu_data msisdn now_response now_record c v s f t d o)
      as [response [-> _]].
    eexists. reflexivity.
  - rewrite add_message_eq. eexists. reflexivity.
  - rewrite simulate_outgoing_message_eq. eexists. reflexivity.
Qed.

Lemma step_other e c v s f t d o :
  is_append e = false ->
  step (mk_world (mk_SMSHandler c v s f t) d o) e
  = match e with
    | Call_clear_messages => mk_world (mk_SMSHandler 0 [] 0 0 t) d o
    | Call_reset_statistics now => mk_world (mk_SMSHandler 0 [] 0 0 now) d o
    | Call_load_shared_messages =>
        mk_world (mk_SMSHandler c (reconciled v d) s f t) d o
    | Env_store d' => mk_world (mk_SMSHandler c v s f t) d' o
    | _ => mk_world (mk_SMSHandler c v s f t) d o
    end.
Proof.
  intros H. destruct e; try discriminate H; unfold step, exec; simpl;
    try reflexivity.
  rewrite load_shared_messages_eq. reflexivity.
Qed.

Lemma record_of_status e c :
  is_append e = true ->
  dict_get (record_of e c) "status" JNull = JStr "success".
Proof. intros H. destruct e; try discriminate H; reflexivity. Qed.

Lemma record_of_id e c :
  is_append e = true ->
  dict_get (record_of e c) "id" JNull = JNum c.
Proof. intros H. destruct e; try discriminate H; reflexivity. Qed.

(** ** Invariants of a run *)


Lemma step_never_failed w e : never_failed w -> never_failed (step w e).
Proof.
  destruct_world w. unfold never_failed. simpl. intros H.
  destruct (is_append e) eqn:E.
  - destruct (step_append e c v s f t d o E) as [d' ->]. exact H.
  - rewrite (step_other e c v s f t d o E).
    destruct e; try discriminate E; simpl; auto.
Qed.


Lemma run_invariant (P : world -> Prop) (allowed : event -> bool) :
  (forall w e, allowed e = true -> P w -> P (step w e)) ->
  forall es w, forallb allowed es = true -> P w -> P (run es w).
Proof.
  intros Hstep es. induction es as [ | e rest IH]; intros w Hall Hw; simpl.
  - exact Hw.
  - simpl in Hall. apply andb_prop in Hall. destruct Hall as [He Hrest].
    apply IH; [exact Hrest | apply Hstep; assumption].
Qed.

Lemma forallb_true {A : Type} (l : list A) : forallb (fun _ => true) l = true.
Proof. induction l; simpl; auto. Qed.


Lemma run_never_failed es w : never_failed w -> never_failed (run es w).
Proof.
  apply (run_invariant never_failed (fun _ => true)).
  - intros w' e _. apply step_never_failed.
  - apply forallb_true.
Qed.

Lemma statistics_eq c v s f t d o :
  statistics (mk_world (mk_SMSHandler c v s f t) d o)
  = [ ("total_messages", JNum c);
      ("successful_messages", JNum s);
      ("failed_messages", JNum f);
      ("last_processed", match rev v with
                         | last_msg :: _ => JObj last_msg
                         | [] => JNull
                         end);
      ("last_message_time", match rev v with
                            | last_msg :: _ => dict_get last_msg "timestamp" JNull
                            | [] => JNull
                            end);
      ("start_time", JStr t) ].
Proof.
  unfold statistics, get_statistics, bind, self, ret; simpl.
  destruct (rev v) as [ | last_msg r]; [reflexivity | ].
  destruct (dict_has last_msg "timestamp"); reflexivity.
Qed.

Lemma statistics_counters w :
  stat (statistics w) "total_messages" = message_counter (sms_handler w)
  /\ stat (statistics w) "successful_messages" = successful_messages (sms_handler w)
  /\ stat (statistics w) "failed_messages" = failed_messages (sms_handler w).
Proof. destruct_world w. rewrite statistics_eq. repeat split. Qed.

Lemma created_status es :
  forall w, Forall (fun r => dict_get r "status" JNull = JStr "success") (created es w).
Proof.
  induction es as [ | e rest IH]; intros w; simpl.
  - constructor.
  - apply Forall_app. split; [ | apply IH].
    destruct (is_append e) eqn:E; [ | constructor].
    constructor; [ | constructor].
    destruct_world w.
    destruct (step_append e c v s f t d o E) as [d' ->]. unfold view. simpl.
    rewrite pushed_last. apply record_of_status. exact E.
Qed.

Lemma run_appends es :
  forall c v s f t d o,
    forallb is_append es = true ->
    (List.length v <= 100)%nat ->
    view (run es (mk_world (mk_SMSHandler c v s f t) d o))
    = last_n 100 (v ++ created es (mk_world (mk_SMSHandler c v s f t) d o))
    /\ map (fun m => dict_get m "id" JNull)
         (created es (mk_world (mk_SMSHandler c v s f t) d o))
       = map (fun k => JNum (c + Z.of_nat k)) (seq 1 (List.length es)).
Proof.
  induction es as [ | e rest IH]; intros c v s f t d o Hall Hv.
  - simpl. rewrite app_nil_r. split; [ | reflexivity].
    symmetry. apply last_n_all. exact Hv.
  - simpl in Hall. apply andb_prop in Hall. destruct Hall as [He Hrest].
    cbn [run fold_left created List.length]. rewrite He.
    destruct (step_append e c v s f t d o He) as [d' Hs]. rewrite Hs.
    fold (run rest (mk_world (mk_SMSHandler (c + 1)
                                (pushed (record_of e (c + 1)) v) (s + 1) f t) d' o)).
    assert (Hp : (List.length (pushed (record_of e (c + 1)) v) <= 100)%nat)
      by (rewrite pushed_length by exact Hv; lia).
    destruct (IH (c + 1) (pushed (record_of e (c + 1)) v) (s + 1) f t d' o Hrest Hp)
      as [IHv IHi].
    unfold view in *. cbn [sms_handler processed_messages] in *.
    rewrite !pushed_last. split.
    + rewrite IHv. rewrite pushed_last_n by exact Hv.
      rewrite last_n_app_last_n. rewrite <- app_assoc. reflexivity.
    + cbn [app map seq]. rewrite IHi, record_of_id by exact He.
      f_equal.
      rewrite <- (seq_shift (List.length rest) 1), map_map. apply map_ext.
      intros k. f_equal. lia.
Qed.

(** ** The cap on the view *)

(** C2: any run of more than 100 appends ([process_sms], [add_message],
    [simulate_outgoing_message], in any mix) from a process that has just
    started leaves a view of exactly min(N, 100) = 100 records, which are
    the 100 most recently created ones in the order of their creation;
    their ids are N-99 .. N, so that 101 appends leave the ids 2 .. 101. *)
Theorem cap_invariant (now : string) (d : shared_store) (es : list event) :
  forallb is_append es = true ->
  (100 < List.length es)%nat ->
  let w := run es (fresh now d) in
  List.length (view w) = Nat.min (List.length es) 100
  /\ view w = last_n 100 (created es (fresh now d))
  /\ map (fun m => dict_get m "id" JNull) (view w)
     = map (fun k => JNum (Z.of_nat k)) (seq (List.length es - 99) 100).
Proof.
  intros Hall HN w. subst w. unfold fresh, SMSHandler_init.
  destruct (run_appends es 0 [] 0 0 now d [] Hall) as [Hv Hi];
    [simpl; lia | ].
  cbn [app] in Hv.
  set (w0 := mk_world (mk_SMSHandler 0 [] 0 0 now) d []) in *.
  assert (Hlen : List.length (created es w0) = List.length es).
  { rewrite <- (length_map (fun m => dict_get m "id" JNull)), Hi.
    rewrite length_map, length_seq. reflexivity. }
  split; [ | split].
  - rewrite Hv, last_n_length, Hlen. apply Nat.min_comm.
  - exact Hv.
  - rewrite Hv, last_n_map, Hi, <- last_n_map. unfold last_n.
    rewrite length_seq, skipn_seq.
    replace (1 + (List.length es - 100))%nat with (List.length es - 99)%nat by lia.
    replace (List.length es - (List.length es - 100))%nat with 100%nat by lia.
    apply map_ext. intros k. reflexivity.
Qed.

Lemma cap_invariant_witness :
  let es := repeat (Call_add_message [("raw_data", JStr "0891")] "2025-01-01") 60
            ++ repeat (Call_process_sms [] "+5511" "2025-01-02" "2025-01-02") 20
            ++ repeat (Call_simulate_outgoing_message "+5511" "oi" "2025-01-03") 21 in
  map (fun m => dict_get m "id" JNull)
    (view (run es (fresh "2025-01-01" (mk_store Missing true WriteCompletes))))
  = map (fun k => JNum (Z.of_nat k)) (seq 2 100).
Proof.
  intros es.
  assert (Hall : forallb is_append es = true) by reflexivity.
  assert (HN : (100 < List.length es)%nat) by (vm_compute; lia).
  exact (proj2 (proj2 (cap_invariant "2025-01-01"
                         (mk_store Missing true WriteCompletes) es Hall HN))).
Defined.

(** ** The counters *)

(** C10: whatever a listener process goes through from its start (appends,
    clears, resets, reconciles, changes of the shared file), its
    failed-messages counter is 0, [get_statistics] reports 0 failed
    messages, and every record the process has created carries the status
    [success]: the [failed] branch of [process_sms] is never taken. *)
Theorem failed_branch_unreachable (now : string) (d : shared_store) (es : list event) :
  failed_messages (sms_handler (run es (fresh now d))) = 0
  /\ stat (statistics (run es (fresh now d))) "failed_messages" = 0
  /\ Forall (fun r => dict_get r "status" JNull = JStr "success")
       (created es (fresh now d)).
Proof.
  assert (H : never_failed (run es (fresh now d)))
    by (apply run_never_failed; reflexivity).
  split; [exact H | split].
  - destruct (statistics_counters (run es (fresh now d))) as [_ [_ ->]]. exact H.
  - apply created_status.
Qed.




(** ** Keys and ids *)

Lemma pykey_eqb_eq a b : pykey_eqb a b = true <-> a = b.
Proof.
  destruct a, b; simpl; split; intros H; try discriminate H; try reflexivity.
  - apply Z.eqb_eq in H. congruence.
  - inversion H. apply Z.eqb_refl.
  - apply String.eqb_eq in H. congruence.
  - inversion H. apply String.eqb_refl.
Qed.



Lemma id_set_mem msgs :
  forall ks k, id_set msgs = Ok ks -> set_mem k ks = existsb (same_id k) msgs.
Proof.
  induction msgs as [ | m rest IH]; intros ks k H; simpl in H.
  - inversion H. reflexivity.
  - destruct (py_hash (dict_get m "id" JNull)) as [km | e] eqn:Hm; [ | discriminate H].
    destruct (id_set rest) as [kr | e]; [ | discriminate H].
    inversion H. subst ks. simpl. unfold same_id at 1. rewrite Hm.
    rewrite (IH kr k eq_refl). reflexivity.
Qed.



Lemma discovered_fresh ids items r :
  In r (fst (discovered ids items)) ->
  exists k, py_hash (dict_get r "id" JNull) = Ok k /\ set_mem k ids = false.
Proof.
  induction items as [ | item rest IH]; simpl; [intros [] | ].
  destruct item; try (intros []).
  destruct (py_hash (dict_get fields "id" JNull)) as [k | e] eqn:Hk; [ | intros []].
  destruct (discovered ids rest) as [news completed]. simpl in *.
  destruct (set_mem k ids) eqn:Hm; simpl.
  - exact IH.
  - intros [<- | Hin]; [exists k; split; assumption | apply IH; exact Hin].
Qed.


Lemma merge_outcome_cases local d :
  merge_outcome local d = ([], false)
  \/ exists j ids items,
       content d = Document j /\ readable d = true
       /\ id_set local = Ok ids /\ py_iter j = Ok items
       /\ merge_outcome local d = discovered ids items.
Proof.
  unfold merge_outcome.
  destruct (content d) as [ | | j] eqn:Hc; [left; reflexivity | left; reflexivity | ].
  destruct (readable d) eqn:Hr; [ | left; reflexivity].
  destruct (id_set local) as [ids | e] eqn:Hids; [ | left; reflexivity].
  destruct (py_iter j) as [items | e] eqn:Hit; [ | left; reflexivity].
  right. exists j, ids, items. repeat split; try reflexivity; assumption.
Qed.



(** ** Counting the records with one id *)

Lemma count_id_app x a b : count_id x (a ++ b) = (count_id x a + count_id x b)%nat.
Proof. unfold count_id. rewrite filter_app, length_app. reflexivity. Qed.

Lemma count_id_none x l :
  (forall r, In r l -> same_id x r = false) -> count_id x l = 0%nat.
Proof.
  unfold count_id. induction l as [ | r rest IH]; intros H; simpl; [reflexivity | ].
  rewrite (H r (or_introl eq_refl)). apply IH.
  intros r' Hin. apply H. right. exact Hin.
Qed.

Lemma count_id_positive x l :
  (0 < count_id x l)%nat -> existsb (same_id x) l = true.
Proof.
  unfold count_id. induction l as [ | r rest IH]; simpl; [lia | ].
  destruct (same_id x r); simpl; [reflexivity | exact IH].
Qed.

Lemma count_id_last_n x n l : (count_id x (last_n n l) <= count_id x l)%nat.
Proof.
  unfold last_n.
  assert (H : count_id x l
              = (count_id x (firstn (List.length l - n) l)
                 + count_id x (skipn (List.length l - n) l))%nat)
    by (rewrite <- count_id_app, firstn_skipn; reflexivity).
  lia.
Qed.

Lemma count_id_discovered x local ids items :
  id_set local = Ok ids ->
  (0 < count_id x local)%nat ->
  count_id x (fst (discovered ids items)) = 0%nat.
Proof.
  intros Hids Hpos. apply count_id_none. intros r Hin.
  destruct (discovered_fresh ids items r Hin) as [k [Hk Hm]].
  unfold same_id. rewrite Hk.
  destruct (pykey_eqb x k) eqn:E; [ | reflexivity].
  apply pykey_eqb_eq in E. subst k.
  rewrite (id_set_mem _ _ x Hids), (count_id_positive _ _ Hpos) in Hm.
  discriminate Hm.
Qed.

Lemma count_id_merged x local d :
  (0 < count_id x local)%nat ->
  count_id x (merged local d) = count_id x local.
Proof.
  intros Hpos. unfold merged. rewrite count_id_app.
  destruct (merge_outcome_cases local d)
    as [Hskip | [j [ids [items [Hc [Hr [Hids [Hit Hm]]]]]]]].
  - rewrite Hskip. simpl. unfold count_id at 2. simpl. lia.
  - rewrite Hm, (count_id_discovered x local ids items Hids Hpos). lia.
Qed.

Lemma discovered_records local ids :
  id_set local = Ok ids ->
  forall records kr,
    id_set records = Ok kr ->
    discovered ids (map JObj records)
    = (filter (fun r => negb (known local r)) records, true).
Proof.
  intros Hids. induction records as [ | r rest IH]; intros kr Hkr; simpl in *.
  - reflexivity.
  - unfold known at 1.
    destruct (py_hash (dict_get r "id" JNull)) as [k | e] eqn:Hk; [ | discriminate Hkr].
    destruct (id_set rest) as [kr' | e]; [ | discriminate Hkr].
    rewrite (IH kr' eq_refl). rewrite (id_set_mem _ _ k Hids).
    destruct (existsb (same_id k) local); reflexivity.
Qed.

(** ** Reconciliation *)


















(** C5 (as the code has it): for a local view with exactly one record of
    id [x], the sequence a reconcile merges (the local view in its order,
    followed by what it discovers in the shared file) has exactly one record
    of id [x]; the view it leaves is that sequence, cut to its last 100
    records when the merge loop completes, so it has at most one record of
    id [x], and exactly one when the merged sequence has at most 100
    records.  When the file holds a list of records with hashable ids, what
    the reconcile discovers is the file's records whose id is not in the
    local view, in the order of the file. *)
Theorem dedup_by_id (w : world) (x : pykey) :
  count_id x (view w) = 1%nat ->
  count_id x (merged (view w) (disk w)) = 1%nat
  /\ view (snd (load_shared_messages w))
     = (if snd (merge_outcome (view w) (disk w))
        then last_n 100 (merged (view w) (disk w))
        else merged (view w) (disk w))
  /\ (count_id x (view (snd (load_shared_messages w))) <= 1)%nat
  /\ ((List.length (merged (view w) (disk w)) <= 100)%nat ->
      view (snd (load_shared_messages w)) = merged (view w) (disk w)
      /\ count_id x (view (snd (load_shared_messages w))) = 1%nat)
  /\ (forall records ids kr,
        content (disk w) = Document (JArr (map JObj records)) ->
        readable (disk w) = true ->
        id_set (view w) = Ok ids ->
        id_set records = Ok kr ->
        merged (view w) (disk w)
        = view w ++ filter (fun r => negb (known (view w) r)) records).
Proof.
  destruct_world w. unfold view. simpl. intros Hx.
  rewrite load_shared_messages_eq. simpl.
  assert (Hm : count_id x (merged v d) = 1%nat)
    by (rewrite count_id_merged; [exact Hx | lia]).
  assert (Hv : reconciled v d
               = (if snd (merge_outcome v d)
                  then last_n 100 (merged v d) else merged v d)).
  { unfold reconciled. rewrite keep_last_100_last_n. reflexivity. }
  split; [exact Hm | split; [exact Hv | split; [ | split]]].
  - rewrite Hv. destruct (snd (merge_outcome v d)); [ | lia].
    pose proof (count_id_last_n x 100 (merged v d)). lia.
  - intros Hlen.
    assert (Hr : reconciled v d = merged v d).
    { rewrite Hv. destruct (snd (merge_outcome v d)); [ | reflexivity].
      apply last_n_all. exact Hlen. }
    rewrite Hr. split; [reflexivity | exact Hm].
  - intros records ids kr Hc Hr Hids Hkr.
    unfold merged, merge_outcome. rewrite Hc, Hr, Hids. simpl.
    rewrite (discovered_records v ids Hids records kr Hkr). reflexivity.
Qed.

Lemma dedup_by_id_witness :
  count_id (KInt 2) (view (snd (load_shared_messages overlapping_world))) = 1%nat
  /\ view (snd (load_shared_messages overlapping_world))
     = [record_with_id 1; record_with_id 2; record_with_id 5].
Proof.
  assert (Hx : count_id (KInt 2) (view overlapping_world) = 1%nat) by reflexivity.
  destruct (dedup_by_id overlapping_world (KInt 2) Hx) as [_ [_ [_ [H _]]]].
  assert (Hlen : (List.length (merged (view overlapping_world)
                                 (disk overlapping_world)) <= 100)%nat)
    by (vm_compute; lia).
  destruct (H Hlen) as [Hv Hc]. split; [exact Hc | ].
  rewrite Hv. reflexivity.
Defined.

(** C5 fails as stated: in [evicting_world] the view and the shared file
    each hold exactly one record of id 2, and the view a reconcile leaves
    holds none, the cap having evicted it to make room for the record 1. *)
Lemma dedup_loses_record :
  reachable evicting_world
  /\ count_id (KInt 2) (view evicting_world) = 1%nat
  /\ (exists records,
        content (disk evicting_world) = Document (JArr (map JObj records))
        /\ count_id (KInt 2) records = 1%nat)
  /\ count_id (KInt 2) (view (snd (load_shared_messages evicting_world))) = 0%nat.
Proof.
  split; [ | split; [ | split]].
  - unfold evicting_world. eexists _, _, _. reflexivity.
  - vm_compute. reflexivity.
  - exists (map (fun i => http_record (Z.of_nat i) [] "2025-01-01") (seq 1 100)).
    split; vm_compute; reflexivity.
  - vm_compute. reflexivity.
Qed.

(** ** Writing the shared file *)

Lemma saved_eq msg d :
  saved msg d
  = match stored_list d with
    | None => d
    | Some l =>
        match on_write d with
        | WriteCompletes =>
            mk_store (Document (JArr (keep_last_100 (l ++ [JObj msg]))))
              (readable d) WriteCompletes
        | OpenDenied => d
        | DumpInterrupted => mk_store Unparsable (readable d) DumpInterrupted
        end
    end.
Proof.
  unfold saved, stored_list, _save_message_to_shared_file, try_except, bind,
    with_disk, lift_result, ret, open_w_json_dump, bind; simpl.
  destruct d as [cont rd ow]; unfold os_path_exists, open_r_json_load,
    open_w, json_dump; simpl.
  destruct cont as [ | | j]; simpl.
  - destruct ow; reflexivity.
  - destruct rd; simpl; destruct ow; reflexivity.
  - destruct rd; simpl.
    + destruct j; simpl; try reflexivity. destruct ow; reflexivity.
    + destruct ow; reflexivity.
Qed.

(** With a file that holds at most 100 items and a write that goes
    through, the file holds the last 100 of the items and the new record. *)
Lemma saved_keeps_last_100 msg d l :
  stored_list d = Some l ->
  on_write d = WriteCompletes ->
  content (saved msg d) = Document (JArr (last_n 100 (l ++ [JObj msg])))
  /\ (List.length (last_n 100 (l ++ [JObj msg])) <= 100)%nat.
Proof.
  intros Hl Hw. rewrite saved_eq, Hl, Hw. simpl.
  rewrite keep_last_100_last_n. split; [reflexivity | ].
  rewrite last_n_length. lia.
Qed.

(** ** The request handlers *)

Lemma unquote_truthy s : truthy (unquote s) = truthy s.
Proof.
  destruct s as [ | c rest]; simpl; [reflexivity | ].
  destruct (Ascii.eqb c "%"); [ | reflexivity].
  destruct rest as [ | a [ | b rest']]; try reflexivity.
  destruct (hex_value a); [ | reflexivity].
  destruct (hex_value b); reflexivity.
Qed.

Lemma truthy_empty s : truthy s = false <-> s = "".
Proof.
  unfold truthy. destruct (String.eqb s "") eqn:E; simpl.
  - apply String.eqb_eq in E. split; [intros _; exact E | reflexivity].
  - apply String.eqb_neq in E. split; [discriminate | intros H; contradiction].
  Qed.

Lemma port80_rejects q now c v s f t d o :
  all_empty (submitted_fields q) = true ->
  exists resp,
    _handle_sms_request_port80 q now (mk_world (mk_SMSHandler c v s f t) d o)
    = (Ok tt, mk_world (mk_SMSHandler c v s f t) d (o ++ [resp]))
    /\ status_code resp = 400.
Proof.
  unfold all_empty, submitted_fields. simpl. intros H.
  repeat (apply andb_prop in H; destruct H as [?H H]).
  apply String.eqb_eq in H0, H1, H2, H3, H4.
  unfold _handle_sms_request_port80, try_except.
  rewrite H0, H1, H2, H3, H4. simpl.
  eexists. split; reflexivity.
Qed.

Lemma port80_accepts q now c v s f t d o :
  all_empty (submitted_fields q) = false ->
  exists resp,
    _handle_sms_request_port80 q now (mk_world (mk_SMSHandler c v s f t) d o)
    = (Ok tt,
       mk_world (mk_SMSHandler (c + 1)
                   (pushed (http_record (c + 1) (port80_sms_data q now) now) v)
                   (s + 1) f t)
         (saved (http_record (c + 1) (port80_sms_data q now) now) d)
         (o ++ [resp]))
    /\ status_code resp = 200
    /\ dict_get (body resp) "status" JNull = JStr "success".
Proof.
  unfold all_empty, submitted_fields. intros H.
  assert (Hany : existsb truthy
                   [ (if truthy (query_first q "submit" "")
                      then unquote (query_first q "submit" "") else "");
                     query_first q "sms_submit_ud" "";
                     query_first q "sms_submit_da" "";
                     query_first q "sms_submit_pid" "";
                     query_first q "sms_submit_dcs" "" ] = true).
  { cbn [existsb forallb] in *.
    destruct (truthy (query_first q "submit" "")) eqn:E.
    - rewrite unquote_truthy, E. reflexivity.
    - unfold truthy in *.
      destruct (String.eqb (query_first q "submit" "") ""); [ | discriminate E].
      destruct (String.eqb (query_first q "sms_submit_ud" "") "");
        [ | reflexivity].
      destruct (String.eqb (query_first q "sms_submit_da" "") "");
        [ | reflexivity].
      destruct (String.eqb (query_first q "sms_submit_pid" "") "");
        [ | reflexivity].
      destruct (String.eqb (query_first q "sms_submit_dcs" "") "");
        [ | reflexivity].
      discriminate H. }
  unfold _handle_sms_request_port80, try_except. rewrite Hany.
  cbn [negb]. unfold bind.
  fold (port80_sms_data q now). rewrite add_message_eq.
  unfold _send_json_response, send, modify. cbn [sms_handler disk wfile].
  eexists. split; [reflexivity | split; reflexivity].
Qed.

Lemma sms_request_rejects q now c v s f t d o :
  query_first q "submit" "" = "" ->
  exists resp,
    _handle_sms_request q now (mk_world (mk_SMSHandler c v s f t) d o)
    = (Ok tt, mk_world (mk_SMSHandler c v s f t) d (o ++ [resp]))
    /\ status_code resp = 400.
Proof.
  intros H. unfold _handle_sms_request. rewrite H. simpl.
  eexists. split; reflexivity.
Qed.

Lemma sms_request_accepts q now c v s f t d o :
  query_first q "submit" "" <> "" ->
  exists resp,
    _handle_sms_request q now (mk_world (mk_SMSHandler c v s f t) d o)
    = (Ok tt,
       mk_world (mk_SMSHandler (c + 1)
                   (pushed (sms_record (c + 1)
                              (parse_hex_string (query_first q "submit" "") now)
                              (query_first q "MSISDN" "") now) v)
                   (s + 1) f t)
         d (o ++ [resp]))
    /\ status_code resp = 200.
Proof.
  intros H. unfold _handle_sms_request.
  assert (E : truthy (query_first q "submit" "") = true).
  { destruct (truthy (query_first q "submit" "")) eqn:E; [reflexivity | ].
    apply truthy_empty in E. contradiction. }
  rewrite E. unfold bind.
  destruct (process_sms_eq (parse_hex_string (query_first q "submit" "") now)
              (query_first q "MSISDN" "") now now c v s f t d o)
    as [response [-> _]].
  unfold _send_json_response, send, modify. cbn [sms_handler disk wfile].
  eexists. split; reflexivity.
Qed.


(** ** Validation of a submission *)

(** C7 (as the code has it): on the port-80 path
    ([_handle_sms_request_port80]) a submission is answered with 400 exactly
    when its five recognized fields are all absent or empty, and then the
    handler object and the shared file are left as they were; otherwise it
    is answered with 200, its record is appended to the view and handed to
    the write of the shared file (which stores it when the write goes
    through).  On the APDU path ([_handle_sms_request]) only [submit] counts:
    the answer is 400 exactly when [submit] is absent or empty, whatever the
    other fields hold, and nothing is created; otherwise the answer is 200
    and the record is appended to the view, the shared file being left
    untouched. *)
Theorem submission_validation (w : world) (q : query) (now : string) :
  (status_code (last_response (snd (_handle_sms_request_port80 q now w))) = 400
   <-> all_empty (submitted_fields q) = true)
  /\ (all_empty (submitted_fields q) = true ->
      sms_handler (snd (_handle_sms_request_port80 q now w)) = sms_handler w
      /\ disk (snd (_handle_sms_request_port80 q now w)) = disk w)
  /\ (all_empty (submitted_fields q) = false ->
      let rec := http_record (message_counter (sms_handler w) + 1)
                   (port80_sms_data q now) now in
      status_code (last_response (snd (_handle_sms_request_port80 q now w))) = 200
      /\ view (snd (_handle_sms_request_port80 q now w)) = pushed rec (view w)
      /\ disk (snd (_handle_sms_request_port80 q now w)) = saved rec (disk w)
      /\ (forall l, on_write (disk w) = WriteCompletes ->
                    stored_list (disk w) = Some l ->
                    content (disk (snd (_handle_sms_request_port80 q now w)))
                    = Document (JArr (keep_last_100 (l ++ [JObj rec])))))
  /\ (status_code (last_response (snd (_handle_sms_request q now w))) = 400
      <-> query_first q "submit" "" = "")
  /\ (query_first q "submit" "" = "" ->
      sms_handler (snd (_handle_sms_request q now w)) = sms_handler w
      /\ disk (snd (_handle_sms_request q now w)) = disk w)
  /\ (query_first q "submit" "" <> "" ->
      status_code (last_response (snd (_handle_sms_request q now w))) = 200
      /\ view (snd (_handle_sms_request q now w))
         = pushed (sms_record (message_counter (sms_handler w) + 1)
                     (parse_hex_string (query_first q "submit" "") now)
                     (query_first q "MSISDN" "") now) (view w)
      /\ disk (snd (_handle_sms_request q now w)) = disk w).
Proof.
  destruct_world w. unfold view, last_response. cbn [sms_handler disk message_counter
                                                      processed_messages].
  assert (P80 : all_empty (submitted_fields q) = true
                \/ all_empty (submitted_fields q) = false)
    by (destruct (all_empty (submitted_fields q)); auto).
  assert (PS : query_first q "submit" "" = "" \/ query_first q "submit" "" <> "").
  { destruct (String.eqb (query_first q "submit" "") "") eqn:E.
    - left. apply String.eqb_eq. exact E.
    - right. apply String.eqb_neq. exact E. }
  repeat split.
  - intros H. destruct P80 as [E | E]; [exact E | ].
    destruct (port80_accepts q now c v s f t d o E) as [resp [Hr [Hc _]]].
    rewrite Hr in H. cbn [snd wfile] in H. rewrite last_last, Hc in H.
    discriminate H.
  - intros E. destruct (port80_rejects q now c v s f t d o E) as [resp [Hr Hc]].
    rewrite Hr. cbn [snd wfile]. rewrite last_last. exact Hc.
  - destruct (port80_rejects q now c v s f t d o H) as [resp [Hr Hc]].
    rewrite Hr. reflexivity.
  - destruct (port80_rejects q now c v s f t d o H) as [resp [Hr Hc]].
    rewrite Hr. reflexivity.
  - destruct (port80_accepts q now c v s f t d o H) as [resp [Hr [Hc _]]].
    rewrite Hr. cbn [snd wfile]. rewrite last_last. exact Hc.
  - destruct (port80_accepts q now c v s f t d o H) as [resp [Hr [Hc _]]].
    rewrite Hr. reflexivity.
  - destruct (port80_accepts q now c v s f t d o H) as [resp [Hr [Hc _]]].
    rewrite Hr. reflexivity.
  - intros l Hw Hl.
    destruct (port80_accepts q now c v s f t d o H) as [resp [Hr [Hc _]]].
    rewrite Hr. cbn [snd disk]. rewrite saved_eq, Hl, Hw. reflexivity.
  - intros H. destruct PS as [E | E]; [exact E | ].
    destruct (sms_request_accepts q now c v s f t d o E) as [resp [Hr Hc]].
    rewrite Hr in H. cbn [snd wfile] in H. rewrite last_last, Hc in H.
    discriminate H.
  - intros E. destruct (sms_request_rejects q now c v s f t d o E) as [resp [Hr Hc]].
    rewrite Hr. cbn [snd wfile]. rewrite last_last. exact Hc.
  - destruct (sms_request_rejects q now c v s f t d o H) as [resp [Hr Hc]].
    rewrite Hr. reflexivity.
  - destruct (sms_request_rejects q now c v s f t d o H) as [resp [Hr Hc]].
    rewrite Hr. reflexivity.
  - destruct (sms_request_accepts q now c v s f t d o H) as [resp [Hr Hc]].
    rewrite Hr. cbn [snd wfile]. rewrite last_last. exact Hc.
  - destruct (sms_request_accepts q now c v s f t d o H) as [resp [Hr Hc]].
    rewrite Hr. reflexivity.
  - destruct (sms_request_accepts q now c v s f t d o H) as [resp [Hr Hc]].
    rewrite Hr. reflexivity.
Qed.

Lemma submission_validation_witness :
  status_code (last_response
                 (snd (_handle_sms_request_port80 user_data_only "2025-01-02"
                         started_world))) = 200
  /\ List.length (view (snd (_handle_sms_request_port80 user_data_only "2025-01-02"
                               started_world))) = 1%nat
  /\ sms_handler (snd (_handle_sms_request user_data_only "2025-01-02" started_world))
     = sms_handler started_world.
Proof.
  destruct (submission_validation started_world user_data_only "2025-01-02")
    as [_ [_ [Hacc [_ [Hrej _]]]]].
  assert (H80 : all_empty (submitted_fields user_data_only) = false) by reflexivity.
  assert (Hsub : query_first user_data_only "submit" "" = "") by reflexivity.
  destruct (Hacc H80) as [Hc [Hv _]]. destruct (Hrej Hsub) as [Hh _].
  split; [exact Hc | split; [ | exact Hh]].
  rewrite Hv. reflexivity.
Defined.

(** C7 fails as stated: a submission whose user-data field is populated is
    answered with 400 by [_handle_sms_request], and no record is created. *)
Lemma user_data_alone_rejected :
  all_empty (submitted_fields user_data_only) = false
  /\ map status_code
       (wfile (snd (_handle_sms_request user_data_only "2025-01-02" started_world)))
     = [400]
  /\ view (snd (_handle_sms_request user_data_only "2025-01-02" started_world)) = []
  /\ disk (snd (_handle_sms_request user_data_only "2025-01-02" started_world))
     = disk started_world.
Proof. repeat split. Qed.

(** ** A failed write of the shared file *)



(** ** Clearing the ledger *)

Lemma clear_leaves_the_file now w :
  fst (_handle_clear_messages now w) = Ok tt
  /\ view (snd (_handle_clear_messages now w)) = []
  /\ message_counter (sms_handler (snd (_handle_clear_messages now w))) = 0
  /\ successful_messages (sms_handler (snd (_handle_clear_messages now w))) = 0
  /\ failed_messages (sms_handler (snd (_handle_clear_messages now w))) = 0
  /\ disk (snd (_handle_clear_messages now w)) = disk w.
Proof. destruct_world w. repeat split. Qed.

(** C8 on the code: a process takes one submission on the port-80 path
    (the record is persisted), the ledger is cleared through the clear
    endpoint (answer 200, empty view, counters at 0, the shared file left
    as it was), and the next read of the message list reconciles against
    the file and returns the cleared record again. *)
Lemma cleared_records_reappear :
  let w1 := snd (_handle_sms_request_port80 user_data_only "2025-01-02"
                   started_world) in
  let w2 := snd (_handle_clear_messages "2025-01-03" w1) in
  let w3 := snd (_handle_messages_request "2025-01-04" w2) in
  List.length (view w1) = 1%nat
  /\ status_code (last_response w2) = 200
  /\ view w2 = []
  /\ stat (statistics w2) "total_messages" = 0
  /\ disk w2 = disk w1
  /\ view w3 = view w1
  /\ dict_get (body (last_response w3)) "total_count" JNull = JNum 1.
Proof. vm_compute. repeat split. Qed.

(** ** The layout of the shared file *)

(** C3 on the code: the port-80 listener writes a mapping with the keys
    [messages], [total_count] and [last_updated]; the simulator reads
    nothing back from it and its own writer leaves it untouched.  The
    simulator writes a bare list; the port-80 listener's writer, finding
    it, drops its record and leaves the file as it is. *)
Lemma layouts_disagree :
  let absent := mk_store Missing true WriteCompletes in
  (exists messages count stamp,
      content (after_port80_listener absent)
      = Document (JObj [ ("messages", JArr [messages]);
                         ("total_count", count);
                         ("last_updated", stamp) ]))
  /\ view (snd (load_shared_messages
                  (fresh "2025-01-03" (after_port80_listener absent)))) = []
  /\ after_simulator (after_port80_listener absent) = after_port80_listener absent
  /\ (exists record, content (after_simulator absent) = Document (JArr [record]))
  /\ after_port80_listener (after_simulator absent) = after_simulator absent.
Proof.
  intros absent. split; [ | split; [ | split; [ | split]]].
  - eexists _, _, _. vm_compute. reflexivity.
  - vm_compute. reflexivity.
  - vm_compute. reflexivity.
  - eexists. vm_compute. reflexivity.
  - vm_compute. reflexivity.
Qed.

(** What holds of the layout: a record persisted by one simulator process
    is read back by a reconcile of another simulator process. *)
Lemma simulator_reads_simulator :
  view (snd (load_shared_messages
               (fresh "2025-01-03"
                  (after_simulator (mk_store Missing true WriteCompletes)))))
  = [http_record 1 [] "2025-01-02"].
Proof. vm_compute. reflexivity. Qed.

(** ** Rewriting the shared file *)

(** C9 (as the code has it): the shared file is rewritten in place, by
    [open(..., 'w')], which empties it, followed by [json.dump]; there is no
    temporary file, no rename and no lock.  Between the two steps the file
    is unparsable.  A process that comes upon it in that state is not
    brought down: its reconcile returns normally and leaves its world as it
    was, and its write starts from an empty list, so that the file it
    writes holds its own record only. *)
Theorem rewrite_in_place (doc : json) (st : shared_store) :
  on_write st = WriteCompletes ->
  contents_during_rewrite doc st = [content st; Unparsable; Document doc]
  /\ (forall w, disk w = snd (open_w st) -> load_shared_messages w = (Ok tt, w))
  /\ (forall h o msg,
         _save_message_to_shared_file msg (mk_world h (snd (open_w st)) o)
         = (Ok tt,
            mk_world h (mk_store (Document (JArr [JObj msg])) (readable st)
                          WriteCompletes) o)).
Proof.
  intros Hw. destruct st as [cont rd ow]. simpl in Hw. subst ow.
  split; [reflexivity | split].
  - intros w Hd. destruct_world w. simpl in Hd. subst d.
    rewrite load_shared_messages_eq. unfold reconciled, merged, merge_outcome.
    simpl. rewrite app_nil_r. reflexivity.
  - intros h o msg. rewrite save_frame, saved_eq. simpl.
    destruct rd; reflexivity.
Qed.

Lemma rewrite_in_place_witness :
  contents_during_rewrite two_records one_record_file
  = [Document (JArr [JObj (record_with_id 1)]); Unparsable; Document two_records].
Proof.
  exact (proj1 (rewrite_in_place two_records one_record_file eq_refl)).
Defined.

(** C9 fails as stated: while the file holding record 1 is rewritten to
    hold records 1 and 2, it passes through a state that is neither the old
    nor the new document; a sibling that reconciles in that state sees no
    record, and a sibling that persists record 9 in that state leaves a file
    without record 1. *)
Lemma rewrite_not_atomic :
  ~ rewrite_is_atomic two_records one_record_file
  /\ view (snd (load_shared_messages
                  (fresh "2025-01-03" (snd (open_w one_record_file))))) = []
  /\ content (saved (record_with_id 9) (snd (open_w one_record_file)))
     = Document (JArr [JObj (record_with_id 9)]).
Proof.
  split; [ | split; reflexivity].
  intros H. destruct (H Unparsable) as [E | E].
  - right. left. reflexivity.
  - discriminate E.
  - discriminate E.
Qed.

(** * The rest of the listeners: properties *)

(** ** APDUParser.parse_hex_string *)

Lemma upper_ascii_idempotent c : upper_ascii (upper_ascii c) = upper_ascii c.
Proof. destruct c as [[] [] [] [] [] [] [] []]; vm_compute; reflexivity. Qed.

Lemma upper_ascii_space c :
  Ascii.eqb (upper_ascii c) " " = Ascii.eqb c " ".
Proof. destruct c as [[] [] [] [] [] [] [] []]; vm_compute; reflexivity. Qed.

Lemma filter_idempotent {A : Type} (p : A -> bool) (l : list A) :
  filter p (filter p l) = filter p l.
Proof.
  induction l as [ | a l IH]; simpl; [reflexivity | ].
  destruct (p a) eqn:E; simpl; [rewrite E, IH; reflexivity | exact IH].
Qed.

Lemma filter_map_commute {A : Type} (p : A -> bool) (g : A -> A) (l : list A) :
  (forall a, p (g a) = p a) -> filter p (map g l) = map g (filter p l).
Proof.
  intros H. induction l as [ | a l IH]; simpl; [reflexivity | ].
  rewrite H. destruct (p a); simpl; rewrite IH; reflexivity.
Qed.

Lemma hex_clean_idempotent s :
  upper (remove_spaces (upper (remove_spaces s))) = upper (remove_spaces s).
Proof.
  unfold upper, remove_spaces.
  rewrite !list_ascii_of_string_of_list_ascii.
  rewrite filter_map_commute
    by (intros a; rewrite upper_ascii_space; reflexivity).
  rewrite filter_idempotent, map_map. f_equal.
  apply map_ext. intros a. apply upper_ascii_idempotent.
Qed.

Lemma hex_clean_no_space s :
  forall c, In c (list_ascii_of_string (upper (remove_spaces s))) ->
            c <> " "%char /\ upper_ascii c = c.
Proof.
  intros c. unfold upper, remove_spaces.
  rewrite !list_ascii_of_string_of_list_ascii.
  intros H. apply in_map_iff in H. destruct H as [a [<- Ha]].
  apply filter_In in Ha. destruct Ha as [_ Ha].
  split; [ | apply upper_ascii_idempotent].
  intros E. rewrite <- upper_ascii_space in Ha.
  rewrite E in Ha. discriminate Ha.
Qed.

(** X1: the parser reads its input up to spaces and the case of ASCII
    letters.  The cleaned string holds no space and no lower-case letter,
    and parsing the cleaned string gives the same dictionary as parsing the
    input, apart from the [raw_data] entry, which echoes the input. *)
Theorem parse_hex_string_normalises (hex_data now : string) :
  dict_get (parse_hex_string hex_data now) "raw_data" JNull = JStr hex_data
  /\ dict_get (parse_hex_string hex_data now) "hex_clean" JNull
     = JStr (upper (remove_spaces hex_data))
  /\ (forall c, In c (list_ascii_of_string (upper (remove_spaces hex_data))) ->
                c <> " "%char /\ upper_ascii c = c)
  /\ (forall k, k <> "raw_data" ->
        dict_get (parse_hex_string (upper (remove_spaces hex_data)) now) k JNull
        = dict_get (parse_hex_string hex_data now) k JNull).
Proof.
  split; [ | split; [ | split]].
  - unfold parse_hex_string.
    destruct (4 <=? String.length (upper (remove_spaces hex_data)))%nat;
      destruct (index 0 "91" (upper (remove_spaces hex_data))); reflexivity.
  - unfold parse_hex_string.
    destruct (4 <=? String.length (upper (remove_spaces hex_data)))%nat;
      destruct (index 0 "91" (upper (remove_spaces hex_data))); reflexivity.
  - apply hex_clean_no_space.
  - intros k Hk. unfold parse_hex_string. rewrite hex_clean_idempotent.
    apply String.eqb_neq in Hk.
    destruct (4 <=? String.length (upper (remove_spaces hex_data)))%nat;
      destruct (index 0 "91" (upper (remove_spaces hex_data)));
      unfold dict_get; simpl; rewrite Hk; reflexivity.
Qed.

(** X2: a submission is tagged as carrying an international number exactly
    when the two characters [91] occur somewhere in the cleaned string, at an
    even or an odd offset alike; the position recorded is that of their
    first occurrence. *)
Theorem parse_hex_string_international (hex_data now : string) :
  (dict_has (parse_hex_string hex_data now) "number_type"
   = contains "91" (upper (remove_spaces hex_data)))
  /\ (forall idx,
        index 0 "91" (upper (remove_spaces hex_data)) = Some idx ->
        dict_get (parse_hex_string hex_data now) "number_type" JNull
        = JStr "international"
        /\ dict_get (parse_hex_string hex_data now) "number_indicator_pos" JNull
           = JNum (Z.of_nat idx)
        /\ substring idx 2 (upper (remove_spaces hex_data)) = "91"
        /\ (forall p, (p < idx)%nat ->
                      substring p 2 (upper (remove_spaces hex_data)) <> "91")).
Proof.
  unfold contains. split.
  - unfold parse_hex_string.
    destruct (4 <=? String.length (upper (remove_spaces hex_data)))%nat;
      destruct (index 0 "91" (upper (remove_spaces hex_data))); reflexivity.
  - intros idx H. unfold parse_hex_string. rewrite H.
    split; [ | split; [ | split]].
    + destruct (4 <=? String.length (upper (remove_spaces hex_data)))%nat;
        reflexivity.
    + destruct (4 <=? String.length (upper (remove_spaces hex_data)))%nat;
        reflexivity.
    + apply (index_correct1 0 idx "91"). exact H.
    + intros p Hp. apply (index_correct2 0 idx "91" _ H); lia.
Qed.

Lemma parse_hex_string_normalises_witness :
  "hex_clean" <> "raw_data"
  /\ dict_get (parse_hex_string (upper (remove_spaces "0a 91 c")) "2025-01-02")
       "hex_clean" JNull
     = dict_get (parse_hex_string "0a 91 c" "2025-01-02") "hex_clean" JNull.
Proof.
  split; [discriminate | ].
  apply (proj2 (proj2 (proj2 (parse_hex_string_normalises "0a 91 c" "2025-01-02")))).
  discriminate.
Defined.

Lemma parse_hex_string_international_witness :
  index 0 "91" (upper (remove_spaces "0 891")) = Some 2%nat
  /\ dict_get (parse_hex_string "0 891" "2025-01-02") "number_indicator_pos" JNull
     = JNum 2.
Proof.
  split; [reflexivity | ].
  exact (proj1 (proj2 (proj2 (parse_hex_string_international "0 891" "2025-01-02")
                         2%nat eq_refl))).
Defined.

(** ** get_statistics *)

Lemma rev_head_last {A : Type} (l : list A) (x default : A) :
  l <> [] -> last l default = x -> exists r, rev l = x :: r.
Proof.
  intros Hne Hl. destruct (exists_last Hne) as [l' [a ->]].
  rewrite last_last in Hl. subst a. rewrite rev_app_distr. simpl.
  eexists. reflexivity.
Qed.

Lemma pushed_nonempty msg l : pushed msg l <> [].
Proof.
  unfold pushed. destruct (100 <? List.length (l ++ [msg]))%nat eqn:E.
  - destruct l as [ | a l']; [discriminate E | ].
    simpl. destruct l'; discriminate.
  - destruct l; discriminate.
Qed.

(** X3: [get_statistics] reports as [last_processed] the newest record of
    the view and as [last_message_time] its timestamp: both are null exactly
    when the view is empty, and right after an append they are the record
    just created and its timestamp, while [total_messages] has grown by
    one. *)
Theorem statistics_last_processed (w : world) :
  (dict_get (statistics w) "last_processed" JNull = JNull <-> view w = [])
  /\ (view w = [] -> dict_get (statistics w) "last_message_time" JNull = JNull)
  /\ (forall e,
        is_append e = true ->
        dict_get (statistics (step w e)) "last_processed" JNull
        = JObj (record_of e (message_counter (sms_handler w) + 1))
        /\ dict_get (statistics (step w e)) "last_message_time" JNull
           = dict_get (record_of e (message_counter (sms_handler w) + 1))
               "timestamp" JNull
        /\ stat (statistics (step w e)) "total_messages"
           = message_counter (sms_handler w) + 1).
Proof.
  destruct_world w. unfold view. cbn [sms_handler processed_messages message_counter].
  split; [ | split].
  - rewrite statistics_eq. unfold dict_get. simpl.
    destruct (rev v) as [ | m r] eqn:E.
    + split; [intros _ | reflexivity].
      apply (f_equal (@rev pydict)) in E. rewrite rev_involutive in E. exact E.
    + split; [discriminate | ]. intros ->. discriminate E.
  - intros ->. rewrite statistics_eq. reflexivity.
  - intros e He. destruct (step_append e c v s f t d o He) as [d' ->].
    rewrite statistics_eq.
    destruct (rev_head_last (pushed (record_of e (c + 1)) v)
                (record_of e (c + 1)) []
                (pushed_nonempty _ _) (pushed_last _ _)) as [r ->].
    repeat split.
Qed.

Lemma statistics_last_processed_witness :
  dict_get (statistics (step started_world
                          (Call_simulate_outgoing_message "+5511" "oi" "2025-01-03")))
    "last_message_time" JNull = JStr "2025-01-03".
Proof.
  destruct (statistics_last_processed started_world) as [_ [_ H]].
  destruct (H (Call_simulate_outgoing_message "+5511" "oi" "2025-01-03") eq_refl)
    as [_ [H2 _]].
  rewrite H2. reflexivity.
Defined.

(** ** The reply endpoint *)

Import SMSCRequestHandler_routes.

Lemma sms_reply_rejects post now c v s f t d o :
  truthy (query_first post "msisdn" "") && truthy (query_first post "message" "")
  = false ->
  exists resp,
    _handle_sms_reply_request (Ok post) now (mk_world (mk_SMSHandler c v s f t) d o)
    = (Ok tt, mk_world (mk_SMSHandler c v s f t) d (o ++ [resp]))
    /\ status_code resp = 400.
Proof.
  intros H. unfold _handle_sms_reply_request, try_except.
  unfold bind at 1. unfold lift_result. cbv beta iota zeta.
  assert (E : negb (truthy (query_first post "msisdn" ""))
              || negb (truthy (query_first post "message" "")) = true).
  { destruct (truthy (query_first post "msisdn" ""));
      destruct (truthy (query_first post "message" "")); try reflexivity.
    discriminate H. }
  rewrite E. eexists. split; reflexivity.
Qed.

Lemma sms_reply_accepts post now c v s f t d o :
  truthy (query_first post "msisdn" "") && truthy (query_first post "message" "")
  = true ->
  exists resp,
    _handle_sms_reply_request (Ok post) now (mk_world (mk_SMSHandler c v s f t) d o)
    = (Ok tt,
       mk_world (mk_SMSHandler (c + 1) (pushed (http_record (c + 1) [] now) v)
                   (s + 1) f t)
         (saved (http_record (c + 1) [] now) d) (o ++ [resp]))
    /\ status_code resp = 200
    /\ dict_get (body resp) "reply_to" JNull = JStr (query_first post "msisdn" "").
Proof.
  intros H. apply andb_prop in H. destruct H as [H1 H2].
  unfold _handle_sms_reply_request, try_except.
  unfold bind at 1. unfold lift_result. cbv beta iota zeta.
  rewrite H1, H2. cbn [negb orb].
  unfold bind. rewrite add_message_eq.
  unfold _send_json_response, send, modify. cbn [sms_handler disk wfile].
  eexists. split; [reflexivity | split; reflexivity].
Qed.

Lemma sms_reply_unreadable e now c v s f t d o :
  exists resp,
    _handle_sms_reply_request (Raise e) now (mk_world (mk_SMSHandler c v s f t) d o)
    = (Ok tt, mk_world (mk_SMSHandler c v s f t) d (o ++ [resp]))
    /\ status_code resp = 500.
Proof. eexists. split; reflexivity. Qed.

(** X4: the reply endpoint never raises.  When the reading of the body
    raises (a [Content-Length] that is no number, bytes that are no UTF-8)
    it answers 500, and only then, and nothing is created or stored.  When
    the body is read, it answers 400 exactly when [msisdn] or [message] is
    absent or empty, and then creates and stores nothing; otherwise it
    answers 200, naming the [msisdn] in [reply_to], and appends one
    record. *)
Theorem sms_reply_validation (w : world) (now : string) :
  (forall body,
      fst (_handle_sms_reply_request body now w) = Ok tt
      /\ (status_code (last_response (snd (_handle_sms_reply_request body now w)))
          = 500
          <-> exists e, body = Raise e))
  /\ (forall e,
        sms_handler (snd (_handle_sms_reply_request (Raise e) now w)) = sms_handler w
        /\ disk (snd (_handle_sms_reply_request (Raise e) now w)) = disk w)
  /\ (forall post,
        (status_code (last_response (snd (_handle_sms_reply_request (Ok post) now w)))
         = 400
         <-> (query_first post "msisdn" "" = "" \/ query_first post "message" "" = ""))
        /\ (query_first post "msisdn" "" = "" \/ query_first post "message" "" = "" ->
            sms_handler (snd (_handle_sms_reply_request (Ok post) now w))
            = sms_handler w
            /\ disk (snd (_handle_sms_reply_request (Ok post) now w)) = disk w)
        /\ (query_first post "msisdn" "" <> "" /\ query_first post "message" "" <> "" ->
            status_code (last_response
                           (snd (_handle_sms_reply_request (Ok post) now w))) = 200
            /\ dict_get (body (last_response
                                 (snd (_handle_sms_reply_request (Ok post) now w))))
                 "reply_to" JNull = JStr (query_first post "msisdn" "")
            /\ last (view (snd (_handle_sms_reply_request (Ok post) now w))) []
               = http_record (message_counter (sms_handler w) + 1) [] now)).
Proof.
  destruct_world w. unfold view, last_response.
  cbn [sms_handler disk processed_messages message_counter].
  assert (Hcase : forall x, truthy x = false <-> x = "") by apply truthy_empty.
  assert (Hparsed : forall post,
             exists resp h' d',
               _handle_sms_reply_request (Ok post) now
                 (mk_world (mk_SMSHandler c v s f t) d o)
               = (Ok tt, mk_world h' d' (o ++ [resp]))
               /\ (status_code resp = 400 \/ status_code resp = 200)).
  { intros post.
    destruct (truthy (query_first post "msisdn" "")
              && truthy (query_first post "message" "")) eqn:E.
    - destruct (sms_reply_accepts post now c v s f t d o E) as [resp [Hr [Hc _]]].
      eexists resp, _, _. split; [exact Hr | right; exact Hc].
    - destruct (sms_reply_rejects post now c v s f t d o E) as [resp [Hr Hc]].
      eexists resp, _, _. split; [exact Hr | left; exact Hc]. }
  split; [ | split].
  - intros [post | e].
    + destruct (Hparsed post) as [resp [h' [d' [Hr Hc]]]]. rewrite Hr.
      cbn [fst snd wfile]. rewrite last_last.
      split; [reflexivity | split].
      * intros H5. destruct Hc as [Hc | Hc]; rewrite Hc in H5; discriminate H5.
      * intros [e He]. discriminate He.
    + destruct (sms_reply_unreadable e now c v s f t d o) as [resp [Hr Hc]].
      rewrite Hr. cbn [fst snd wfile]. rewrite last_last.
      split; [reflexivity | split; [intros _; exists e; reflexivity | intros _; exact Hc]].
  - intros e.
    destruct (sms_reply_unreadable e now c v s f t d o) as [resp [Hr Hc]].
    rewrite Hr. split; reflexivity.
  - intros post.
    destruct (truthy (query_first post "msisdn" "")
              && truthy (query_first post "message" "")) eqn:E.
    + destruct (sms_reply_accepts post now c v s f t d o E) as [resp [Hr [Hc Hb]]].
      rewrite Hr. cbn [fst snd wfile sms_handler disk processed_messages].
      rewrite last_last, Hc.
      apply andb_prop in E. destruct E as [E1 E2].
      assert (N1 : query_first post "msisdn" "" <> "")
        by (intros X; apply Hcase in X; rewrite X in E1; discriminate).
      assert (N2 : query_first post "message" "" <> "")
        by (intros X; apply Hcase in X; rewrite X in E2; discriminate).
      split; [ | split].
      * split; [discriminate | intros [X | X]; contradiction].
      * intros [X | X]; contradiction.
      * intros _. split; [reflexivity | split; [exact Hb | apply pushed_last]].
    + destruct (sms_reply_rejects post now c v s f t d o E) as [resp [Hr Hc]].
      rewrite Hr. cbn [fst snd wfile sms_handler disk processed_messages].
      rewrite last_last, Hc.
      assert (Hor : query_first post "msisdn" "" = ""
                    \/ query_first post "message" "" = "").
      { apply andb_false_iff in E. destruct E as [E | E]; apply Hcase in E; auto. }
      split; [ | split].
      * split; [intros _; exact Hor | reflexivity].
      * intros _. split; reflexivity.
      * intros [N1 N2]. destruct Hor; contradiction.
Qed.

(** X5: the record the reply endpoint stores carries nothing of the reply.
    Whatever the [msisdn], the [message] and the [original_message_id], it
    is the record [add_message] builds from an empty submission: direction
    [received], source [http], format [unknown], empty payload fields; two
    accepted replies handled in the same state leave the same handler
    object and the same shared file. *)
Theorem sms_reply_record_is_blank (w : world) (post post' : query) (now : string) :
  query_first post "msisdn" "" <> "" -> query_first post "message" "" <> "" ->
  query_first post' "msisdn" "" <> "" -> query_first post' "message" "" <> "" ->
  sms_handler (snd (_handle_sms_reply_request (Ok post) now w))
  = sms_handler (snd (_handle_sms_reply_request (Ok post') now w))
  /\ disk (snd (_handle_sms_reply_request (Ok post) now w))
     = disk (snd (_handle_sms_reply_request (Ok post') now w))
  /\ (let rec := last (view (snd (_handle_sms_reply_request (Ok post) now w))) [] in
      dict_get rec "direction" JNull = JStr "received"
      /\ dict_get rec "source" JNull = JStr "http"
      /\ dict_get rec "format" JNull = JStr "unknown"
      /\ dict_get rec "raw_data" JNull = JStr ""
      /\ dict_get rec "user_data" JNull = JStr ""
      /\ dict_get rec "destination_address" JNull = JStr ""
      /\ dict_has rec "msisdn" = false
      /\ dict_has rec "message" = false).
Proof.
  intros N1 N2 N1' N2'. destruct_world w.
  assert (T : forall x, x <> "" -> truthy x = true).
  { intros x Hx. destruct (truthy x) eqn:E; [reflexivity | ].
    apply truthy_empty in E. contradiction. }
  assert (E : truthy (query_first post "msisdn" "")
              && truthy (query_first post "message" "") = true)
    by (rewrite !T by assumption; reflexivity).
  assert (E' : truthy (query_first post' "msisdn" "")
               && truthy (query_first post' "message" "") = true)
    by (rewrite !T by assumption; reflexivity).
  destruct (sms_reply_accepts post now c v s f t d o E) as [resp [Hr _]].
  destruct (sms_reply_accepts post' now c v s f t d o E') as [resp' [Hr' _]].
  rewrite Hr, Hr'. unfold view. cbn [snd sms_handler disk processed_messages].
  rewrite pushed_last. repeat split.
Qed.

Lemma sms_reply_record_is_blank_witness :
  disk (snd (_handle_sms_reply_request (Ok reply_form) "2025-01-02" started_world))
  = disk (snd (_handle_sms_reply_request (Ok other_reply_form) "2025-01-02" started_world)).
Proof.
  assert (N1 : query_first reply_form "msisdn" "" <> "") by discriminate.
  assert (N2 : query_first reply_form "message" "" <> "") by discriminate.
  assert (N3 : query_first other_reply_form "msisdn" "" <> "") by discriminate.
  assert (N4 : query_first other_reply_form "message" "" <> "") by discriminate.
  exact (proj1 (proj2 (sms_reply_record_is_blank started_world reply_form
                         other_reply_form "2025-01-02" N1 N2 N3 N4))).
Defined.

Lemma sms_reply_validation_witness :
  status_code (last_response
                 (snd (_handle_sms_reply_request (Ok reply_form) "2025-01-02"
                         started_world))) = 200.
Proof.
  destruct (sms_reply_validation started_world "2025-01-02") as [_ [_ H]].
  destruct (H reply_form) as [_ [_ H3]].
  assert (N : query_first reply_form "msisdn" "" <> ""
              /\ query_first reply_form "message" "" <> "")
    by (split; discriminate).
  exact (proj1 (H3 N)).
Defined.

(** ** The port-80 handler of the simulator *)

Lemma existsb_truthy_fields q :
  existsb truthy
    [ (if truthy (query_first q "submit" "")
       then unquote (query_first q "submit" "") else "");
      query_first q "sms_submit_ud" "";
      query_first q "sms_submit_da" "";
      query_first q "sms_submit_pid" "";
      query_first q "sms_submit_dcs" "" ]
  = negb (all_empty (submitted_fields q)).
Proof.
  unfold all_empty, submitted_fields. cbn [existsb forallb].
  destruct (truthy (query_first q "submit" "")) eqn:E.
  - rewrite unquote_truthy, E. unfold truthy in E.
    destruct (String.eqb (query_first q "submit" "") ""); [discriminate E | ].
    reflexivity.
  - unfold truthy in *.
    destruct (String.eqb (query_first q "submit" "") ""); [ | discriminate E].
    destruct (String.eqb (query_first q "sms_submit_ud" "") "");
      destruct (String.eqb (query_first q "sms_submit_da" "") "");
      destruct (String.eqb (query_first q "sms_submit_pid" "") "");
      destruct (String.eqb (query_first q "sms_submit_dcs" "") "");
      reflexivity.
Qed.

Lemma sms_submit_request_eq q now c v s f t d o :
  all_empty (submitted_fields q) = false ->
  exists resp,
    HTTPRequestHandler._handle_sms_submit_request q now
      (mk_world (mk_SMSHandler c v s f t) d o)
    = (Ok tt,
       mk_world (mk_SMSHandler (c + 1)
                   (pushed (http_record (c + 1) (submit_sms_data q now) now) v)
                   (s + 1) f t)
         (saved (http_record (c + 1) (submit_sms_data q now) now) d)
         (o ++ [resp]))
    /\ _handle_sms_request_port80 q now (mk_world (mk_SMSHandler c v s f t) d o)
       = (Ok tt,
          mk_world (mk_SMSHandler (c + 1)
                      (pushed (http_record (c + 1) (port80_sms_data q now) now) v)
                      (s + 1) f t)
            (saved (http_record (c + 1) (port80_sms_data q now) now) d)
            (o ++ [resp])).
Proof.
  intros H.
  unfold HTTPRequestHandler._handle_sms_submit_request, _handle_sms_request_port80,
    try_except.
  rewrite existsb_truthy_fields, H. cbn [negb]. unfold bind.
  rewrite !add_message_eq.
  unfold _send_json_response, send, modify. cbn [sms_handler disk wfile].
  fold (port80_sms_data q now).
  eexists.
  split; [ | reflexivity].
  destruct (truthy (if truthy (query_first q "submit" "")
                    then unquote (query_first q "submit" "") else ""));
    reflexivity.
Qed.

(** X6: the port-80 handler class of the simulator
    ([_handle_sms_submit_request]) treats a submission as
    [_handle_sms_request_port80] does: the same rejection when the five
    fields are all absent or empty, and otherwise the same response and a
    record that differs in its [source] tag only.  The [message_length] and
    [has_full_message] entries it computes never reach the record. *)
Theorem sms_submit_request_as_port80 (w : world) (q : query) (now : string) :
  (all_empty (submitted_fields q) = true ->
   HTTPRequestHandler._handle_sms_submit_request q now w
   = _handle_sms_request_port80 q now w)
  /\ (all_empty (submitted_fields q) = false ->
      fst (HTTPRequestHandler._handle_sms_submit_request q now w) = Ok tt
      /\ wfile (snd (HTTPRequestHandler._handle_sms_submit_request q now w))
         = wfile (snd (_handle_sms_request_port80 q now w))
      /\ view (snd (HTTPRequestHandler._handle_sms_submit_request q now w))
         = pushed (http_record (message_counter (sms_handler w) + 1)
                     (submit_sms_data q now) now) (view w)
      /\ dict_get (http_record (message_counter (sms_handler w) + 1)
                     (submit_sms_data q now) now) "source" JNull
         = JStr "http_port_80"
      /\ (forall k, k <> "source" ->
            dict_get (http_record (message_counter (sms_handler w) + 1)
                        (submit_sms_data q now) now) k JNull
            = dict_get (http_record (message_counter (sms_handler w) + 1)
                          (port80_sms_data q now) now) k JNull)
      /\ dict_has (http_record (message_counter (sms_handler w) + 1)
                     (submit_sms_data q now) now) "message_length" = false
      /\ dict_has (http_record (message_counter (sms_handler w) + 1)
                     (submit_sms_data q now) now) "has_full_message" = false).
Proof.
  destruct_world w. unfold view. cbn [sms_handler processed_messages message_counter].
  split.
  - intros H.
    unfold HTTPRequestHandler._handle_sms_submit_request, _handle_sms_request_port80,
      try_except.
    rewrite existsb_truthy_fields, H. reflexivity.
  - intros H. destruct (sms_submit_request_eq q now c v s f t d o H)
      as [resp [Hs Hp]].
    rewrite Hs, Hp. cbn [fst snd wfile sms_handler processed_messages].
    split; [reflexivity | split; [reflexivity | split; [reflexivity | ]]].
    split; [reflexivity | split; [ | split; reflexivity]].
    intros k Hk. apply String.eqb_neq in Hk.
    unfold http_record, dict_get. cbn [dict_find].
    rewrite Hk. reflexivity.
Qed.

Lemma sms_submit_request_as_port80_witness :
  wfile (snd (HTTPRequestHandler._handle_sms_submit_request user_data_only
                "2025-01-02" started_world))
  = wfile (snd (_handle_sms_request_port80 user_data_only "2025-01-02"
                  started_world)).
Proof.
  destruct (sms_submit_request_as_port80 started_world user_data_only "2025-01-02")
    as [_ H].
  exact (proj1 (proj2 (H eq_refl))).
Defined.

(** ** Routing *)

Lemma sms_request_returns q now w : fst (_handle_sms_request q now w) = Ok tt.
Proof.
  destruct_world w.
  destruct (String.eqb (query_first q "submit" "") "") eqn:E.
  - apply String.eqb_eq in E.
    destruct (sms_request_rejects q now c v s f t d o E) as [resp [-> _]].
    reflexivity.
  - apply String.eqb_neq in E.
    destruct (sms_request_accepts q now c v s f t d o E) as [resp [-> _]].
    reflexivity.
Qed.

Lemma try_except_in_proc_returns {A : Type} (m : M world A)
    (handler : exn -> M server A) (s : server) (a : A) :
  fst (m (proc s)) = Ok a -> try_except (in_proc m) handler s = in_proc m s.
Proof.
  intros H. unfold try_except, in_proc.
  destruct (m (proc s)) as [r w']. simpl in H. subst r. reflexivity.
Qed.

(** X7: the listener on the SMS handler port never records anything.  Its
    GET serves [/status] only, and its POST on [/cgi-bin/smshandler.pl]
    raises [TypeError] before any response is written; whatever the
    request, the handler object and the shared file are left as they
    were. *)
Theorem sms_listener_never_ingests (req : request) (now : string) (w : world) :
  fst (SMSRequestHandler.do_GET req now w) = Ok tt
  /\ sms_handler (snd (SMSRequestHandler.do_GET req now w)) = sms_handler w
  /\ disk (snd (SMSRequestHandler.do_GET req now w)) = disk w
  /\ sms_handler (snd (SMSRequestHandler.do_POST req now w)) = sms_handler w
  /\ disk (snd (SMSRequestHandler.do_POST req now w)) = disk w
  /\ (req_raw req = "/cgi-bin/smshandler.pl" ->
      SMSRequestHandler.do_POST req now w = (Raise TypeError, w))
  /\ (req_raw req <> "/cgi-bin/smshandler.pl" ->
      fst (SMSRequestHandler.do_POST req now w) = Ok tt
      /\ status_code (last_response (snd (SMSRequestHandler.do_POST req now w)))
         = 404).
Proof.
  unfold SMSRequestHandler.do_GET, SMSRequestHandler.do_POST, last_response.
  split; [ | split; [ | split; [ | split; [ | split; [ | split]]]]].
  - destruct (String.eqb (req_raw req) "/status"); reflexivity.
  - destruct (String.eqb (req_raw req) "/status"); reflexivity.
  - destruct (String.eqb (req_raw req) "/status"); reflexivity.
  - destruct (String.eqb (req_raw req) "/cgi-bin/smshandler.pl"); reflexivity.
  - destruct (String.eqb (req_raw req) "/cgi-bin/smshandler.pl"); reflexivity.
  - intros H. rewrite H. reflexivity.
  - intros H. apply String.eqb_neq in H. rewrite H.
    split; [reflexivity | ]. simpl. rewrite last_last. reflexivity.
Qed.

Lemma sms_listener_never_ingests_witness :
  SMSRequestHandler.do_POST
    (mk_request "/cgi-bin/smshandler.pl" "/cgi-bin/smshandler.pl" []
       (Raise JSONDecodeError) (Ok [("apdu_hex", ("0891", []))]))
    "2025-01-02" started_world
  = (Raise TypeError, started_world).
Proof.
  destruct (sms_listener_never_ingests
              (mk_request "/cgi-bin/smshandler.pl" "/cgi-bin/smshandler.pl" []
                 (Raise JSONDecodeError) (Ok [("apdu_hex", ("0891", []))]))
              "2025-01-02" started_world) as [_ [_ [_ [_ [_ [H _]]]]]].
  apply H. reflexivity.
Defined.

Lemma sms_request_status q now w :
  status_code (last_response (snd (_handle_sms_request q now w))) = 400
  <-> query_first q "submit" "" = "".
Proof.
  destruct_world w. unfold last_response.
  destruct (String.eqb (query_first q "submit" "") "") eqn:E.
  - apply String.eqb_eq in E.
    destruct (sms_request_rejects q now c v s f t d o E) as [resp [-> Hc]].
    cbn [snd wfile]. rewrite last_last. split; [intros _; exact E | intros _; exact Hc].
  - apply String.eqb_neq in E.
    destruct (sms_request_accepts q now c v s f t d o E) as [resp [-> Hc]].
    cbn [snd wfile]. rewrite last_last, Hc.
    split; [discriminate | intros X; contradiction].
Qed.

Section BaseRouting.

Variable read_and_send : string -> M server unit.
Variable restart : M server unit.

(** X8: in the [do_GET] of the base handler every path that contains
    [/cgi-bin/smshandler.pl] is served by [_handle_sms_request]; the branch
    for [_handle_sms_request_port80], which tests for that very path further
    down, is never taken.  So a GET on [/cgi-bin/smshandler.pl] without
    [submit] is answered 400 and records nothing, whatever the other fields
    hold. *)
Theorem do_GET_never_reaches_port80 (req : request) (now : string)
    (uptime_days uptime_seconds : Z) (s : server) :
  (contains "/cgi-bin/smshandler.pl" (req_path req) = true ->
   do_GET read_and_send req now uptime_days uptime_seconds s
   = in_proc (_handle_sms_request (req_query req) now) s)
  /\ (req_path req = "/cgi-bin/smshandler.pl" ->
      do_GET read_and_send req now uptime_days uptime_seconds s
      = in_proc (_handle_sms_request (req_query req) now) s
      /\ (query_first (req_query req) "submit" "" = "" ->
          status_code (last_response
                         (proc (snd (do_GET read_and_send req now uptime_days
                                       uptime_seconds s)))) = 400
          /\ sms_handler (proc (snd (do_GET read_and_send req now uptime_days
                                       uptime_seconds s)))
             = sms_handler (proc s)
          /\ disk (proc (snd (do_GET read_and_send req now uptime_days
                                uptime_seconds s)))
             = disk (proc s))).
Proof.
  assert (H1 : contains "/cgi-bin/smshandler.pl" (req_path req) = true ->
               do_GET read_and_send req now uptime_days uptime_seconds s
               = in_proc (_handle_sms_request (req_query req) now) s).
  { intros H. unfold do_GET. rewrite H.
    apply try_except_in_proc_returns with (a := tt). apply sms_request_returns. }
  split; [exact H1 | ].
  intros Hp. assert (Hc : contains "/cgi-bin/smshandler.pl" (req_path req) = true)
    by (rewrite Hp; reflexivity).
  split; [exact (H1 Hc) | ].
  intros Hs. rewrite (H1 Hc). unfold in_proc.
  destruct s as [w cfg cf]. destruct_world w. cbn [proc].
  destruct (sms_request_rejects (req_query req) now c v s f t d o Hs)
    as [resp [-> Hr]].
  unfold last_response. cbn [snd proc wfile sms_handler disk].
  rewrite last_last. repeat split. exact Hr.
Qed.

(** X9: a POST on [/cgi-bin/smshandler.pl] handled by the [do_POST] of the
    base handler never raises.  When the reading of the body raises (a
    [Content-Length] that is no number, bytes that are no UTF-8) it is
    answered 500 and nothing is recorded.  Otherwise the fields [apdu_hex]
    and [msisdn] of the form are read and nothing else: the request is
    handled as a GET with [submit] and [MSISDN] set to them, and it is
    answered 400 exactly when [apdu_hex] is absent or empty, a [submit]
    field in the body making no difference.  None of the three listener
    classes keeps this [do_POST]: on the same request the web interface
    answers 404 and records nothing, the SMS handler listener raises
    [TypeError], and the port-80 listener handles the query string of the
    path as a GET submission, the body being left unread. *)
Theorem do_POST_reads_apdu_hex (req : request) (now : string) (s : server) :
  req_path req = "/cgi-bin/smshandler.pl" ->
  fst (do_POST restart req now s) = Ok tt
  /\ (forall e,
        req_form req = Raise e ->
        status_code (last_response (proc (snd (do_POST restart req now s)))) = 500
        /\ sms_handler (proc (snd (do_POST restart req now s))) = sms_handler (proc s)
        /\ disk (proc (snd (do_POST restart req now s))) = disk (proc s))
  /\ (forall form,
        req_form req = Ok form ->
        do_POST restart req now s
        = in_proc (_handle_sms_request (sms_params_of_form form) now) s
        /\ query_first (sms_params_of_form form) "submit" ""
           = query_first form "apdu_hex" ""
        /\ query_first (sms_params_of_form form) "MSISDN" ""
           = query_first form "msisdn" ""
        /\ (status_code (last_response (proc (snd (do_POST restart req now s)))) = 400
            <-> query_first form "apdu_hex" "" = ""))
  /\ (req_raw req = "/cgi-bin/smshandler.pl" ->
      fst (WebRequestHandler.do_POST restart req now s) = Ok tt
      /\ status_code (last_response
                        (proc (snd (WebRequestHandler.do_POST restart req now s))))
         = 404
      /\ sms_handler (proc (snd (WebRequestHandler.do_POST restart req now s)))
         = sms_handler (proc s)
      /\ disk (proc (snd (WebRequestHandler.do_POST restart req now s)))
         = disk (proc s)
      /\ SMSRequestHandler.do_POST req now (proc s) = (Raise TypeError, proc s)
      /\ HTTPRequestHandler.do_POST req now (proc s)
         = HTTPRequestHandler._handle_sms_submit_request (req_query req) now (proc s)).
Proof.
  intros Hp.
  assert (Hok : forall form,
             req_form req = Ok form ->
             do_POST restart req now s
             = in_proc (_handle_sms_request (sms_params_of_form form) now) s).
  { intros form Hf. unfold do_POST. rewrite Hp, Hf.
    cbn [String.eqb Ascii.eqb Bool.eqb].
    unfold try_except, bind, lift_result, in_proc.
    pose proof (sms_request_returns (sms_params_of_form form) now (proc s)) as Hr.
    destruct (_handle_sms_request (sms_params_of_form form) now (proc s))
      as [r w']. cbn [fst] in Hr. subst r. reflexivity. }
  assert (Hraise : forall e,
             req_form req = Raise e ->
             do_POST restart req now s
             = in_proc (_send_error_response 500 "Internal Server Error" now) s).
  { intros e He. unfold do_POST. rewrite Hp, He.
    cbn [String.eqb Ascii.eqb Bool.eqb]. reflexivity. }
  split; [ | split; [ | split]].
  - destruct (req_form req) as [form | e] eqn:Hf.
    + rewrite (Hok form eq_refl). unfold in_proc.
      pose proof (sms_request_returns (sms_params_of_form form) now (proc s)) as Hr.
      destruct (_handle_sms_request (sms_params_of_form form) now (proc s))
        as [r w']. exact Hr.
    + rewrite (Hraise e eq_refl). reflexivity.
  - intros e He. rewrite (Hraise e He).
    destruct s as [[h d o] cfg cf]. unfold last_response.
    cbn [in_proc _send_error_response _send_json_response send modify snd proc wfile
         sms_handler disk].
    rewrite last_last. repeat split.
  - intros form Hf.
    assert (H2 : query_first (sms_params_of_form form) "submit" ""
                 = query_first form "apdu_hex" "").
    { unfold sms_params_of_form, query_first.
      destruct (query_find "apdu_hex" form) as [[v0 vs] | ];
        destruct (query_find "msisdn" form) as [[m0 ms] | ]; reflexivity. }
    assert (H3 : query_first (sms_params_of_form form) "MSISDN" ""
                 = query_first form "msisdn" "").
    { unfold sms_params_of_form, query_first.
      destruct (query_find "apdu_hex" form) as [[v0 vs] | ];
        destruct (query_find "msisdn" form) as [[m0 ms] | ]; reflexivity. }
    split; [exact (Hok form Hf) | split; [exact H2 | split; [exact H3 | ]]].
    rewrite (Hok form Hf), <- H2. unfold in_proc.
    destruct s as [w cfg cf]. cbn [proc].
    pose proof (sms_request_status (sms_params_of_form form) now w) as Hv.
    destruct (_handle_sms_request (sms_params_of_form form) now w) as [r w'] eqn:E.
    cbn [snd proc] in *. exact Hv.
  - intros Hraw.
    unfold WebRequestHandler.do_POST, SMSRequestHandler.do_POST,
      HTTPRequestHandler.do_POST.
    rewrite Hraw. cbn [String.eqb Ascii.eqb Bool.eqb prefix].
    destruct s as [[h d o] cfg cf]. unfold last_response.
    cbn [in_proc _send_error_response _send_json_response send modify fst snd proc
         wfile sms_handler disk].
    rewrite last_last. repeat split.
Qed.

End BaseRouting.

Lemma do_GET_never_reaches_port80_witness :
  status_code (last_response
                 (proc (snd (do_GET no_file get_user_data_only "2025-01-02" 0 0
                               started_server)))) = 400.
Proof.
  destruct (do_GET_never_reaches_port80 no_file get_user_data_only "2025-01-02"
              0 0 started_server) as [_ H].
  destruct (H eq_refl) as [_ H2]. exact (proj1 (H2 eq_refl)).
Defined.

Lemma do_POST_reads_apdu_hex_witness :
  status_code (last_response
                 (proc (snd (do_POST no_restart post_submit_field "2025-01-02"
                               started_server)))) = 400.
Proof.
  destruct (do_POST_reads_apdu_hex no_restart post_submit_field "2025-01-02"
              started_server eq_refl) as [_ [_ [H _]]].
  destruct (H [("submit", ("0891", []))] eq_refl) as [_ [_ [_ H4]]].
  apply H4. reflexivity.
Defined.

(** ** Static files *)

Lemma contains_after_slash sub rest c :
  prefix sub (String c rest) = false ->
  contains sub (String c rest) = contains sub rest.
Proof.
  intros H. unfold contains. cbn [index]. rewrite H.
  destruct (index 0 sub rest); reflexivity.
Qed.

Section StaticFiles.

Variable read_and_send : string -> M server unit.

(** X10: [_serve_static_file] refuses with 403 every path that contains
    [..] or starts with [/], before anything is read: the answer does not
    depend on the file system.  [do_GET] reaches that guard with a path
    under [/static/] only when the path does not contain
    [/cgi-bin/smshandler.pl]: such a path with [..] in it is answered 403.
    A path under [/static/] that contains [..] and
    [/cgi-bin/smshandler.pl] is taken by the first test of [do_GET] and
    handled as a submission: with a [submit] field it is answered 200 and a
    record is appended to the view. *)
Theorem static_traversal_refused (req : request) (file_path now : string)
    (uptime_days uptime_seconds : Z) (s : server) :
  (contains ".." file_path || prefix "/" file_path = true ->
   _serve_static_file read_and_send file_path now s
   = in_proc (_send_error_response 403 "Access denied" now) s)
  /\ (prefix "/static/" (req_path req) = true ->
      contains ".." (req_path req) = true ->
      contains "/cgi-bin/smshandler.pl" (req_path req) = false ->
      do_GET read_and_send req now uptime_days uptime_seconds s
      = in_proc (_send_error_response 403 "Access denied" now) s)
  /\ (prefix "/static/" (req_path req) = true ->
      contains ".." (req_path req) = true ->
      contains "/cgi-bin/smshandler.pl" (req_path req) = true ->
      do_GET read_and_send req now uptime_days uptime_seconds s
      = in_proc (_handle_sms_request (req_query req) now) s
      /\ (query_first (req_query req) "submit" "" <> "" ->
          status_code (last_response
                         (proc (snd (do_GET read_and_send req now uptime_days
                                       uptime_seconds s)))) = 200
          /\ view (proc (snd (do_GET read_and_send req now uptime_days
                                uptime_seconds s)))
             = pushed (sms_record (message_counter (sms_handler (proc s)) + 1)
                         (parse_hex_string (query_first (req_query req) "submit" "")
                            now)
                         (query_first (req_query req) "MSISDN" "") now)
                 (view (proc s)))).
Proof.
  assert (H1 : forall p, contains ".." p || prefix "/" p = true ->
               _serve_static_file read_and_send p now s
               = in_proc (_send_error_response 403 "Access denied" now) s).
  { intros p H. unfold _serve_static_file. rewrite H.
    apply try_except_in_proc_returns with (a := tt). reflexivity. }
  split; [apply H1 | split].
  2: { intros _ _ Hc.
       assert (H2 : do_GET read_and_send req now uptime_days uptime_seconds s
                    = in_proc (_handle_sms_request (req_query req) now) s).
       { unfold do_GET. rewrite Hc.
         apply try_except_in_proc_returns with (a := tt). apply sms_request_returns. }
       split; [exact H2 | ].
       intros Hs. rewrite H2. unfold in_proc.
       destruct s as [w cfg cf]. destruct_world w. cbn [proc].
       destruct (sms_request_accepts (req_query req) now c v s f t d o Hs)
         as [resp [-> Hr]].
       unfold last_response, view.
       cbn [snd proc wfile sms_handler processed_messages message_counter].
       rewrite last_last. split; [exact Hr | reflexivity]. }
  intros Hp Hd Hc. unfold do_GET. rewrite Hc.
  assert (Hpre : substring 0 8 (req_path req) = "/static/")
    by (apply (prefix_correct "/static/"); exact Hp).
  assert (Hne : forall x, substring 0 8 x <> "/static/" ->
                          String.eqb (req_path req) x = false).
  { intros x Hx. apply String.eqb_neq. intros E. rewrite E in Hpre. contradiction. }
  rewrite (Hne "/status") by (vm_compute; discriminate).
  rewrite (Hne "/stats") by (vm_compute; discriminate).
  rewrite (Hne "/") by (vm_compute; discriminate).
  rewrite (Hne "/index.html") by (vm_compute; discriminate).
  cbn [orb]. rewrite Hp.
  assert (Hin : try_except
                  (_serve_static_file read_and_send (drop_first (req_path req)) now)
                  (fun e => in_proc (_send_error_response 500 (exn_text e) now)) s
                = _serve_static_file read_and_send (drop_first (req_path req)) now s).
  { unfold try_except. rewrite H1.
    - reflexivity.
    - destruct (req_path req) as [ | c rest]; [discriminate Hp | ].
      cbn [drop_first].
      assert (Hpf : prefix ".." (String c rest) = false).
      { cbn [prefix] in Hp. destruct (ascii_dec "/" c) as [<- | ]; [ | discriminate Hp].
        reflexivity. }
      rewrite (contains_after_slash ".." rest c Hpf) in Hd. rewrite Hd. reflexivity. }
  rewrite Hin. apply H1.
  destruct (req_path req) as [ | c rest]; [discriminate Hp | ].
  cbn [drop_first].
  assert (Hpf : prefix ".." (String c rest) = false).
  { cbn [prefix] in Hp. destruct (ascii_dec "/" c) as [<- | ]; [ | discriminate Hp].
    reflexivity. }
  rewrite (contains_after_slash ".." rest c Hpf) in Hd. rewrite Hd. reflexivity.
Qed.

End StaticFiles.

Lemma static_traversal_refused_witness :
  status_code (last_response
                 (proc (snd (do_GET no_file get_traversal "2025-01-02" 0 0
                               started_server)))) = 403
  /\ status_code (last_response
                    (proc (snd (do_GET no_file get_traversal_submission "2025-01-02"
                                  0 0 started_server)))) = 200.
Proof.
  split.
  - destruct (static_traversal_refused no_file get_traversal "" "2025-01-02" 0 0
                started_server) as [_ [H _]].
    rewrite H; reflexivity.
  - destruct (static_traversal_refused no_file get_traversal_submission ""
                "2025-01-02" 0 0 started_server) as [_ [_ H]].
    destruct (H eq_refl eq_refl eq_refl) as [_ H2].
    assert (N : query_first (req_query get_traversal_submission) "submit" "" <> "")
      by discriminate.
    exact (proj1 (H2 N)).
Defined.

(** ** The configuration *)

Import SMSCRequestHandler.

Lemma save_server_config_eq w cfg cf :
  save_server_config (mk_server w cfg cf)
  = (Ok tt, mk_server w cfg (written cfg cf)).
Proof.
  unfold save_server_config, written, try_except, bind, the_config, with_config_file.
  cbn [server_config config_file proc].
  destruct (open_w_json_dump cfg cf) as [[[] | e] cf']; reflexivity.
Qed.

Lemma store_setting_eq key v w cfg cf :
  store_setting key v (mk_server w (JObj cfg) cf)
  = (Ok tt, mk_server w (JObj (dict_set cfg key v))
              (written (JObj (dict_set cfg key v)) cf)).
Proof.
  unfold store_setting, bind, the_config, lift_result, set_config, modify.
  cbn [server_config config_file proc py_setitem].
  rewrite save_server_config_eq. reflexivity.
Qed.

Lemma store_setting_not_dict key v w cfg cf :
  (forall d, cfg <> JObj d) ->
  store_setting key v (mk_server w cfg cf) = (Raise TypeError, mk_server w cfg cf).
Proof.
  intros H. unfold store_setting, bind, the_config, lift_result.
  cbn [server_config].
  destruct cfg; try reflexivity. exfalso. apply (H fields). reflexivity.
Qed.

Lemma send_json_eq code data w cfg cf :
  send_json code data (mk_server w cfg cf)
  = (Ok tt, mk_server (mk_world (sms_handler w) (disk w)
                         (wfile w ++ [mk_response code data])) cfg cf).
Proof. reflexivity. Qed.

Lemma updates_setting_intro (handler : result json -> M server unit)
    (key : string) (lo hi : Z) (reject : pydict) (accept : json -> pydict)
    (guard : json -> bool) :
  (forall v, guard v = negb (is_int v && (lo <=? int_value v) && (int_value v <=? hi))) ->
  (forall body,
      handler body
      = try_except
          (data <- lift_result body ;;
           v <- lift_result (http_server_80.py_get data key JNull) ;;
           if guard v
           then send_json 400 reject
           else store_setting key v ;; send_json 200 (accept v))
          internal_error) ->
  updates_setting handler key lo hi.
Proof.
  intros Hguard Hdef body s. rewrite Hdef. destruct s as [w cfg cf].
  unfold try_except, bind, lift_result, accepted_value, internal_error.
  cbn [proc server_config config_file].
  destruct body as [data | e]; [ | rewrite send_json_eq; settle_update].
  destruct data as [ | b | n | str | l | d];
    cbn [http_server_80.py_get]; try (rewrite send_json_eq; settle_update).
  rewrite Hguard.
  destruct (is_int (dict_get d key JNull)
            && (lo <=? int_value (dict_get d key JNull))
            && (int_value (dict_get d key JNull) <=? hi)); cbn [negb].
  - destruct cfg as [ | b | n | str | l | c];
      try (rewrite store_setting_not_dict by discriminate;
           rewrite send_json_eq; settle_update).
    rewrite store_setting_eq, send_json_eq. settle_update.
  - rewrite send_json_eq. destruct cfg; settle_update.
Qed.

Lemma range_guard lo hi v :
  negb (is_int v) || (int_value v <? lo) || (hi <? int_value v)
  = negb (is_int v && (lo <=? int_value v) && (int_value v <=? hi)).
Proof.
  rewrite (Z.ltb_antisym lo (int_value v)), (Z.ltb_antisym (int_value v) hi).
  destruct (is_int v); destruct (lo <=? int_value v);
    destruct (int_value v <=? hi); reflexivity.
Qed.

Lemma port_guard v :
  negb (py_truthy v) || negb (is_int v) || (int_value v <? 1024)
  || (65535 <? int_value v)
  = negb (is_int v && (1024 <=? int_value v) && (int_value v <=? 65535)).
Proof.
  rewrite <- range_guard.
  destruct v as [ | [] | n | str | l | d]; try reflexivity.
  - cbn [py_truthy is_int int_value negb orb].
    destruct (Z.eqb_spec n 0); [subst n; reflexivity | reflexivity].
  - cbn [py_truthy is_int negb orb int_value]. rewrite !orb_true_r. reflexivity.
  - cbn [py_truthy is_int negb orb int_value]. rewrite !orb_true_r. reflexivity.
  - cbn [py_truthy is_int negb orb int_value]. rewrite !orb_true_r. reflexivity.
Qed.

(** X11: the five handlers that update an integer setting accept exactly
    the requests whose body is a JSON object holding an [int] instance
    within the bounds under their key: 1024 .. 65535 for [port], [sms_port]
    and [web_port], 1 .. 300 for [timeout], 1 .. 1000 for [max_connections]
    (the [bool] values are [int] instances, so [true] is accepted as a
    timeout).  An accepted value is set in [server_config] and the
    configuration file is rewritten, the answer being 200 whether or not the
    file could be written; any other request is answered 400 or 500 and
    leaves the configuration and its file as they were.  None of them
    raises or touches the ledger. *)
Theorem integer_settings :
  updates_setting _handle_update_port_request "port" 1024 65535
  /\ updates_setting _handle_update_sms_port_request "sms_port" 1024 65535
  /\ updates_setting _handle_update_web_port_request "web_port" 1024 65535
  /\ updates_setting _handle_update_timeout_request "timeout" 1 300
  /\ updates_setting _handle_update_max_connections_request "max_connections" 1 1000.
Proof.
  split; [ | split; [ | split; [ | split]]].
  - eapply updates_setting_intro with
      (guard := fun v => negb (py_truthy v) || negb (is_int v)
                         || (int_value v <? 1024) || (65535 <? int_value v)).
    + apply port_guard.
    + intros body. reflexivity.
  - eapply updates_setting_intro with
      (guard := fun v => negb (is_int v) || (int_value v <? 1024)
                         || (65535 <? int_value v)).
    + intros v. apply range_guard.
    + intros body. reflexivity.
  - eapply updates_setting_intro with
      (guard := fun v => negb (is_int v) || (int_value v <? 1024)
                         || (65535 <? int_value v)).
    + intros v. apply range_guard.
    + intros body. reflexivity.
  - eapply updates_setting_intro with
      (guard := fun v => negb (is_int v) || (int_value v <? 1)
                         || (300 <? int_value v)).
    + intros v. apply range_guard.
    + intros body. reflexivity.
  - eapply updates_setting_intro with
      (guard := fun v => negb (is_int v) || (int_value v <? 1)
                         || (1000 <? int_value v)).
    + intros v. apply range_guard.
    + intros body. reflexivity.
Qed.

(** The JSON value [true] is accepted as a timeout and stored as such. *)
Lemma timeout_accepts_true :
  accepted_value "timeout" 1 300 (Ok (JObj [("timeout", JBool true)]))
  = Some (JBool true)
  /\ accepted_value "port" 1024 65535 (Ok (JObj [("port", JBool true)])) = None.
Proof. split; reflexivity. Qed.

(** *** Reading the settings back *)

Lemma dict_get_dict_set d k v k' default :
  dict_get (dict_set d k v) k' default
  = if String.eqb k' k then v else dict_get d k' default.
Proof.
  unfold dict_get. induction d as [ | [k0 v0] rest IH]; simpl.
  - destruct (String.eqb k' k); reflexivity.
  - destruct (String.eqb k k0) eqn:E; simpl.
    + apply String.eqb_eq in E. subst k0.
      destruct (String.eqb k' k); reflexivity.
    + destruct (String.eqb k' k0) eqn:E0.
      * apply String.eqb_eq in E0. subst k0.
        rewrite String.eqb_sym, E. reflexivity.
      * exact IH.
Qed.

Lemma config_report_eq days secs w cfg cf :
  config_report days secs (mk_server w (JObj cfg) cf)
  = [ ("host", dict_get cfg "host" (JStr "localhost"));
      ("web_port", dict_get cfg "web_port" (JNum 8080));
      ("sms_port", dict_get cfg "sms_port" (JNum 8081));
      ("https_port", dict_get cfg "https_port" (JNum 8443));
      ("timeout", dict_get cfg "timeout" (JNum 30));
      ("max_connections", dict_get cfg "max_connections" (JNum 100));
      ("version", dict_get cfg "version" (JStr "1.0.0"));
      ("log_level", dict_get cfg "log_level" (JStr "INFO"));
      ("total_messages",
       JNum (Z.of_nat (List.length (processed_messages (sms_handler w)))));
      ("successful_messages", JNum (successful_messages (sms_handler w)));
      ("failed_messages", JNum (failed_messages (sms_handler w)));
      ("uptime", JStr (uptime_str days secs)) ].
Proof.
  unfold config_report, _handle_config_request, bind, the_config, in_proc, self.
  cbn [server_config proc]. rewrite send_json_eq.
  unfold last_response. cbn [snd proc wfile]. rewrite last_last. reflexivity.
Qed.

Lemma config_report_lookup days secs w cfg cf k :
  dict_get (config_report days secs (mk_server w (JObj cfg) cf)) k JNull
  = match dict_find k reported_settings with
    | Some default => dict_get cfg k default
    | None =>
        dict_get
          [ ("total_messages",
             JNum (Z.of_nat (List.length (processed_messages (sms_handler w)))));
            ("successful_messages", JNum (successful_messages (sms_handler w)));
            ("failed_messages", JNum (failed_messages (sms_handler w)));
            ("uptime", JStr (uptime_str days secs)) ] k JNull
    end.
Proof.
  rewrite config_report_eq. unfold reported_settings, dict_get at 1.
  cbn [dict_find].
  repeat match goal with
         | |- context [String.eqb k ?x] =>
             let H := fresh "E" in
             destruct (String.eqb k x) eqn:H;
             [apply String.eqb_eq in H; subst k; reflexivity | ]
         end.
  unfold dict_get. cbn [dict_find].
  repeat match goal with
         | H : String.eqb k _ = false |- _ => rewrite H; clear H
         end.
  reflexivity.
Qed.

Lemma reported_default k default :
  In (k, default) reported_settings -> dict_find k reported_settings = Some default.
Proof.
  intros Hin. simpl in Hin.
  repeat (destruct Hin as [Hin | Hin]; [inversion Hin; subst; reflexivity | ]).
  contradiction.
Qed.

(** X12: what an update stores is what [_handle_config_request] reads
    back.  On a [server_config] that is a dictionary, after [key] has been
    set to [v] the answer gives [v] under [key] when [key] is one of the
    eight settings it reports, and under every other key what it gave
    before; a setting that is missing is reported with its default.  The
    key [port], which [/config/update-port] sets, is none of the eight: that
    update never shows in the answer. *)
Theorem config_report_after_update (days secs : Z) (w : world) (cfg : pydict)
    (cf : shared_store) (key : string) (v : json) :
  (forall k default,
      In (k, default) reported_settings ->
      dict_get (config_report days secs (mk_server w (JObj cfg) cf)) k JNull
      = dict_get cfg k default)
  /\ (forall default,
         In (key, default) reported_settings ->
         dict_get (config_report days secs
                     (snd (store_setting key v (mk_server w (JObj cfg) cf))))
           key JNull = v)
  /\ (forall k,
         k <> key ->
         dict_get (config_report days secs
                     (snd (store_setting key v (mk_server w (JObj cfg) cf))))
           k JNull
         = dict_get (config_report days secs (mk_server w (JObj cfg) cf)) k JNull)
  /\ (forall k,
         dict_get (config_report days secs
                     (snd (store_setting "port" v (mk_server w (JObj cfg) cf))))
           k JNull
         = dict_get (config_report days secs (mk_server w (JObj cfg) cf)) k JNull).
Proof.
  rewrite !store_setting_eq. cbn [snd].
  split; [ | split; [ | split]].
  - intros k default Hin. rewrite config_report_lookup.
    rewrite (reported_default k default Hin). reflexivity.
  - intros default Hin. rewrite config_report_lookup.
    rewrite (reported_default key default Hin), dict_get_dict_set.
    rewrite String.eqb_refl. reflexivity.
  - intros k Hk. rewrite !config_report_lookup.
    destruct (dict_find k reported_settings); [ | reflexivity].
    rewrite dict_get_dict_set. apply String.eqb_neq in Hk. rewrite Hk. reflexivity.
  - intros k. rewrite !config_report_lookup.
    destruct (dict_find k reported_settings) eqn:E; [ | reflexivity].
    rewrite dict_get_dict_set.
    destruct (String.eqb k "port") eqn:Ek; [ | reflexivity].
    apply String.eqb_eq in Ek. subst k. discriminate E.
Qed.

Lemma config_report_after_update_witness :
  In ("timeout", JNum 30) reported_settings
  /\ dict_get (config_report 0 0
                 (snd (store_setting "timeout" (JNum 60)
                         (mk_server (fresh "2025-01-02"
                                       (mk_store Missing true WriteCompletes))
                            (JObj []) (mk_store Missing true WriteCompletes)))))
       "timeout" JNull = JNum 60.
Proof.
  assert (H : In ("timeout", JNum 30) reported_settings).
  { unfold reported_settings. simpl. tauto. }
  split; [exact H | ].
  exact (proj1 (proj2 (config_report_after_update 0 0
                          (fresh "2025-01-02" (mk_store Missing true WriteCompletes))
                          [] (mk_store Missing true WriteCompletes)
                          "timeout" (JNum 60)))
           (JNum 30) H).
Defined.

(** *** The log level and the host *)








(** *** Loading the configuration and starting *)

Lemma load_server_config_eq w cfg cf :
  load_server_config (mk_server w cfg cf)
  = match content cf with
    | Missing =>
        (Ok (JObj default_config),
         mk_server w (JObj default_config) (written (JObj default_config) cf))
    | Unparsable =>
        (Ok (JObj default_config), mk_server w (JObj default_config) cf)
    | Document j =>
        if readable cf
        then (Ok j, mk_server w j cf)
        else (Ok (JObj default_config), mk_server w (JObj default_config) cf)
    end.
Proof.
  unfold load_server_config, bind, try_except, with_config_file, set_config,
    modify, the_config.
  cbn [proc server_config config_file].
  destruct cf as [cont rd ow]. unfold os_path_exists, open_r_json_load.
  cbn [content readable].
  destruct cont as [ | | j].
  - cbn [snd fst]. rewrite save_server_config_eq. reflexivity.
  - destruct rd; reflexivity.
  - destruct rd; reflexivity.
Qed.

Lemma simulator_arguments_ok config :
  (exists args, simulator_arguments config = Ok args)
  <-> exists d, config = JObj d /\ forallb (dict_has d) startup_keys = true.
Proof.
  unfold simulator_arguments, startup_keys, py_subscript, dict_has.
  cbn [forallb]. split.
  - intros [args H]. destruct config as [ | b | n | str | l | d]; try discriminate H.
    exists d. split; [reflexivity | ].
    destruct (dict_find "host" d); [ | discriminate H].
    destruct (dict_find "web_port" d); [ | discriminate H].
    destruct (dict_find "sms_port" d); [ | discriminate H].
    destruct (dict_find "http_port" d); [ | discriminate H].
    destruct (dict_find "https_port" d); [ | discriminate H].
    reflexivity.
  - intros [d [-> H]].
    destruct (dict_find "host" d); [ | discriminate H].
    destruct (dict_find "web_port" d); [ | discriminate H].
    destruct (dict_find "sms_port" d); [ | discriminate H].
    destruct (dict_find "http_port" d); [ | discriminate H].
    destruct (dict_find "https_port" d); [ | discriminate H].
    eexists. reflexivity.
Qed.

Lemma main_startup_eq s :
  main_startup s
  = (simulator_arguments (server_config (snd (load_server_config s))),
     snd (load_server_config s))
  /\ fst (load_server_config s) = Ok (server_config (snd (load_server_config s))).
Proof.
  destruct s as [w cfg cf]. unfold main_startup, bind, lift_result.
  rewrite load_server_config_eq.
  destruct (content cf); [split; reflexivity | split; reflexivity | ].
  destruct (readable cf); split; reflexivity.
Qed.

(** X14: [load_server_config] never raises and always returns the
    [server_config] it has set: the document of the configuration file when
    the file can be read and parsed, whatever that document is, and the
    default configuration otherwise; only when the file is missing does it
    write the default to the file.  The start of the simulator, which reads
    the keys host, web_port, sms_port, http_port and https_port from the
    result, succeeds exactly when the file can be read and holds a JSON
    object with these five keys; when the file is missing, unreadable or
    unparsable it raises [KeyError], the default configuration having no
    [http_port]. *)
Theorem startup_needs_http_port (s : server) :
  fst (load_server_config s) = Ok (server_config (snd (load_server_config s)))
  /\ (content (config_file s) <> Missing ->
      config_file (snd (load_server_config s)) = config_file s)
  /\ ((exists args, fst (main_startup s) = Ok args)
      <-> (exists d, content (config_file s) = Document (JObj d)
                     /\ readable (config_file s) = true
                     /\ forallb (dict_has d) startup_keys = true))
  /\ ((content (config_file s) = Missing
       \/ content (config_file s) = Unparsable
       \/ readable (config_file s) = false) ->
      fst (main_startup s) = Raise KeyError
      /\ server_config (snd (main_startup s)) = JObj default_config).
Proof.
  destruct (main_startup_eq s) as [Hm Hl].
  split; [exact Hl | ]. rewrite Hm. cbn [fst snd]. clear Hm Hl.
  destruct s as [w cfg cf]. rewrite load_server_config_eq.
  cbn [config_file].
  split; [ | split].
  - intros Hc. destruct (content cf); [contradiction | reflexivity | ].
    destruct (readable cf); reflexivity.
  - rewrite simulator_arguments_ok.
    destruct (content cf) as [ | | j] eqn:Hc; cbn [snd server_config].
    + split.
      * intros [d [Hd Hk]]. inversion Hd. subst d. discriminate Hk.
      * intros [d [Hd _]]. discriminate Hd.
    + split.
      * intros [d [Hd Hk]]. inversion Hd. subst d. discriminate Hk.
      * intros [d [Hd _]]. discriminate Hd.
    + destruct (readable cf) eqn:Hr; cbn [snd server_config].
      * split.
        -- intros [d [-> Hk]]. exists d. repeat split. exact Hk.
        -- intros [d [Hd [_ Hk]]]. inversion Hd. subst j. exists d. split; auto.
      * split.
        -- intros [d [Hd Hk]]. inversion Hd. subst d. discriminate Hk.
        -- intros [d [_ [Hd _]]]. discriminate Hd.
  - intros H. destruct (content cf) as [ | | j] eqn:Hc; cbn [snd server_config].
    + split; reflexivity.
    + split; reflexivity.
    + destruct (readable cf) eqn:Hr; cbn [snd server_config].
      * destruct H as [H | [H | H]]; discriminate H.
      * split; reflexivity.
Qed.

Lemma startup_needs_http_port_witness :
  fst (main_startup started_server) = Raise KeyError.
Proof.
  destruct (startup_needs_http_port started_server) as [_ [_ [_ H]]].
  apply H. left. reflexivity.
Defined.

Lemma after_starts_default n cf :
  content cf = Document (JObj default_config) -> readable cf = true ->
  forall w cfg,
    config_file (after_starts n (mk_server w cfg cf)) = cf
    /\ proc (after_starts n (mk_server w cfg cf)) = w.
Proof.
  intros Hc Hr. induction n as [ | n IH]; intros w cfg; [split; reflexivity | ].
  unfold after_starts in *. rewrite Nat.iter_succ.
  destruct (IH w cfg) as [Hcf Hw].
  destruct (Nat.iter n (fun s' => snd (main_startup s')) (mk_server w cfg cf))
    as [w' cfg' cf'].
  cbn [config_file proc] in Hcf, Hw. subst cf' w'. cbv beta.
  destruct (main_startup_eq (mk_server w cfg' cf)) as [-> _]. cbn [snd].
  rewrite load_server_config_eq, Hc, Hr. split; reflexivity.
Qed.

(** X15: an installation without a configuration file never gets past the
    start.  The first start writes the default configuration to the file
    and raises [KeyError]; every later start reads that file back and
    raises [KeyError] again, leaving the file as it is. *)
Theorem fresh_installation_never_starts (s : server) (n : nat) :
  content (config_file s) = Missing ->
  readable (config_file s) = true ->
  on_write (config_file s) = WriteCompletes ->
  fst (main_startup (after_starts n s)) = Raise KeyError
  /\ content (config_file (after_starts (S n) s)) = Document (JObj default_config).
Proof.
  intros Hc Hr Hw. destruct s as [w cfg [cont rd ow]].
  cbn [config_file content readable on_write] in *. subst cont rd ow.
  set (cf1 := mk_store (Document (JObj default_config)) true WriteCompletes).
  assert (H1 : snd (main_startup (mk_server w cfg (mk_store Missing true WriteCompletes)))
               = mk_server w (JObj default_config) cf1).
  { destruct (main_startup_eq (mk_server w cfg (mk_store Missing true WriteCompletes)))
      as [-> _]. reflexivity. }
  assert (Hiter : forall m, after_starts (S m) (mk_server w cfg
                                                 (mk_store Missing true WriteCompletes))
                            = after_starts m (mk_server w (JObj default_config) cf1)).
  { intros m. unfold after_starts. rewrite Nat.iter_succ_r, H1. reflexivity. }
  split.
  - destruct n as [ | m].
    + reflexivity.
    + rewrite Hiter.
      destruct (after_starts_default m cf1 eq_refl eq_refl w (JObj default_config))
        as [Hcf Hw'].
      destruct (after_starts m (mk_server w (JObj default_config) cf1))
        as [w' cfg' cf'].
      cbn [config_file proc] in Hcf, Hw'. subst cf' w'.
      destruct (main_startup_eq (mk_server w cfg' cf1)) as [-> _]. reflexivity.
  - rewrite Hiter.
    destruct (after_starts_default n cf1 eq_refl eq_refl w (JObj default_config))
      as [-> _].
    reflexivity.
Qed.

Lemma fresh_installation_never_starts_witness :
  fst (main_startup (after_starts 3 started_server)) = Raise KeyError.
Proof.
  exact (proj1 (fresh_installation_never_starts started_server 3
                  eq_refl eq_refl eq_refl)).
Defined.

(** X16: what [save_server_config] writes is what [load_server_config]
    reads.  When the file can be written and read, loading after saving
    returns the configuration that was saved and changes nothing; when the
    file cannot be opened for writing, saving leaves it as it was and
    raises nothing. *)
Theorem save_then_load (s : server) :
  fst (save_server_config s) = Ok tt
  /\ (on_write (config_file s) = WriteCompletes ->
      readable (config_file s) = true ->
      load_server_config (snd (save_server_config s))
      = (Ok (server_config s), snd (save_server_config s)))
  /\ (on_write (config_file s) = OpenDenied ->
      snd (save_server_config s) = s).
Proof.
  destruct s as [w cfg [cont rd ow]]. rewrite save_server_config_eq.
  cbn [fst snd config_file on_write readable server_config].
  split; [reflexivity | split].
  - intros -> ->. rewrite load_server_config_eq. reflexivity.
  - intros ->. reflexivity.
Qed.

Lemma save_then_load_witness :
  fst (load_server_config (snd (save_server_config started_server)))
  = Ok (JObj []).
Proof.
  destruct (save_then_load started_server) as [_ [H _]].
  rewrite (H eq_refl eq_refl). reflexivity.
Defined.

(** ** The stand-alone port-80 listener *)

Lemma save80_eq msg now d o :
  http_server_80._save_message_to_shared_file msg now (http_server_80.mk_world d o)
  = (Ok tt,
     http_server_80.mk_world
       (match stored_messages80 d with
        | Some l => written (mapping80 (keep_last_100 (l ++ [JObj msg])) now) d
        | None => d
        end) o).
Proof.
  unfold http_server_80._save_message_to_shared_file, stored_messages80, written,
    mapping80, keep_last_100, http_server_80.MAX_MESSAGES,
    try_except, try_except_only, bind, http_server_80.with_disk, lift_result, ret,
    open_w_json_dump, bind, os_path_exists, open_r_json_load, open_w, json_dump.
  destruct d as [cont rd ow].
  destruct cont as [ | | j].
  - destruct ow; reflexivity.
  - destruct rd; [destruct ow | ]; reflexivity.
  - destruct rd; [ | reflexivity].
    destruct j as [ | b | n | str | l | fields]; try reflexivity.
    cbn [http_server_80.disk http_server_80.wfile content readable on_write fst snd
         http_server_80.py_get http_server_80.decode_or_key_error].
    destruct (dict_get fields "messages" (JArr [])) as [ | b | n | str | l | f'];
      try reflexivity.
    cbn [http_server_80.py_append].
    destruct ow; reflexivity.
Qed.

Lemma handle80_eq params stamp now d o :
  exists resp,
    http_server_80._handle_sms_request params stamp now (http_server_80.mk_world d o)
    = (Ok tt,
       http_server_80.mk_world
         (match stored_messages80 d with
          | Some l =>
              written (mapping80 (keep_last_100
                                    (l ++ [JObj (record80 params stamp now)])) now) d
          | None => d
          end) (o ++ [resp]))
    /\ status_code resp = 200
    /\ dict_get (body resp) "status" JNull = JStr "success".
Proof.
  unfold http_server_80._handle_sms_request, try_except, bind.
  fold (record80 params stamp now). rewrite save80_eq.
  eexists. split; [reflexivity | split; reflexivity].
Qed.

(** X17: the stand-alone port-80 listener answers every request on
    [/cgi-bin/smshandler.pl] with 200 and the status [success]: it validates
    nothing, so a request without any recognized field is accepted, and the
    answer is the same when nothing was stored because the shared file could
    not be opened, holds a document that is not a mapping, or could not be
    written.  Any other path is answered 404 and leaves the file alone; in
    no case does [do_GET] raise. *)
Theorem port80_listener_always_succeeds (req : request) (stamp now : string)
    (w : http_server_80.world) :
  fst (http_server_80_routes.do_GET req stamp now w) = Ok tt
  /\ (req_path req = "/cgi-bin/smshandler.pl" ->
      exists resp,
        http_server_80.wfile (snd (http_server_80_routes.do_GET req stamp now w))
        = http_server_80.wfile w ++ [resp]
        /\ status_code resp = 200
        /\ dict_get (body resp) "status" JNull = JStr "success")
  /\ (req_path req = "/cgi-bin/smshandler.pl" ->
      stored_messages80 (http_server_80.disk w) = None
      \/ on_write (http_server_80.disk w) = OpenDenied ->
      http_server_80.disk (snd (http_server_80_routes.do_GET req stamp now w))
      = http_server_80.disk w)
  /\ (req_path req <> "/cgi-bin/smshandler.pl" ->
      exists resp,
        http_server_80_routes.do_GET req stamp now w
        = (Ok tt, http_server_80.mk_world (http_server_80.disk w)
                    (http_server_80.wfile w ++ [resp]))
        /\ status_code resp = 404).
Proof.
  destruct w as [d o]. unfold http_server_80_routes.do_GET, try_except.
  cbn [http_server_80.disk http_server_80.wfile].
  destruct (handle80_eq (req_query req) stamp now d o) as [resp [Hr [Hc Hb]]].
  split; [ | split; [ | split]].
  - destruct (String.eqb (req_path req) "/cgi-bin/smshandler.pl").
    + rewrite Hr. reflexivity.
    + reflexivity.
  - intros Hp. rewrite Hp. cbn [String.eqb Ascii.eqb Bool.eqb]. rewrite Hr.
    exists resp. repeat split; assumption.
  - intros Hp Hfail. rewrite Hp. cbn [String.eqb Ascii.eqb Bool.eqb]. rewrite Hr.
    cbn [snd http_server_80.disk].
    destruct (stored_messages80 d) as [l | ]; [ | reflexivity].
    destruct Hfail as [Hfail | Hfail]; [discriminate Hfail | ].
    unfold written, open_w_json_dump, bind, open_w. rewrite Hfail. reflexivity.
  - intros Hp. apply String.eqb_neq in Hp. rewrite Hp.
    eexists. split; reflexivity.
Qed.

Lemma port80_listener_always_succeeds_witness :
  exists resp,
    http_server_80.wfile
      (snd (http_server_80_routes.do_GET
              (mk_request "/cgi-bin/smshandler.pl" "/cgi-bin/smshandler.pl" []
                 (Raise JSONDecodeError) (Ok []))
              "20250102_000000_000000" "2025-01-02" started_port80))
    = [resp]
    /\ status_code resp = 200.
Proof.
  destruct (port80_listener_always_succeeds
              (mk_request "/cgi-bin/smshandler.pl" "/cgi-bin/smshandler.pl" []
                 (Raise JSONDecodeError) (Ok []))
              "20250102_000000_000000" "2025-01-02" started_port80)
    as [_ [H _]].
  destruct (H eq_refl) as [resp [Hw [Hc _]]].
  exists resp. split; [exact Hw | exact Hc].
Defined.

Lemma port80_serve_invariant submissions :
  forall d o l,
    stored_messages80 d = Some l ->
    readable d = true -> on_write d = WriteCompletes ->
    (List.length l <= 100)%nat ->
    exists l' stamp,
      content (http_server_80.disk
                 (port80_serve submissions (http_server_80.mk_world d o)))
      = (match submissions with
         | [] => content d
         | _ => Document (mapping80 l' stamp)
         end)
      /\ stored_messages80
           (http_server_80.disk
              (port80_serve submissions (http_server_80.mk_world d o))) = Some l'
      /\ List.length l'
         = Nat.min (List.length l + List.length submissions) 100.
Proof.
  induction submissions as [ | [params [stamp now]] rest IH];
    intros d o l Hl Hr Hw Hlen.
  - exists l, "". cbn [port80_serve fold_left http_server_80.disk List.length].
    split; [reflexivity | split; [exact Hl | lia]].
  - unfold port80_serve. cbn [fold_left fst snd].
    destruct (handle80_eq params stamp now d o) as [resp [-> _]].
    cbn [snd]. rewrite Hl.
    set (l1 := keep_last_100 (l ++ [JObj (record80 params stamp now)])).
    assert (Hd1 : written (mapping80 l1 now) d
                  = mk_store (Document (mapping80 l1 now)) true WriteCompletes).
    { unfold written, open_w_json_dump, bind, open_w, json_dump.
      destruct d as [cont rd ow]. cbn [on_write readable] in *. subst rd ow.
      reflexivity. }
    rewrite Hd1.
    assert (Hl1 : List.length l1 = Nat.min (List.length l + 1) 100).
    { unfold l1. rewrite keep_last_100_last_n, last_n_length, length_app.
      cbn [List.length]. lia. }
    destruct (IH (mk_store (Document (mapping80 l1 now)) true WriteCompletes)
                (o ++ [resp]) l1 eq_refl eq_refl eq_refl) as [l' [stamp' [Hc [Hs Hn]]]];
      [lia | ].
    fold (port80_serve rest
            (http_server_80.mk_world
               (mk_store (Document (mapping80 l1 now)) true WriteCompletes)
               (o ++ [resp]))).
    destruct rest as [ | sub rest'].
    + exists l1, now. cbn [port80_serve fold_left http_server_80.disk content].
      split; [reflexivity | split; [reflexivity | ]].
      cbn [List.length]. lia.
    + exists l', stamp'. split; [exact Hc | split; [exact Hs | ]].
      rewrite Hn, Hl1. cbn [List.length]. lia.
Qed.

(** X18: the file the stand-alone port-80 listener keeps is always a
    mapping whose [total_count] is the length of [messages], and that
    length never exceeds 100: starting without a file, after [n] submissions
    (with the file readable and writable) the file holds a mapping with
    min(n, 100) messages and that number as [total_count]. *)
Theorem port80_file_is_capped (submissions : list (query * (string * string))) :
  submissions <> [] ->
  exists l stamp,
    content (http_server_80.disk (port80_serve submissions started_port80))
    = Document (JObj [ ("messages", JArr l);
                       ("total_count", JNum (Z.of_nat (List.length l)));
                       ("last_updated", JStr stamp) ])
    /\ List.length l = Nat.min (List.length submissions) 100.
Proof.
  intros Hne.
  destruct (port80_serve_invariant submissions
              (mk_store Missing true WriteCompletes) [] [] eq_refl eq_refl eq_refl)
    as [l [stamp [Hc [_ Hn]]]]; [simpl; lia | ].
  exists l, stamp. split; [ | exact Hn].
  unfold started_port80. rewrite Hc.
  destruct submissions; [contradiction | reflexivity].
Qed.

Lemma port80_file_is_capped_witness :
  exists l stamp,
    content (http_server_80.disk
               (port80_serve (repeat ([], ("s", "2025-01-02")) 101) started_port80))
    = Document (JObj [ ("messages", JArr l);
                       ("total_count", JNum (Z.of_nat (List.length l)));
                       ("last_updated", JStr stamp) ])
    /\ List.length l = 100%nat.
Proof.
  assert (Hne : repeat (@nil (string * (string * list string)),
                        ("s", "2025-01-02")) 101 <> [])
    by discriminate.
  destruct (port80_file_is_capped _ Hne) as [l [stamp [Hc Hn]]].
  exists l, stamp. split; [exact Hc | ]. rewrite Hn. reflexivity.
Defined.

(** ** The shared file between processes *)

Lemma step_disk e w :
  own_event e = true ->
  disk (step w e) = disk w \/ exists msg, disk (step w e) = saved msg (disk w).
Proof.
  intros He. destruct w as [[c v s f t] d o].
  destruct e; try discriminate He; unfold step, exec, bind.
  - destruct (process_sms_eq apdu_data msisdn now_response now_record c v s f t d o)
      as [response [-> _]].
    left. reflexivity.
  - rewrite add_message_eq. right. eexists. reflexivity.
  - rewrite simulate_outgoing_message_eq. right. eexists. reflexivity.
  - left. reflexivity.
  - left. reflexivity.
  - rewrite load_shared_messages_eq. left. reflexivity.
Qed.

(** X19: a shared file whose document can be read but is not a list (the
    mapping written by the stand-alone port-80 listener, for one) is never
    written again by a simulator process: whatever methods are called, and
    as long as nothing else changes the file, the file stays as it is, so
    that no record of the process reaches it. *)
Theorem foreign_document_never_replaced (es : list event) (w : world) :
  stored_list (disk w) = None ->
  forallb own_event es = true ->
  disk (run es w) = disk w.
Proof.
  intros Hnone Hown.
  apply (run_invariant (fun w' => disk w' = disk w) own_event); [ | exact Hown | reflexivity].
  intros w' e He Hw'.
  destruct (step_disk e w' He) as [H | [msg H]]; rewrite H.
  - exact Hw'.
  - rewrite saved_eq, Hw', Hnone. reflexivity.
Qed.

Lemma foreign_document_never_replaced_witness :
  disk (run [Call_add_message [] "2025-01-02";
             Call_simulate_outgoing_message "5511" "hello" "2025-01-02"]
          beside_port80)
  = disk beside_port80.
Proof.
  apply foreign_document_never_replaced; reflexivity.
Defined.

Lemma discovered_in ids items r :
  In r (fst (discovered ids items)) -> In (JObj r) items.
Proof.
  induction items as [ | item rest IH]; simpl; [tauto | ].
  destruct item as [ | b | n | str | l | fields]; simpl; try tauto.
  destruct (py_hash (dict_get fields "id" JNull)) as [k | e]; simpl; [ | tauto].
  destruct (discovered ids rest) as [news completed]. simpl in *.
  destruct (negb (set_mem k ids)); simpl.
  - intros [H | H]; [left; congruence | right; exact (IH H)].
  - intros H. right. exact (IH H).
Qed.

Lemma discovered_unknown ids items r :
  In r (fst (discovered ids items)) ->
  exists k, py_hash (dict_get r "id" JNull) = Ok k /\ set_mem k ids = false.
Proof.
  induction items as [ | item rest IH]; simpl; [tauto | ].
  destruct item as [ | b | n | str | l | fields]; simpl; try tauto.
  destruct (py_hash (dict_get fields "id" JNull)) as [k | e] eqn:Hk; simpl; [ | tauto].
  destruct (discovered ids rest) as [news completed]. simpl in *.
  destruct (set_mem k ids) eqn:Hm; simpl.
  - exact IH.
  - intros [H | H]; [subst fields; exists k; split; assumption | exact (IH H)].
Qed.

Lemma in_last_n {A : Type} (n : nat) (l : list A) (x : A) :
  In x (last_n n l) -> In x l.
Proof.
  unfold last_n. intros H.
  rewrite <- (firstn_skipn (List.length l - n) l). apply in_or_app. right. exact H.
Qed.

(** X20: a reconcile never raises and touches nothing but the view: the
    counters, the start time, the shared file and the responses stay as
    they are.  Every record of the view it leaves was in the view before or
    is a dictionary item of the list in the shared file whose id no record
    of the view carried; and when the file is missing, unparsable or cannot
    be read, the view is unchanged. *)
Theorem reconcile_only_imports (w : world) :
  let w' := snd (load_shared_messages w) in
  fst (load_shared_messages w) = Ok tt
  /\ message_counter (sms_handler w') = message_counter (sms_handler w)
  /\ successful_messages (sms_handler w') = successful_messages (sms_handler w)
  /\ failed_messages (sms_handler w') = failed_messages (sms_handler w)
  /\ start_time (sms_handler w') = start_time (sms_handler w)
  /\ disk w' = disk w
  /\ wfile w' = wfile w
  /\ (forall r, In r (view w') ->
        In r (view w)
        \/ (known (view w) r = false
            /\ exists j items,
                 content (disk w) = Document j /\ readable (disk w) = true
                 /\ py_iter j = Ok items /\ In (JObj r) items))
  /\ ((forall j, content (disk w) <> Document j) \/ readable (disk w) = false ->
      view w' = view w).
Proof.
  destruct w as [[c v s f t] d o]. cbv zeta. rewrite load_shared_messages_eq.
  cbn [fst snd sms_handler disk wfile view message_counter successful_messages
       failed_messages start_time processed_messages].
  repeat (split; [reflexivity | ]).
  split.
  - intros r Hr.
    assert (Hm : In r (merged v d)).
    { unfold reconciled in Hr. destruct (snd (merge_outcome v d)); [ | exact Hr].
      rewrite keep_last_100_last_n in Hr. exact (in_last_n _ _ _ Hr). }
    unfold merged in Hm. apply in_app_or in Hm. destruct Hm as [Hm | Hm];
      [left; exact Hm | right].
    unfold merge_outcome in Hm.
    destruct (content d) as [ | | j] eqn:Hc; try (simpl in Hm; contradiction).
    destruct (readable d) eqn:Hrd; [ | simpl in Hm; contradiction].
    destruct (id_set v) as [ids | e] eqn:Hids; [ | simpl in Hm; contradiction].
    destruct (py_iter j) as [items | e] eqn:Hit; [ | simpl in Hm; contradiction].
    split.
    + destruct (discovered_unknown ids items r Hm) as [k [Hk Hmem]].
      unfold known. rewrite Hk. rewrite <- (id_set_mem v ids k Hids). exact Hmem.
    + exists j, items.
      split; [reflexivity | split; [reflexivity | split; [exact Hit | ]]].
      exact (discovered_in ids items r Hm).
  - intros Hd. unfold reconciled, merged, merge_outcome.
    destruct (content d) as [ | | j] eqn:Hc; cbn [fst snd]; try apply app_nil_r.
    destruct Hd as [Hd | Hd]; [exfalso; exact (Hd j eq_refl) | ].
    rewrite Hd. cbn [fst snd]. apply app_nil_r.
Qed.

Lemma reconcile_only_imports_witness :
  view (snd (load_shared_messages
               (fresh "2025-01-02" (mk_store Unparsable true WriteCompletes))))
  = [].
Proof.
  destruct (reconcile_only_imports
              (fresh "2025-01-02" (mk_store Unparsable true WriteCompletes)))
    as [_ [_ [_ [_ [_ [_ [_ [_ H]]]]]]]].
  apply H. left. intros j Hj. discriminate Hj.
Defined.

(** X21: the cap of one hundred records is not re-applied by a reconcile
    that stops early.  When the list in the shared file holds a record whose
    id the view does not carry, followed by an item that is not a
    dictionary, the reconcile appends the record, stops at the item and
    skips the cap: the view is the old view with the record appended,
    whatever its length, so a view of 100 records becomes one of 101. *)
Theorem reconcile_abort_skips_cap (c s f : Z) (t : string) (v : list pydict)
    (ids : list pykey) (r : pydict) (k : pykey) (junk : json) (rest : list json)
    (d : shared_store) (o : list response) :
  id_set v = Ok ids ->
  py_hash (dict_get r "id" JNull) = Ok k ->
  set_mem k ids = false ->
  is_dict junk = false ->
  content d = Document (JArr (JObj r :: junk :: rest)) ->
  readable d = true ->
  load_shared_messages (mk_world (mk_SMSHandler c v s f t) d o)
  = (Ok tt, mk_world (mk_SMSHandler c (v ++ [r]) s f t) d o)
  /\ List.length (v ++ [r]) = S (List.length v).
Proof.
  intros Hids Hk Hmem Hjunk Hc Hrd. split.
  - rewrite load_shared_messages_eq.
    unfold reconciled, merged, merge_outcome. rewrite Hc, Hrd, Hids.
    cbn [py_iter discovered]. rewrite Hk.
    destruct junk as [ | b | n | str | l | fields]; try discriminate Hjunk;
      cbn [fst snd]; rewrite Hmem; reflexivity.
  - rewrite length_app. cbn [List.length]. lia.
Qed.

Lemma reconcile_abort_skips_cap_witness :
  List.length (view (snd (load_shared_messages
                            (mk_world (mk_SMSHandler 100 full_view 100 0 "2025-01-02")
                               file_with_number []))))
  = 101%nat.
Proof.
  rewrite (proj1 (reconcile_abort_skips_cap 100 100 0 "2025-01-02" full_view
                    (repeat (KInt 1) 100) (record_with_id 2) (KInt 2) (JNum 5) []
                    file_with_number []
                    eq_refl eq_refl eq_refl eq_refl eq_refl eq_refl)).
  reflexivity.
Defined.
